(** * Animal Impact Tracker: the two HTTP backends, embedded and verified

    The repository ships two interchangeable servers:

    - [server.ts] with [database.ts]: the relational backend (SQLite through
      [dbRun]/[dbGet]/[dbAll]);
    - [simple-server.ts]: the flat-document backend (one in-memory object with
      an array per entity and a single id counter, rewritten to [data.json]
      on every mutation).

    Both are embedded here as pure functions over an explicit store.  Every
    route handler runs in a small monad that threads the store, records the
    observable effects (hashing, signing, verification, storage writes) and
    supports the early [return res.status(..)] of the source.

    The single-page client's [AuthProvider] (its [login], [register] and
    [logout], over [api.post] and [localStorage]) is embedded as a state
    record and run against either server.

    Conventions.
    - A JavaScript [number] is an IEEE-754 binary64 value: [float].
    - Array lengths and SQL [COUNT( * )] results are small non-negative
      integers on which JavaScript arithmetic is exact; they are kept in [Z].
    - A JavaScript string is a [string]; each character stands for one code
      unit in the range U+0000..U+00FF.
    - Time stamps ([new Date().toISOString()], [CURRENT_TIMESTAMP]) are kept
      as the instant they render, in milliseconds; both renderings are
      order-isomorphic to the instant.
    - A request body is the object [express.json()] parsed; its text
      fields are absent or strings, an [amount] or [reach_estimate] is any
      JSON scalar.
    - [express-rate-limit] sits in front of every route and answers on its
      own clock; the routes are modelled as reached once it lets a request
      through. *)

From Stdlib Require Import ZArith List String Ascii Bool Lia Floats QArith.
From Stdlib Require Import Sorting.Sorted Sorting.Permutation.
Import ListNotations.

Open Scope string_scope.
Open Scope list_scope.
Open Scope Z_scope.

(* ================================================================== *)
(** * JavaScript values carried by a JSON request body *)
(* ================================================================== *)

Module JS.

(** A field of [req.body] after [express.json()]: absent, [null], a boolean,
    a number or a string. *)
Inductive value : Type :=
| Undefined
| Null
| Bool (b : bool)
| Num (x : float)
| Str (s : string).

Definition str_truthy (s : string) : bool :=
  match s with EmptyString => false | String _ _ => true end.

(** [ToBoolean]: what [!v] negates. *)
Definition truthy (v : value) : bool :=
  match v with
  | Undefined | Null => false
  | Bool b => b
  | Num x => negb (PrimFloat.is_zero x || PrimFloat.is_nan x)
  | Str s => str_truthy s
  end.

(** A text field that is either absent or a string. *)
Definition opt_truthy (o : option string) : bool :=
  match o with Some s => str_truthy s | None => false end.

(** [o || ''] on a text field. *)
Definition or_empty (o : option string) : string :=
  match o with Some s => s | None => "" end.

(** ** [parseFloat] *)

Definition is_ws (c : ascii) : bool :=
  let n := N_of_ascii c in
  ((9 <=? n) && (n <=? 13) || (n =? 32) || (n =? 160))%N.

Fixpoint trim_start (s : string) : string :=
  match s with
  | String c r => if is_ws c then trim_start r else s
  | EmptyString => s
  end.

Definition digit_of (c : ascii) : option Z :=
  let n := N_of_ascii c in
  if ((48 <=? n) && (n <=? 57))%N then Some (Z.of_N n - 48) else None.

(** Longest run of decimal digits at the head of [s]: the accumulated value,
    the number of digits read, and the rest. *)
Fixpoint read_digits (s : string) (acc : Z) (cnt : Z) : Z * Z * string :=
  match s with
  | String c r =>
      match digit_of c with
      | Some d => read_digits r (10 * acc + d) (cnt + 1)
      | None => (acc, cnt, s)
      end
  | EmptyString => (acc, cnt, s)
  end.

Definition read_sign (s : string) : bool * string :=
  match s with
  | String "-" r => (true, r)
  | String "+" r => (false, r)
  | _ => (false, s)
  end.

(** The exponent part, counted only when at least one digit follows. *)
Definition read_exponent (s : string) : Z :=
  match s with
  | String c r =>
      if (Ascii.eqb c "e" || Ascii.eqb c "E")%bool then
        let '(neg, r') := read_sign r in
        let '(e, n, _) := read_digits r' 0 0 in
        if n =? 0 then 0 else if neg then - e else e
      else 0
  | EmptyString => 0
  end.

(** Round [(-1)^neg * m * 10^e] to the nearest binary64, ties to even.  For a
    negative [e] the quotient is taken with 64 guard bits and a sticky bit. *)
Definition round_decimal (neg : bool) (m : Z) (e : Z) : float :=
  let sf :=
    if m =? 0 then S754_zero neg
    else
      let '(n, x) :=
        if 0 <=? e then (m * 10 ^ e, 0)
        else
          let den := 10 ^ (- e) in
          let k := Z.max 0 (Z.log2 den - Z.log2 m) + 64 in
          let q := Z.shiftl m k / den in
          let r := Z.shiftl m k mod den in
          (2 * q + (if r =? 0 then 0 else 1), - (k + 1)) in
      binary_normalize prec emax (if neg then - n else n) x neg in
  SF2Prim sf.

(** [parseFloat] on a string: the longest prefix of the trimmed string that
    is a [StrDecimalLiteral], or [NaN]. *)
Definition parseFloat_string (s : string) : float :=
  let '(neg, s1) := read_sign (trim_start s) in
  if prefix "Infinity" s1 then (if neg then neg_infinity else infinity)
  else
    let '(ip, ni, s2) := read_digits s1 0 0 in
    let '(m, nf, s3) :=
      match s2 with
      | String "." r =>
          let '(m, nf, r') := read_digits r ip 0 in
          if (ni =? 0) && (nf =? 0) then (ip, 0, s2) else (m, nf, r')
      | _ => (ip, 0, s2)
      end in
    if (ni =? 0) && (nf =? 0) then nan
    else round_decimal neg m (read_exponent s3 - nf).

(** [parseFloat(v)] first converts [v] to a string.  For a number the
    conversion round-trips ([Number::toString] prints digits that identify
    the value), except that [-0] prints as ["0"]; [undefined], [null] and the
    booleans print as words that are no numeric prefix. *)
Definition parseFloat (v : value) : float :=
  match v with
  | Num x => if PrimFloat.is_zero x then zero else x
  | Str s => parseFloat_string s
  | Undefined | Null | Bool _ => nan
  end.

(** [s.split(' ')] *)
Fixpoint split_space_aux (s : string) (cur : string) : list string :=
  match s with
  | EmptyString => [cur]
  | String c r =>
      if Ascii.eqb c " " then cur :: split_space_aux r ""
      else split_space_aux r (cur ++ String c "")%string
  end.

Definition split_space (s : string) : list string := split_space_aux s "".

End JS.

(* ================================================================== *)
(** * What the libraries provide *)
(* ================================================================== *)

(** The payload [{ userId, email }] that [jwt.sign] embeds and that
    [jwt.verify] hands to the route as [req.user]. *)
Record Identity : Type := { userId : Z; email : string }.

(** [expiresIn: '7d'], in seconds. *)
Definition token_lifetime : Z := 7 * 24 * 60 * 60.

(** A number as the SQL engine holds and compares it: an exact value, or
    an infinity (a REAL can be one). *)
Inductive SqlNumber : Type :=
| MinusInfinity
| Exactly (q : Q)
| PlusInfinity.

(** [bcryptjs], [jsonwebtoken] (under the fixed [JWT_SECRET]), the
    JavaScript built-in [parseInt] and three pieces of the SQL engine are
    not code of the repository: they are taken as an interface.  The salt
    that [bcrypt.hash] draws and the clock that [jwt] reads are made
    explicit arguments.  Of the engine:
    - [sqlite_sum] is [SUM] over values that are all REAL: an approximate
      sum, which never raises;
    - [sqlite_sum_partly_real] is [SUM] over an INTEGER column some of
      whose values are kept as REAL: a number, or the [integer overflow]
      error ([None]); which of the two depends on the engine's version;
    - [numeric_affinity] is what a column of NUMERIC affinity (one declared
      [DATE]) makes of a text on storage: the number it spells, if it is a
      well-formed number, or nothing, and the text stays text. *)
Class Runtime : Type := {
  bcrypt_hash : string -> string -> string;
  bcrypt_compare : string -> string -> bool;
  jwt_sign : Identity -> Z -> string;
  jwt_verify : string -> Z -> option Identity;
  parseInt : JS.value -> float;
  sqlite_sum : list float -> float;
  sqlite_sum_partly_real : list float -> option float;
  numeric_affinity : string -> option SqlNumber }.

(** What the libraries' documentation promises: a password verifies
    against its own hash; a token verifies to its payload from the moment
    it is issued until it expires; a token is not empty and contains no
    space. *)
Class RuntimeLaws (R : Runtime) : Prop := {
  bcrypt_compare_hash :
    forall salt password,
      bcrypt_compare password (bcrypt_hash salt password) = true;
  jwt_verify_sign :
    forall payload iat t,
      iat <= t < iat + token_lifetime ->
      jwt_verify (jwt_sign payload iat) t = Some payload;
  jwt_sign_compact :
    forall payload iat,
      jwt_sign payload iat <> "" /\
      JS.split_space (jwt_sign payload iat) = [jwt_sign payload iat] }.

(** What a request sees of the outside world: the clock in milliseconds and
    the salt drawn by [bcrypt.hash]. *)
Record Env : Type := { now : Z; salt : string }.

(** [Math.floor(Date.now() / 1000)], the clock as [jsonwebtoken] reads it. *)
Definition seconds (e : Env) : Z := now e / 1000.

(* ================================================================== *)
(** * Stored records *)
(* ================================================================== *)

(** The rows have the same fields in both backends ([interface User] ... in
    [simple-server.ts], [CREATE TABLE users] ... in [database.ts]). *)

Module User.
Record t : Type := {
  id : Z; email : string; name : string; password : string;
  created_at : Z }.
End User.

Module Donation.
Record t : Type := {
  id : Z; user_id : Z; organization : string; amount : float;
  date : string; notes : string; created_at : Z }.
End Donation.

Module Conversion.
Record t : Type := {
  id : Z; user_id : Z; person_name : string; conversion_date : string;
  influence_type : string; notes : string; created_at : Z }.
End Conversion.

Module Media.
Record t : Type := {
  id : Z; user_id : Z; platform : string; content_type : string;
  reach_estimate : float; date : string; url : string; notes : string;
  created_at : Z }.
End Media.

Module Campaign.
Record t : Type := {
  id : Z; user_id : Z; campaign_name : string; organization : string;
  participation_type : string; date : string;
  impact_description : string; created_at : Z }.
End Campaign.

(* ================================================================== *)
(** * Requests and responses *)
(* ================================================================== *)

Module RegisterBody.
Record t : Type := {
  email : option string; name : option string; password : option string }.
End RegisterBody.

Module LoginBody.
Record t : Type := { email : option string; password : option string }.
End LoginBody.

Module DonationBody.
Record t : Type := {
  organization : option string; amount : JS.value;
  date : option string; notes : option string }.
End DonationBody.

Module ConversionBody.
Record t : Type := {
  person_name : option string; conversion_date : option string;
  influence_type : option string; notes : option string }.
End ConversionBody.

Module MediaBody.
Record t : Type := {
  platform : option string; content_type : option string;
  reach_estimate : JS.value; date : option string;
  url : option string; notes : option string }.
End MediaBody.

Module CampaignBody.
Record t : Type := {
  campaign_name : option string; organization : option string;
  participation_type : option string; date : option string;
  impact_description : option string }.
End CampaignBody.

(** A request: the route, the [Authorization] header where the route reads
    it, and the body. *)
Inductive Request : Type :=
| PostRegister (body : RegisterBody.t)
| PostLogin (body : LoginBody.t)
| GetDashboard (authorization : option string)
| PostDonations (authorization : option string) (body : DonationBody.t)
| PostConversions (authorization : option string) (body : ConversionBody.t)
| PostMedia (authorization : option string) (body : MediaBody.t)
| PostCampaigns (authorization : option string) (body : CampaignBody.t).

(** [{ id, email, name }], with [created_at] when the handler selects it. *)
Record PublicUser : Type := {
  pu_id : Z; pu_email : string; pu_name : string;
  pu_created_at : option Z }.

Record Stats : Type := {
  totalDonations : float;
  conversionCount : Z;
  mediaCount : Z;
  totalReach : float;
  campaignCount : Z;
  animalsImpact : Z }.

Module Recent.
Record t : Type := {
  donations : list Donation.t;
  conversions : list Conversion.t;
  media : list Media.t;
  campaigns : list Campaign.t }.
End Recent.

Inductive Body : Type :=
| StatusText                       (* res.sendStatus(code) *)
| NotRouted                        (* no route matches *)
| Error (error : string)
| Session (message token : string) (user : PublicUser)
| Created (message : string) (id : Z)
| Dashboard (user : PublicUser) (stats : Stats) (recent : Recent.t).

Record Response : Type := { status : Z; body : Body }.

Definition json (code : Z) (b : Body) : Response :=
  {| status := code; body := b |}.

(** What a handler does besides answering. *)
Inductive Event : Type :=
| Verify (token : string)          (* jwt.verify *)
| Hash (password : string)         (* bcrypt.hash *)
| Compare (password : string)      (* bcrypt.compare *)
| Sign (payload : Identity)        (* jwt.sign *)
| Write (table : string).          (* push + saveDatabase, or INSERT *)

(* ================================================================== *)
(** * The handler monad *)
(* ================================================================== *)

(** A computation over a store [S] either yields a value or has already
    answered the request ([return res.status(..).json(..)], or the [catch]
    block after a rejected promise); in both cases it leaves a store and the
    effects it performed, in order. *)
Definition M (S A : Type) : Type :=
  S -> (Response + A) * S * list Event.

Definition ret {S A} (a : A) : M S A := fun s => (inr a, s, []).

Definition bind {S A B} (m : M S A) (k : A -> M S B) : M S B :=
  fun s =>
    match m s with
    | (inl r, s1, t1) => (inl r, s1, t1)
    | (inr a, s1, t1) =>
        let '(x, s2, t2) := k a s1 in (x, s2, t1 ++ t2)
    end.

Definition reply {S A} (r : Response) : M S A := fun s => (inl r, s, []).
Definition get {S} : M S S := fun s => (inr s, s, []).
Definition put {S} (s' : S) : M S unit := fun _ => (inr tt, s', []).
Definition emit {S} (e : Event) : M S unit := fun s => (inr tt, s, [e]).

Notation "x <- m ;; k" := (bind m (fun x => k))
  (at level 61, m at next level, right associativity).
Notation "m ;;; k" := (bind m (fun _ => k))
  (at level 61, right associativity).

(** Running a handler: the response, the store afterwards, the effects. *)
Definition run {S} (h : M S Response) (s : S) : Response * S * list Event :=
  match h s with
  | (inl r, s', t) => (r, s', t)
  | (inr r, s', t) => (r, s', t)
  end.

(** ** [authenticateToken] (identical in both servers) *)

Section Auth.
Context {R : Runtime}.

(** [authHeader && authHeader.split(' ')[1]] *)
Definition bearer_token (authHeader : option string) : option string :=
  match authHeader with
  | None => None
  | Some h => if JS.str_truthy h then nth_error (JS.split_space h) 1 else Some h
  end.

Definition authenticateToken {S} (env : Env) (authHeader : option string)
  : M S Identity :=
  match bearer_token authHeader with
  | Some (String c r as token) =>
      emit (Verify token) ;;;
      match jwt_verify token (seconds env) with
      | None => reply (json 403 StatusText)
      | Some user => ret user
      end
  | _ => reply (json 401 StatusText)
  end.
End Auth.

(** [x || 0] on a number, and on a row count. *)
Definition or_zero (x : float) : float :=
  if JS.truthy (JS.Num x) then x else zero.

Definition count_or_zero (c : Z) : Z := if c =? 0 then 0 else c.

(** What the seeding routines read from the clock: the successive
    [new Date()] readings and the three calendar dates derived from it. *)
Record SeedEnv : Type := {
  seed_salt : string;
  clock : nat -> Z;
  today : string;
  lastMonth : string;
  twoMonthsAgo : string }.

(** What the event loop runs without giving up control, as far as the stored
    users are concerned: a request from its first statement to its answer,
    or the rest of a registration that passed its checks earlier and was
    waiting for [bcrypt.hash]. *)
Inductive Turn : Type :=
| Whole (env : Env) (req : Request)
| Resumed (env : Env) (body : RegisterBody.t).

(* ================================================================== *)
(** * The flat-document backend: [simple-server.ts] *)
(* ================================================================== *)

Module Flat.

Record Database : Type := {
  users : list User.t;
  donations : list Donation.t;
  conversions : list Conversion.t;
  media : list Media.t;
  campaigns : list Campaign.t;
  lastId : Z }.

(** [loadDatabase] when [data.json] is absent or unreadable. *)
Definition empty : Database :=
  {| users := []; donations := []; conversions := []; media := [];
     campaigns := []; lastId := 0 |}.

Definition set_users (x : list User.t) (db : Database) : Database :=
  {| users := x; donations := donations db; conversions := conversions db;
     media := media db; campaigns := campaigns db; lastId := lastId db |}.

Definition set_donations (x : list Donation.t) (db : Database) : Database :=
  {| users := users db; donations := x; conversions := conversions db;
     media := media db; campaigns := campaigns db; lastId := lastId db |}.

Definition set_conversions (x : list Conversion.t) (db : Database) : Database :=
  {| users := users db; donations := donations db; conversions := x;
     media := media db; campaigns := campaigns db; lastId := lastId db |}.

Definition set_media (x : list Media.t) (db : Database) : Database :=
  {| users := users db; donations := donations db; conversions := conversions db;
     media := x; campaigns := campaigns db; lastId := lastId db |}.

Definition set_campaigns (x : list Campaign.t) (db : Database) : Database :=
  {| users := users db; donations := donations db; conversions := conversions db;
     media := media db; campaigns := x; lastId := lastId db |}.

Definition set_lastId (x : Z) (db : Database) : Database :=
  {| users := users db; donations := donations db; conversions := conversions db;
     media := media db; campaigns := campaigns db; lastId := x |}.

(** [++db.lastId] *)
Definition nextId : M Database Z :=
  db <- get ;;
  let i := lastId db + 1 in
  put (set_lastId i db) ;;;
  ret i.

(** [saveDatabase()]: the whole document is rewritten. *)
Definition saveDatabase : M Database unit := emit (Write "data.json").

Definition push_user (u : User.t) : M Database unit :=
  db <- get ;; put (set_users (users db ++ [u]) db).
Definition push_donation (d : Donation.t) : M Database unit :=
  db <- get ;; put (set_donations (donations db ++ [d]) db).
Definition push_conversion (c : Conversion.t) : M Database unit :=
  db <- get ;; put (set_conversions (conversions db ++ [c]) db).
Definition push_media (m : Media.t) : M Database unit :=
  db <- get ;; put (set_media (media db ++ [m]) db).
Definition push_campaign (c : Campaign.t) : M Database unit :=
  db <- get ;; put (set_campaigns (campaigns db ++ [c]) db).

Section Handlers.
Context {R : Runtime}.

(** [app.post('/api/register')] up to [await bcrypt.hash(..)]: the field
    checks, the lookup, and the call that starts the hashing. *)
Definition register_checks (b : RegisterBody.t) : M Database unit :=
  if negb (JS.opt_truthy (RegisterBody.email b))
     || negb (JS.opt_truthy (RegisterBody.name b))
     || negb (JS.opt_truthy (RegisterBody.password b))
  then reply (json 400 (Error "All fields are required"))
  else
    let email := JS.or_empty (RegisterBody.email b) in
    let password := JS.or_empty (RegisterBody.password b) in
    if (String.length password <? 6)%nat
    then reply (json 400 (Error "Password must be at least 6 characters"))
    else
      db <- get ;;
      match find (fun u => String.eqb (User.email u) email) (users db) with
      | Some _ => reply (json 400 (Error "User already exists"))
      | None => emit (Hash password)
      end.

(** [app.post('/api/register')] from the moment the hash is there: the
    store is read again, as it is by then, and nothing looks the email up a
    second time. *)
Definition register_stores (env : Env) (b : RegisterBody.t)
  : M Database Response :=
  let email := JS.or_empty (RegisterBody.email b) in
  let name := JS.or_empty (RegisterBody.name b) in
  let password := JS.or_empty (RegisterBody.password b) in
  let hashedPassword := bcrypt_hash (salt env) password in
  i <- nextId ;;
  let newUser :=
    {| User.id := i; User.email := email; User.name := name;
       User.password := hashedPassword;
       User.created_at := now env |} in
  push_user newUser ;;;
  saveDatabase ;;;
  let payload := {| userId := User.id newUser; email := email |} in
  emit (Sign payload) ;;;
  let token := jwt_sign payload (seconds env) in
  ret (json 201
         (Session "User created successfully" token
            {| pu_id := User.id newUser;
               pu_email := User.email newUser;
               pu_name := User.name newUser;
               pu_created_at := None |})).

(** [app.post('/api/register')]: the handler up to its one [await], then
    the handler from there on.  Served like this, no other request comes in
    between; [take_turn] below serves the second part on its own. *)
Definition post_register (env : Env) (b : RegisterBody.t)
  : M Database Response :=
  register_checks b ;;; register_stores env b.

(** [app.post('/api/login')] *)
Definition post_login (env : Env) (b : LoginBody.t)
  : M Database Response :=
  if negb (JS.opt_truthy (LoginBody.email b))
     || negb (JS.opt_truthy (LoginBody.password b))
  then reply (json 400 (Error "Email and password are required"))
  else
    let email := JS.or_empty (LoginBody.email b) in
    let password := JS.or_empty (LoginBody.password b) in
    db <- get ;;
    match find (fun u => String.eqb (User.email u) email) (users db) with
    | None => reply (json 401 (Error "Invalid credentials"))
    | Some user =>
        emit (Compare password) ;;;
        if negb (bcrypt_compare password (User.password user))
        then reply (json 401 (Error "Invalid credentials"))
        else
          let payload :=
            {| userId := User.id user; email := User.email user |} in
          emit (Sign payload) ;;;
          let token := jwt_sign payload (seconds env) in
          ret (json 200
                 (Session "Login successful" token
                    {| pu_id := User.id user;
                       pu_email := User.email user;
                       pu_name := User.name user;
                       pu_created_at := None |}))
    end.

(** [app.get('/api/dashboard')], after [authenticateToken]. *)
Definition get_dashboard (req_user : Identity) : M Database Response :=
  let userId := userId req_user in
  db <- get ;;
  match find (fun u => User.id u =? userId) (users db) with
  | None => reply (json 404 (Error "User not found"))
  | Some user =>
      let userDonations :=
        filter (fun d => Donation.user_id d =? userId) (donations db) in
      let userConversions :=
        filter (fun c => Conversion.user_id c =? userId) (conversions db) in
      let userMedia :=
        filter (fun m => Media.user_id m =? userId) (media db) in
      let userCampaigns :=
        filter (fun c => Campaign.user_id c =? userId) (campaigns db) in
      let totalDonations :=
        fold_left (fun sum d => (sum + Donation.amount d)%float)
          userDonations zero in
      let conversionCount := Z.of_nat (List.length userConversions) in
      let mediaCount := Z.of_nat (List.length userMedia) in
      let totalReach :=
        fold_left (fun sum m => (sum + Media.reach_estimate m)%float)
          userMedia zero in
      let campaignCount := Z.of_nat (List.length userCampaigns) in
      let animalsImpact := conversionCount * 365 in
      ret (json 200
             (Dashboard
                {| pu_id := User.id user; pu_email := User.email user;
                   pu_name := User.name user; pu_created_at := None |}
                {| totalDonations := totalDonations;
                   conversionCount := conversionCount;
                   mediaCount := mediaCount;
                   totalReach := totalReach;
                   campaignCount := campaignCount;
                   animalsImpact := animalsImpact |}
                {| Recent.donations := rev (firstn 10 userDonations);
                   Recent.conversions := rev (firstn 10 userConversions);
                   Recent.media := rev (firstn 10 userMedia);
                   Recent.campaigns := rev (firstn 10 userCampaigns) |}))
  end.

(** [app.post('/api/donations')], after [authenticateToken]. *)
Definition post_donations (env : Env) (req_user : Identity)
    (b : DonationBody.t) : M Database Response :=
  let userId := userId req_user in
  if negb (JS.opt_truthy (DonationBody.organization b))
     || negb (JS.truthy (DonationBody.amount b))
     || negb (JS.opt_truthy (DonationBody.date b))
  then reply (json 400 (Error "Organization, amount, and date are required"))
  else
    i <- nextId ;;
    let donation :=
      {| Donation.id := i;
         Donation.user_id := userId;
         Donation.organization := JS.or_empty (DonationBody.organization b);
         Donation.amount := JS.parseFloat (DonationBody.amount b);
         Donation.date := JS.or_empty (DonationBody.date b);
         Donation.notes := JS.or_empty (DonationBody.notes b);
         Donation.created_at := now env |} in
    push_donation donation ;;;
    saveDatabase ;;;
    ret (json 201 (Created "Donation recorded successfully"
                     (Donation.id donation))).

(** The routes of [simple-server.ts]; any other path is not routed. *)
Definition app (env : Env) (req : Request) : M Database Response :=
  match req with
  | PostRegister b => post_register env b
  | PostLogin b => post_login env b
  | GetDashboard a =>
      user <- authenticateToken env a ;; get_dashboard user
  | PostDonations a b =>
      user <- authenticateToken env a ;; post_donations env user b
  | PostConversions _ _ | PostMedia _ _ | PostCampaigns _ _ =>
      reply (json 404 NotRouted)
  end.

Definition handle (env : Env) (req : Request) (db : Database)
  : Response * Database * list Event :=
  run (app env req) db.

(** The store after a series of requests, each under its own [Env]. *)
Definition serve (reqs : list (Env * Request)) (db : Database) : Database :=
  fold_left (fun d er => snd (fst (handle (fst er) (snd er) d))) reqs db.

(** The store after one turn of the event loop, and after a series of
    them.  No other handler of this server awaits before its last write
    ([post_login] awaits [bcrypt.compare] and writes nothing). *)
Definition take_turn (t : Turn) (db : Database) : Database :=
  match t with
  | Whole env req => snd (fst (handle env req db))
  | Resumed env b => snd (fst (run (register_stores env b) db))
  end.

Definition take_turns (ts : list Turn) (db : Database) : Database :=
  fold_left (fun d t => take_turn t d) ts db.

(** [initializeDemoData] *)
Definition initializeDemoData (se : SeedEnv) : M Database unit :=
  db <- get ;;
  if (List.length (users db) =? 0)%nat then
    emit (Hash "password123") ;;;
    let hashedPassword := bcrypt_hash (seed_salt se) "password123" in
    i <- nextId ;;
    let demoUser :=
      {| User.id := i; User.email := "johndoe@gmail.com";
         User.name := "John Doe"; User.password := hashedPassword;
         User.created_at := clock se 0 |} in
    push_user demoUser ;;;
    let today := today se in
    let lastMonth := lastMonth se in
    i <- nextId ;;
    push_donation
      {| Donation.id := i; Donation.user_id := User.id demoUser;
         Donation.organization := "Animal Sanctuary Fund";
         Donation.amount := 200; Donation.date := today;
         Donation.notes := "Monthly donation";
         Donation.created_at := clock se 1 |} ;;;
    i <- nextId ;;
    push_donation
      {| Donation.id := i; Donation.user_id := User.id demoUser;
         Donation.organization := "Wildlife Protection Org";
         Donation.amount := 150; Donation.date := lastMonth;
         Donation.notes := "One-time donation";
         Donation.created_at := clock se 2 |} ;;;
    i <- nextId ;;
    push_donation
      {| Donation.id := i; Donation.user_id := User.id demoUser;
         Donation.organization := "Farm Animal Welfare";
         Donation.amount := 100; Donation.date := lastMonth;
         Donation.notes := "Monthly donation";
         Donation.created_at := clock se 3 |} ;;;
    i <- nextId ;;
    push_conversion
      {| Conversion.id := i; Conversion.user_id := User.id demoUser;
         Conversion.person_name := "Alice Smith";
         Conversion.conversion_date := lastMonth;
         Conversion.influence_type := "Documentary sharing";
         Conversion.notes := "Showed Dominion documentary";
         Conversion.created_at := clock se 4 |} ;;;
    i <- nextId ;;
    push_conversion
      {| Conversion.id := i; Conversion.user_id := User.id demoUser;
         Conversion.person_name := "Bob Johnson";
         Conversion.conversion_date := lastMonth;
         Conversion.influence_type := "Restaurant visit";
         Conversion.notes := "Took to vegan restaurant";
         Conversion.created_at := clock se 5 |} ;;;
    i <- nextId ;;
    push_media
      {| Media.id := i; Media.user_id := User.id demoUser;
         Media.platform := "Facebook"; Media.content_type := "Video";
         Media.reach_estimate := 500; Media.date := today;
         Media.url := ""; Media.notes := "Farm animal video";
         Media.created_at := clock se 6 |} ;;;
    i <- nextId ;;
    push_media
      {| Media.id := i; Media.user_id := User.id demoUser;
         Media.platform := "Instagram"; Media.content_type := "Story";
         Media.reach_estimate := 200; Media.date := today;
         Media.url := ""; Media.notes := "Vegan meal photo";
         Media.created_at := clock se 7 |} ;;;
    i <- nextId ;;
    push_campaign
      {| Campaign.id := i; Campaign.user_id := User.id demoUser;
         Campaign.campaign_name := "Factory Farm Ban";
         Campaign.organization := "Animal Justice League";
         Campaign.participation_type := "Petition signing";
         Campaign.date := lastMonth;
         Campaign.impact_description := "Helped gather 1000 signatures";
         Campaign.created_at := clock se 8 |} ;;;
    saveDatabase
  else ret tt.

(** The document a fresh process serves: [loadDatabase] without a file,
    then [initializeDemoData]. *)
Definition seeded (se : SeedEnv) : Database :=
  snd (fst (initializeDemoData se empty)).

End Handlers.

End Flat.

(* ================================================================== *)
(** * The relational backend: [server.ts] over [database.ts] *)
(* ================================================================== *)

Module Rel.

(** A table with [INTEGER PRIMARY KEY AUTOINCREMENT]: its rows in rowid
    order and the largest rowid handed out so far. *)
Record Table (A : Type) : Type := { rows : list A; seq : Z }.
Arguments rows {A} _.
Arguments seq {A} _.

Record Database : Type := {
  users : Table User.t;
  donations : Table Donation.t;
  vegan_conversions : Table Conversion.t;
  media_shared : Table Media.t;
  campaigns : Table Campaign.t }.

Definition no_rows {A} : Table A := {| rows := []; seq := 0 |}.

(** The schema of [initializeDatabase] on a new file. *)
Definition empty : Database :=
  {| users := no_rows; donations := no_rows; vegan_conversions := no_rows;
     media_shared := no_rows; campaigns := no_rows |}.

Definition set_users (x : Table User.t) (db : Database) : Database :=
  {| users := x; donations := donations db;
     vegan_conversions := vegan_conversions db;
     media_shared := media_shared db; campaigns := campaigns db |}.

Definition set_donations (x : Table Donation.t) (db : Database) : Database :=
  {| users := users db; donations := x;
     vegan_conversions := vegan_conversions db;
     media_shared := media_shared db; campaigns := campaigns db |}.

Definition set_vegan_conversions (x : Table Conversion.t) (db : Database)
  : Database :=
  {| users := users db; donations := donations db; vegan_conversions := x;
     media_shared := media_shared db; campaigns := campaigns db |}.

Definition set_media_shared (x : Table Media.t) (db : Database) : Database :=
  {| users := users db; donations := donations db;
     vegan_conversions := vegan_conversions db;
     media_shared := x; campaigns := campaigns db |}.

Definition set_campaigns (x : Table Campaign.t) (db : Database) : Database :=
  {| users := users db; donations := donations db;
     vegan_conversions := vegan_conversions db;
     media_shared := media_shared db; campaigns := x |}.

(** Appending a row under the next rowid; the row is built from its id. *)
Definition append_row {A} (mk : Z -> A) (t : Table A) : Z * Table A :=
  let i := seq t + 1 in (i, {| rows := rows t ++ [mk i]; seq := i |}).

(** [DEFAULT CURRENT_TIMESTAMP]: the clock cut to whole seconds. *)
Definition current_timestamp (t : Z) : Z := 1000 * (t / 1000).

(** ** The statements, each as a partial function on the database
    ([None]: the engine rejects the statement).  The schema declares the
    foreign keys, but no connection ever issues [PRAGMA foreign_keys = ON],
    so the engine does not check them. *)

(** [INSERT INTO users (email, name, password)]: [email] is [UNIQUE]. *)
Definition insert_user (t : Z) (email name password : string) (db : Database)
  : option (Z * Database) :=
  if existsb (fun u => String.eqb (User.email u) email) (rows (users db))
  then None
  else
    let '(i, tbl) :=
      append_row
        (fun i => {| User.id := i; User.email := email; User.name := name;
                     User.password := password;
                     User.created_at := current_timestamp t |})
        (users db) in
    Some (i, set_users tbl db).

(** [INSERT INTO donations (user_id, organization, amount, date, notes)]:
    [amount REAL NOT NULL], and a NaN is bound as [NULL]. *)
Definition insert_donation (t : Z) (user_id : Z) (organization : string)
    (amount : float) (date notes : string) (db : Database)
  : option (Z * Database) :=
  if PrimFloat.is_nan amount then None
  else
    let '(i, tbl) :=
      append_row
        (fun i => {| Donation.id := i; Donation.user_id := user_id;
                     Donation.organization := organization;
                     Donation.amount := amount; Donation.date := date;
                     Donation.notes := notes;
                     Donation.created_at := current_timestamp t |})
        (donations db) in
    Some (i, set_donations tbl db).

(** [INSERT INTO vegan_conversions (...)] *)
Definition insert_conversion (t : Z) (user_id : Z)
    (person_name conversion_date influence_type notes : string)
    (db : Database) : option (Z * Database) :=
  let '(i, tbl) :=
    append_row
      (fun i => {| Conversion.id := i; Conversion.user_id := user_id;
                   Conversion.person_name := person_name;
                   Conversion.conversion_date := conversion_date;
                   Conversion.influence_type := influence_type;
                   Conversion.notes := notes;
                   Conversion.created_at := current_timestamp t |})
      (vegan_conversions db) in
  Some (i, set_vegan_conversions tbl db).

(** [INSERT INTO media_shared (...)] *)
Definition insert_media (t : Z) (user_id : Z) (platform content_type : string)
    (reach_estimate : float) (date url notes : string) (db : Database)
  : option (Z * Database) :=
  let '(i, tbl) :=
    append_row
      (fun i => {| Media.id := i; Media.user_id := user_id;
                   Media.platform := platform;
                   Media.content_type := content_type;
                   Media.reach_estimate := reach_estimate;
                   Media.date := date; Media.url := url;
                   Media.notes := notes;
                   Media.created_at := current_timestamp t |})
      (media_shared db) in
  Some (i, set_media_shared tbl db).

(** [INSERT INTO campaigns (...)] *)
Definition insert_campaign (t : Z) (user_id : Z)
    (campaign_name organization participation_type date
       impact_description : string)
    (db : Database) : option (Z * Database) :=
  let '(i, tbl) :=
    append_row
      (fun i => {| Campaign.id := i; Campaign.user_id := user_id;
                   Campaign.campaign_name := campaign_name;
                   Campaign.organization := organization;
                   Campaign.participation_type := participation_type;
                   Campaign.date := date;
                   Campaign.impact_description := impact_description;
                   Campaign.created_at := current_timestamp t |})
      (campaigns db) in
  Some (i, set_campaigns tbl db).

(** A value in a column declared [DATE]. *)
Inductive DateValue : Type :=
| Number (n : SqlNumber)
| Text (s : string).

Definition number_le (a b : SqlNumber) : bool :=
  match a, b with
  | MinusInfinity, _ => true
  | _, PlusInfinity => true
  | Exactly p, Exactly q => Qle_bool p q
  | _, _ => false
  end.

(** The engine's ascending order: a number sorts before every text,
    numbers by value, texts byte by byte. *)
Definition value_le (a b : DateValue) : bool :=
  match a, b with
  | Number m, Number n => number_le m n
  | Number _, Text _ => true
  | Text _, Number _ => false
  | Text s, Text t =>
      match String.compare s t with Gt => false | _ => true end
  end.

(** [ORDER BY date DESC, created_at DESC]: does a row with key [(d1, c1)]
    come no later than one with key [(d2, c2)]? *)
Definition newer_first (d1 : DateValue) (c1 : Z) (d2 : DateValue) (c2 : Z)
  : bool :=
  if negb (value_le d1 d2) then true
  else if negb (value_le d2 d1) then false
  else c2 <=? c1.

Fixpoint insert_by {A} (le : A -> A -> bool) (x : A) (l : list A) : list A :=
  match l with
  | [] => [x]
  | y :: r => if le x y then x :: l else y :: insert_by le x r
  end.

(** [ORDER BY] as a stable sort of the rows scanned in rowid order. *)
Definition order_by {A} (le : A -> A -> bool) (l : list A) : list A :=
  fold_right (insert_by le) [] l.

(** ** [SUM(reach_estimate)]: an INTEGER column *)

(** The integer a number is, if it is one. *)
Definition integer_of (x : float) : option Z :=
  match Prim2SF x with
  | S754_zero _ => Some 0
  | S754_finite s m e =>
      let n := if s then Zneg m else Zpos m in
      if 0 <=? e then Some (n * 2 ^ e)
      else if n mod 2 ^ (- e) =? 0 then Some (n / 2 ^ (- e)) else None
  | _ => None
  end.

(** A number bound to an INTEGER column is stored as an integer when it
    is one strictly between the least and the greatest 64-bit integer;
    any other number is kept as a REAL. *)
Definition stored_integer (x : float) : option Z :=
  match integer_of x with
  | Some z =>
      if (- 2 ^ 63 <? z) && (z <? 2 ^ 63 - 1) then Some z else None
  | None => None
  end.

Fixpoint stored_integers (xs : list float) : option (list Z) :=
  match xs with
  | [] => Some []
  | x :: r =>
      match stored_integer x, stored_integers r with
      | Some z, Some zs => Some (z :: zs)
      | _, _ => None
      end
  end.

(** The running 64-bit total from [acc], or nothing once it overflows. *)
Fixpoint sum_int64 (zs : list Z) (acc : Z) : option Z :=
  match zs with
  | [] => Some acc
  | z :: r =>
      let t := acc + z in
      if (- 2 ^ 63 <=? t) && (t <=? 2 ^ 63 - 1) then sum_int64 r t
      else None
  end.

(** A 64-bit integer as the JavaScript number the driver hands over. *)
Definition number_of_integer (z : Z) : float :=
  SF2Prim (binary_normalize prec emax z 0 false).

Section Handlers.
Context {R : Runtime}.

(** The value a [DATE] column holds for a submitted text. *)
Definition stored_date (s : string) : DateValue :=
  match numeric_affinity s with
  | Some n => Number n
  | None => Text s
  end.

Definition donation_order (a b : Donation.t) : bool :=
  newer_first (stored_date (Donation.date a)) (Donation.created_at a)
              (stored_date (Donation.date b)) (Donation.created_at b).
Definition conversion_order (a b : Conversion.t) : bool :=
  newer_first (stored_date (Conversion.conversion_date a))
              (Conversion.created_at a)
              (stored_date (Conversion.conversion_date b))
              (Conversion.created_at b).
Definition media_order (a b : Media.t) : bool :=
  newer_first (stored_date (Media.date a)) (Media.created_at a)
              (stored_date (Media.date b)) (Media.created_at b).
Definition campaign_order (a b : Campaign.t) : bool :=
  newer_first (stored_date (Campaign.date a)) (Campaign.created_at a)
              (stored_date (Campaign.date b)) (Campaign.created_at b).

(** [await dbRun(..)] inside a handler's [try]: a rejected statement lands
    in the [catch] block. *)
Definition dbRun {A} (table : string)
    (stmt : Database -> option (A * Database)) : M Database A :=
  fun db =>
    match stmt db with
    | Some (a, db') => (inr a, db', [Write table])
    | None => (inl (json 500 (Error "Internal server error")), db, [])
    end.

(** [COALESCE(SUM(col), 0)] over the selected rows. *)
Definition coalesce_sum (xs : list float) : float :=
  match xs with [] => zero | _ :: _ => sqlite_sum xs end.

(** [SUM(reach_estimate)] over the selected rows, in rowid order.  When
    every value is stored as an integer the engine adds them as 64-bit
    integers and raises [integer overflow] ([None]) as soon as the running
    total leaves the range. *)
Definition sum_reach (xs : list float) : option float :=
  match stored_integers xs with
  | Some zs => option_map number_of_integer (sum_int64 zs 0)
  | None => sqlite_sum_partly_real xs
  end.

(** [COALESCE(SUM(reach_estimate), 0)]: over no rows [SUM] is [NULL]. *)
Definition coalesce_sum_reach (xs : list float) : option float :=
  match xs with [] => Some zero | _ :: _ => sum_reach xs end.

(** [app.post('/api/register')] up to [await bcrypt.hash(..)]: the field
    checks, the [SELECT], and the call that starts the hashing. *)
Definition register_checks (b : RegisterBody.t) : M Database unit :=
  if negb (JS.opt_truthy (RegisterBody.email b))
     || negb (JS.opt_truthy (RegisterBody.name b))
     || negb (JS.opt_truthy (RegisterBody.password b))
  then reply (json 400 (Error "All fields are required"))
  else
    let email := JS.or_empty (RegisterBody.email b) in
    let password := JS.or_empty (RegisterBody.password b) in
    if (String.length password <? 6)%nat
    then reply (json 400 (Error "Password must be at least 6 characters"))
    else
      db <- get ;;
      match find (fun u => String.eqb (User.email u) email)
              (rows (users db)) with
      | Some _ => reply (json 400 (Error "User already exists"))
      | None => emit (Hash password)
      end.

(** [app.post('/api/register')] from the moment the hash is there: the
    [INSERT], on the table as it is by then, and the answer. *)
Definition register_stores (env : Env) (b : RegisterBody.t)
  : M Database Response :=
  let email := JS.or_empty (RegisterBody.email b) in
  let name := JS.or_empty (RegisterBody.name b) in
  let password := JS.or_empty (RegisterBody.password b) in
  let hashedPassword := bcrypt_hash (salt env) password in
  userId <- dbRun "users"
              (insert_user (now env) email name hashedPassword) ;;
  let payload := {| userId := userId; email := email |} in
  emit (Sign payload) ;;;
  let token := jwt_sign payload (seconds env) in
  ret (json 201
         (Session "User created successfully" token
            {| pu_id := userId; pu_email := email;
               pu_name := name; pu_created_at := None |})).

(** [app.post('/api/register')]: the handler up to [await bcrypt.hash(..)],
    then the handler from there on.  Served like this, no other request
    comes in between; [take_turn] below serves the second part on its
    own. *)
Definition post_register (env : Env) (b : RegisterBody.t)
  : M Database Response :=
  register_checks b ;;; register_stores env b.

(** [app.post('/api/login')] *)
Definition post_login (env : Env) (b : LoginBody.t)
  : M Database Response :=
  if negb (JS.opt_truthy (LoginBody.email b))
     || negb (JS.opt_truthy (LoginBody.password b))
  then reply (json 400 (Error "Email and password are required"))
  else
    let email := JS.or_empty (LoginBody.email b) in
    let password := JS.or_empty (LoginBody.password b) in
    db <- get ;;
    match find (fun u => String.eqb (User.email u) email)
            (rows (users db)) with
    | None => reply (json 401 (Error "Invalid credentials"))
    | Some user =>
        emit (Compare password) ;;;
        if negb (bcrypt_compare password (User.password user))
        then reply (json 401 (Error "Invalid credentials"))
        else
          let payload :=
            {| userId := User.id user; email := User.email user |} in
          emit (Sign payload) ;;;
          let token := jwt_sign payload (seconds env) in
          ret (json 200
                 (Session "Login successful" token
                    {| pu_id := User.id user;
                       pu_email := User.email user;
                       pu_name := User.name user;
                       pu_created_at := None |}))
    end.

(** [app.get('/api/dashboard')], after [authenticateToken]. *)
Definition get_dashboard (req_user : Identity) : M Database Response :=
  let userId := userId req_user in
  db <- get ;;
  match find (fun u => User.id u =? userId) (rows (users db)) with
  | None => reply (json 404 (Error "User not found"))
  | Some user =>
      let ofDonations :=
        filter (fun d => Donation.user_id d =? userId)
          (rows (donations db)) in
      let ofConversions :=
        filter (fun c => Conversion.user_id c =? userId)
          (rows (vegan_conversions db)) in
      let ofMedia :=
        filter (fun m => Media.user_id m =? userId)
          (rows (media_shared db)) in
      let ofCampaigns :=
        filter (fun c => Campaign.user_id c =? userId)
          (rows (campaigns db)) in
      let totalDonations :=
        or_zero (coalesce_sum (map Donation.amount ofDonations)) in
      let conversionCount :=
        count_or_zero (Z.of_nat (List.length ofConversions)) in
      let mediaCount := count_or_zero (Z.of_nat (List.length ofMedia)) in
      match coalesce_sum_reach (map Media.reach_estimate ofMedia) with
      | None =>
          (* the rejected [dbGet] lands in the [catch] block *)
          reply (json 500 (Error "Internal server error"))
      | Some reach =>
          let totalReach := or_zero reach in
          let campaignCount :=
            count_or_zero (Z.of_nat (List.length ofCampaigns)) in
          let recentDonations :=
            firstn 10 (order_by donation_order ofDonations) in
          let recentConversions :=
            firstn 10 (order_by conversion_order ofConversions) in
          let recentMedia := firstn 10 (order_by media_order ofMedia) in
          let recentCampaigns :=
            firstn 10 (order_by campaign_order ofCampaigns) in
          let animalsImpact := conversionCount * 365 in
          ret (json 200
                 (Dashboard
                    {| pu_id := User.id user; pu_email := User.email user;
                       pu_name := User.name user;
                       pu_created_at := Some (User.created_at user) |}
                    {| totalDonations := totalDonations;
                       conversionCount := conversionCount;
                       mediaCount := mediaCount;
                       totalReach := totalReach;
                       campaignCount := campaignCount;
                       animalsImpact := animalsImpact |}
                    {| Recent.donations := recentDonations;
                       Recent.conversions := recentConversions;
                       Recent.media := recentMedia;
                       Recent.campaigns := recentCampaigns |}))
      end
  end.

(** [app.post('/api/donations')], after [authenticateToken]. *)
Definition post_donations (env : Env) (req_user : Identity)
    (b : DonationBody.t) : M Database Response :=
  let userId := userId req_user in
  if negb (JS.opt_truthy (DonationBody.organization b))
     || negb (JS.truthy (DonationBody.amount b))
     || negb (JS.opt_truthy (DonationBody.date b))
  then reply (json 400 (Error "Organization, amount, and date are required"))
  else
    lastID <- dbRun "donations"
                (insert_donation (now env) userId
                   (JS.or_empty (DonationBody.organization b))
                   (JS.parseFloat (DonationBody.amount b))
                   (JS.or_empty (DonationBody.date b))
                   (JS.or_empty (DonationBody.notes b))) ;;
    ret (json 201 (Created "Donation recorded successfully" lastID)).

(** [app.post('/api/conversions')], after [authenticateToken]. *)
Definition post_conversions (env : Env) (req_user : Identity)
    (b : ConversionBody.t) : M Database Response :=
  let userId := userId req_user in
  if negb (JS.opt_truthy (ConversionBody.person_name b))
     || negb (JS.opt_truthy (ConversionBody.conversion_date b))
  then reply (json 400 (Error "Person name and conversion date are required"))
  else
    lastID <- dbRun "vegan_conversions"
                (insert_conversion (now env) userId
                   (JS.or_empty (ConversionBody.person_name b))
                   (JS.or_empty (ConversionBody.conversion_date b))
                   (JS.or_empty (ConversionBody.influence_type b))
                   (JS.or_empty (ConversionBody.notes b))) ;;
    ret (json 201 (Created "Conversion recorded successfully" lastID)).

(** [app.post('/api/media')], after [authenticateToken]. *)
Definition post_media (env : Env) (req_user : Identity)
    (b : MediaBody.t) : M Database Response :=
  let userId := userId req_user in
  if negb (JS.opt_truthy (MediaBody.platform b))
     || negb (JS.opt_truthy (MediaBody.content_type b))
     || negb (JS.opt_truthy (MediaBody.date b))
  then reply (json 400 (Error "Platform, content type, and date are required"))
  else
    lastID <- dbRun "media_shared"
                (insert_media (now env) userId
                   (JS.or_empty (MediaBody.platform b))
                   (JS.or_empty (MediaBody.content_type b))
                   (or_zero (parseInt (MediaBody.reach_estimate b)))
                   (JS.or_empty (MediaBody.date b))
                   (JS.or_empty (MediaBody.url b))
                   (JS.or_empty (MediaBody.notes b))) ;;
    ret (json 201 (Created "Media shared recorded successfully" lastID)).

(** [app.post('/api/campaigns')], after [authenticateToken]. *)
Definition post_campaigns (env : Env) (req_user : Identity)
    (b : CampaignBody.t) : M Database Response :=
  let userId := userId req_user in
  if negb (JS.opt_truthy (CampaignBody.campaign_name b))
     || negb (JS.opt_truthy (CampaignBody.participation_type b))
     || negb (JS.opt_truthy (CampaignBody.date b))
  then reply (json 400
                (Error "Campaign name, participation type, and date are required"))
  else
    lastID <- dbRun "campaigns"
                (insert_campaign (now env) userId
                   (JS.or_empty (CampaignBody.campaign_name b))
                   (JS.or_empty (CampaignBody.organization b))
                   (JS.or_empty (CampaignBody.participation_type b))
                   (JS.or_empty (CampaignBody.date b))
                   (JS.or_empty (CampaignBody.impact_description b))) ;;
    ret (json 201
           (Created "Campaign participation recorded successfully" lastID)).

(** The routes of [server.ts]. *)
Definition app (env : Env) (req : Request) : M Database Response :=
  match req with
  | PostRegister b => post_register env b
  | PostLogin b => post_login env b
  | GetDashboard a =>
      user <- authenticateToken env a ;; get_dashboard user
  | PostDonations a b =>
      user <- authenticateToken env a ;; post_donations env user b
  | PostConversions a b =>
      user <- authenticateToken env a ;; post_conversions env user b
  | PostMedia a b =>
      user <- authenticateToken env a ;; post_media env user b
  | PostCampaigns a b =>
      user <- authenticateToken env a ;; post_campaigns env user b
  end.

Definition handle (env : Env) (req : Request) (db : Database)
  : Response * Database * list Event :=
  run (app env req) db.

(** The store after a series of requests, each under its own [Env]. *)
Definition serve (reqs : list (Env * Request)) (db : Database) : Database :=
  fold_left (fun d er => snd (fst (handle (fst er) (snd er) d))) reqs db.

(** The store after one turn of the event loop, and after a series of
    them.  The other handlers await between their statements too, but
    [register_stores] holds the only statement that writes [users], so for
    the stored users each of them counts as one turn. *)
Definition take_turn (t : Turn) (db : Database) : Database :=
  match t with
  | Whole env req => snd (fst (handle env req db))
  | Resumed env b => snd (fst (run (register_stores env b) db))
  end.

Definition take_turns (ts : list Turn) (db : Database) : Database :=
  fold_left (fun d t => take_turn t d) ts db.

(** A straight run of awaited statements, the [k]-th one stamped with the
    [k]-th clock reading; the first rejection aborts the run. *)
Definition run_all (se : SeedEnv)
    (stmts : list (Z -> Database -> option (Z * Database)))
    (first : nat) (db : Database) : option Database :=
  fold_left
    (fun acc ks =>
       match acc with
       | Some d => option_map snd (snd ks (clock se (fst ks)) d)
       | None => None
       end)
    (combine (List.seq first (List.length stmts)) stmts)
    (Some db).

(** [initializeDatabase] of [database.ts], after the schema is created. *)
Definition initializeDatabase (se : SeedEnv) (db : Database)
  : option Database :=
  match find (fun u => String.eqb (User.email u) "johndoe@gmail.com")
          (rows (users db)) with
  | Some _ => Some db
  | None =>
      let hashedPassword := bcrypt_hash (seed_salt se) "password123" in
      match insert_user (clock se 0) "johndoe@gmail.com" "John Doe"
              hashedPassword db with
      | None => None
      | Some (userId, db1) =>
          let today := today se in
          let lastMonth := lastMonth se in
          let twoMonthsAgo := twoMonthsAgo se in
          run_all se
            [ (fun t => insert_donation t userId
                 "Animal Sanctuary Fund" 200 today "Monthly donation");
              (fun t => insert_donation t userId
                 "Wildlife Protection Org" 150 lastMonth "One-time donation");
              (fun t => insert_donation t userId
                 "Farm Animal Welfare" 100 lastMonth "Monthly donation");
              (fun t => insert_donation t userId
                 "Humane Society" 75 twoMonthsAgo "Holiday donation");
              (fun t => insert_donation t userId
                 "Best Friends Animal Society" 125 twoMonthsAgo
                 "One-time donation");
              (fun t => insert_conversion t userId
                 "Alice Smith" lastMonth "Documentary sharing"
                 "Showed Dominion documentary");
              (fun t => insert_conversion t userId
                 "Bob Johnson" lastMonth "Restaurant visit"
                 "Took to vegan restaurant");
              (fun t => insert_conversion t userId
                 "Sarah Wilson" twoMonthsAgo "Recipe sharing"
                 "Shared amazing vegan recipes");
              (fun t => insert_conversion t userId
                 "Mike Davis" twoMonthsAgo "Health discussion"
                 "Discussed health benefits of plant-based diet");
              (fun t => insert_conversion t userId
                 "Emma Brown" twoMonthsAgo "Environmental facts"
                 "Shared environmental impact data");
              (fun t => insert_conversion t userId
                 "Chris Lee" twoMonthsAgo "Cooking class"
                 "Taught vegan cooking class");
              (* the source quotes the title with double quotes *)
              (fun t => insert_conversion t userId
                 "Jessica Taylor" twoMonthsAgo "Book recommendation"
                 "Recommended 'Eating Animals' by Jonathan Safran Foer");
              (fun t => insert_conversion t userId
                 "David Rodriguez" twoMonthsAgo "Farm sanctuary visit"
                 "Visited local farm sanctuary together");
              (fun t => insert_media t userId
                 "Facebook" "Video" 500 today ""
                 "Farm animal sanctuary video");
              (fun t => insert_media t userId
                 "Instagram" "Story" 200 today "" "Vegan meal photo");
              (fun t => insert_media t userId
                 "Twitter" "Post" 150 lastMonth ""
                 "Animal rights awareness tweet");
              (fun t => insert_media t userId
                 "LinkedIn" "Article" 300 lastMonth ""
                 "Corporate animal welfare article");
              (fun t => insert_media t userId
                 "TikTok" "Video" 1200 twoMonthsAgo ""
                 "Vegan recipe tutorial");
              (fun t => insert_media t userId
                 "YouTube" "Video" 850 twoMonthsAgo ""
                 "Documentary recommendation video");
              (fun t => insert_campaign t userId
                 "Factory Farm Ban Initiative" "Animal Justice League"
                 "Petition signing" lastMonth
                 "Helped gather 1000 signatures for factory farming ban");
              (fun t => insert_campaign t userId
                 "Wildlife Protection March" "Wildlife Defense Fund"
                 "Event participation" twoMonthsAgo
                 "Participated in march for wildlife corridor protection");
              (fun t => insert_campaign t userId
                 "Corporate Cage-Free Campaign" "Mercy For Animals"
                 "Email campaign" twoMonthsAgo
                 "Sent 50 emails to corporations requesting cage-free policies");
              (fun t => insert_campaign t userId
                 "Climate Action for Animals"
                 "Animal Agriculture Reform Initiative"
                 "Social media advocacy" twoMonthsAgo
                 "Shared 25 posts about animal agriculture and climate change");
              (fun t => insert_campaign t userId
                 "End Fur Fashion Campaign" "PETA" "Store protests"
                 twoMonthsAgo
                 "Participated in peaceful protests at 3 stores selling fur") ]
            1 db1
      end
  end.

End Handlers.

End Rel.

(* ================================================================== *)
(** * A runtime without cryptography, to evaluate the model *)
(* ================================================================== *)

(** The servers are stated over any [Runtime].  To run them on concrete
    requests one instance is needed; this one keeps the interface's
    guarantees and nothing else: the "hash" is the password followed by the
    salt, and a token is its payload and issue time written out in a
    self-delimiting alphabet without spaces. *)
Module Plain.

Definition hash (salt password : string) : string :=
  (password ++ "$" ++ salt)%string.

Definition compare (password hashed : string) : bool :=
  prefix (password ++ "$")%string hashed.

Fixpoint enc_pos (p : positive) : string :=
  match p with
  | xH => "."
  | xO q => String "0" (enc_pos q)
  | xI q => String "1" (enc_pos q)
  end.

Fixpoint dec_pos (s : string) : option (positive * string) :=
  match s with
  | String "." r => Some (xH, r)
  | String "0" r =>
      match dec_pos r with Some (q, r') => Some (xO q, r') | None => None end
  | String "1" r =>
      match dec_pos r with Some (q, r') => Some (xI q, r') | None => None end
  | _ => None
  end.

Definition enc_Z (z : Z) : string :=
  match z with
  | Z0 => "z"
  | Zpos p => String "p" (enc_pos p)
  | Zneg p => String "n" (enc_pos p)
  end.

Definition dec_Z (s : string) : option (Z * string) :=
  match s with
  | String "z" r => Some (0, r)
  | String "p" r =>
      match dec_pos r with Some (p, r') => Some (Zpos p, r') | None => None end
  | String "n" r =>
      match dec_pos r with Some (p, r') => Some (Zneg p, r') | None => None end
  | _ => None
  end.

Definition bit (b : bool) : ascii := if b then "1"%char else "0"%char.

Definition unbit (c : ascii) : option bool :=
  if Ascii.eqb c "1" then Some true
  else if Ascii.eqb c "0" then Some false else None.

Fixpoint enc_string (s : string) : string :=
  match s with
  | EmptyString => "e"
  | String (Ascii b0 b1 b2 b3 b4 b5 b6 b7) r =>
      String "c"
        (String (bit b0) (String (bit b1) (String (bit b2) (String (bit b3)
        (String (bit b4) (String (bit b5) (String (bit b6) (String (bit b7)
        (enc_string r)))))))))
  end.

Fixpoint dec_string (s : string) : option string :=
  match s with
  | String "e" EmptyString => Some EmptyString
  | String "c"
      (String c0 (String c1 (String c2 (String c3
      (String c4 (String c5 (String c6 (String c7 r)))))))) =>
      match unbit c0, unbit c1, unbit c2, unbit c3,
            unbit c4, unbit c5, unbit c6, unbit c7, dec_string r with
      | Some b0, Some b1, Some b2, Some b3,
        Some b4, Some b5, Some b6, Some b7, Some r' =>
          Some (String (Ascii b0 b1 b2 b3 b4 b5 b6 b7) r')
      | _, _, _, _, _, _, _, _, _ => None
      end
  | _ => None
  end.

Definition sign (payload : Identity) (iat : Z) : string :=
  (enc_Z (userId payload) ++ enc_Z iat ++ enc_string (email payload))%string.

Definition verify (token : string) (t : Z) : option Identity :=
  match dec_Z token with
  | Some (uid, r1) =>
      match dec_Z r1 with
      | Some (iat, r2) =>
          match dec_string r2 with
          | Some e =>
              if (iat <=? t) && (t <? iat + token_lifetime)
              then Some {| userId := uid; email := e |}
              else None
          | None => None
          end
      | None => None
      end
  | None => None
  end.

(** The integer part of a finite number, towards zero. *)
Definition trunc (x : float) : float :=
  match Prim2SF x with
  | S754_finite s m e =>
      if 0 <=? e then x
      else
        let q := Z.shiftr (Zpos m) (- e) in
        SF2Prim (binary_normalize prec emax (if s then - q else q) 0 s)
  | S754_zero _ => x
  | _ => nan
  end.

(** [parseInt] where it is simple: the decimal integer at the head of a
    string, and the integer part of a number that prints without an
    exponent. *)
Definition parse_int (v : JS.value) : float :=
  match v with
  | JS.Str s =>
      let '(neg, s1) := JS.read_sign (JS.trim_start s) in
      let '(n, cnt, _) := JS.read_digits s1 0 0 in
      if cnt =? 0 then nan else JS.round_decimal neg n 0
  | JS.Num x => trunc x
  | _ => nan
  end.

(** [SUM] as a running total in row order. *)
Definition sum (xs : list float) : float :=
  fold_left (fun acc x => (acc + x)%float) xs zero.

(** [SUM] over an INTEGER column holding a REAL, as an engine that never
    raises there. *)
Definition sum_partly_real (xs : list float) : option float :=
  Some (sum xs).

(** The engine's white space: space, and tab to carriage return. *)
Definition is_space (c : ascii) : bool :=
  let n := N_of_ascii c in
  ((n =? 32) || (9 <=? n) && (n <=? 13))%N.

Fixpoint skip_spaces (s : string) : string :=
  match s with
  | String c r => if is_space c then skip_spaces r else s
  | EmptyString => s
  end.

(** The number a float is, for the engine; none for NaN, which it holds
    as [NULL]. *)
Definition number_of (x : float) : option SqlNumber :=
  match Prim2SF x with
  | S754_zero _ => Some (Exactly 0)
  | S754_finite s m e =>
      let v := (inject_Z (Zpos m) * Qpower 2 e)%Q in
      Some (Exactly (if s then Qopp v else v))
  | S754_infinity s => Some (if s then MinusInfinity else PlusInfinity)
  | S754_nan => None
  end.

(** A well-formed number, white space around it allowed: a sign, digits
    with at most one point among them, and an exponent with at least one
    digit.  A whole number within 64 bits is that integer, any other
    number the nearest REAL. *)
Definition numeric (s : string) : option SqlNumber :=
  let '(neg, s1) := JS.read_sign (skip_spaces s) in
  let '(ip, ni, s2) := JS.read_digits s1 0 0 in
  let '(m, nf, s3, pointed) :=
    match s2 with
    | String "." r =>
        let '(m, nf, r') := JS.read_digits r ip 0 in (m, nf, r', true)
    | _ => (ip, 0, s2, false)
    end in
  if ni + nf =? 0 then None
  else
    let exponent :=
      match s3 with
      | String c r =>
          if (Ascii.eqb c "e" || Ascii.eqb c "E")%bool then
            let '(eneg, r1) := JS.read_sign r in
            let '(e, n, r2) := JS.read_digits r1 0 0 in
            if n =? 0 then None
            else Some (if eneg then - e else e, r2, true)
          else Some (0, s3, false)
      | EmptyString => Some (0, s3, false)
      end in
    match exponent with
    | None => None
    | Some (e, rest, powered) =>
        match skip_spaces rest with
        | EmptyString =>
            let z := if neg then - ip else ip in
            if negb pointed && negb powered
               && (- 2 ^ 63 <=? z) && (z <=? 2 ^ 63 - 1)
            then Some (Exactly (inject_Z z))
            else number_of (JS.round_decimal neg m (e - nf))
        | String _ _ => None
        end
    end.

End Plain.

(** The exact rational value of a finite number. *)
Definition exact (x : float) : option Q :=
  match Prim2SF x with
  | S754_zero _ => Some 0%Q
  | S754_finite s m e =>
      let v := (inject_Z (Zpos m) * Qpower 2 e)%Q in
      Some (if s then Qopp v else v)
  | _ => None
  end.

(** The plain runtime. *)
Definition plain_runtime : Runtime :=
  {| bcrypt_hash := Plain.hash;
     bcrypt_compare := Plain.compare;
     jwt_sign := Plain.sign;
     jwt_verify := Plain.verify;
     parseInt := Plain.parse_int;
     sqlite_sum := Plain.sum;
     sqlite_sum_partly_real := Plain.sum_partly_real;
     numeric_affinity := Plain.numeric |}.

(** [SUM] over REAL values as the engine shipped with the [sqlite3]
    package of [package.json] computes it: a running total with a running
    compensation for the rounding of each addition (Kahan-Babuska-Neumaier),
    returned together unless the compensation overflowed. *)
Module Compensated.

Definition step (acc : float * float) (r : float) : float * float :=
  let '(s, err) := acc in
  let t := (s + r)%float in
  if (abs r <? abs s)%float then (t, (err + ((s - t) + r))%float)
  else (t, (err + ((r - t) + s))%float).

Definition sum (xs : list float) : float :=
  let '(s, err) := fold_left step xs (zero, zero) in
  if PrimFloat.is_nan err || PrimFloat.is_infinity err then s
  else (s + err)%float.

End Compensated.

(** The plain runtime with the compensated [SUM]. *)
Definition compensated_runtime : Runtime :=
  {| bcrypt_hash := Plain.hash;
     bcrypt_compare := Plain.compare;
     jwt_sign := Plain.sign;
     jwt_verify := Plain.verify;
     parseInt := Plain.parse_int;
     sqlite_sum := Compensated.sum;
     sqlite_sum_partly_real := Plain.sum_partly_real;
     numeric_affinity := Plain.numeric |}.

(* ================================================================== *)
(** * Vocabulary of the statements, and the scenarios they are run on *)
(* ================================================================== *)

(** ** Requests, responses and stores *)

(** A string in which no code unit is a space. *)
Fixpoint spaceless (s : string) : bool :=
  match s with
  | EmptyString => true
  | String c r => negb (Ascii.eqb c " ") && spaceless r
  end.

(** The header [h] carries the non-empty token [token], and the token
    verifies to [user] at the time of the request. *)
Definition authenticated {R : Runtime} (env : Env) (h : option string)
    (token : string) (user : Identity) : Prop :=
  bearer_token h = Some token /\ JS.str_truthy token = true /\
  jwt_verify token (seconds env) = Some user.

(** The header a request to an authenticated route carries. *)
Definition auth_header (req : Request) : option (option string) :=
  match req with
  | PostRegister _ | PostLogin _ => None
  | GetDashboard a | PostDonations a _ | PostConversions a _
  | PostMedia a _ | PostCampaigns a _ => Some a
  end.

(** The authenticated routes that [simple-server.ts] defines. *)
Definition flat_routed (req : Request) : bool :=
  match req with
  | PostConversions _ _ | PostMedia _ _ | PostCampaigns _ _ => false
  | _ => true
  end.

(** The message a registration with a short password gets: the
    missing-fields check comes first. *)
Definition short_password_message (b : RegisterBody.t) : string :=
  if JS.opt_truthy (RegisterBody.email b)
     && JS.opt_truthy (RegisterBody.name b)
     && JS.opt_truthy (RegisterBody.password b)
  then "Password must be at least 6 characters"
  else "All fields are required".

(** The [stats] and [recent] objects as the flat-document handler builds
    them for the user [uid]. *)
Definition flat_stats (db : Flat.Database) (uid : Z) : Stats :=
  let cs := filter (fun c => Conversion.user_id c =? uid) (Flat.conversions db) in
  let ms := filter (fun m => Media.user_id m =? uid) (Flat.media db) in
  {| totalDonations :=
       fold_left (fun sum d => (sum + Donation.amount d)%float)
         (filter (fun d => Donation.user_id d =? uid) (Flat.donations db))
         zero;
     conversionCount := Z.of_nat (List.length cs);
     mediaCount := Z.of_nat (List.length ms);
     totalReach :=
       fold_left (fun sum m => (sum + Media.reach_estimate m)%float) ms zero;
     campaignCount :=
       Z.of_nat (List.length
         (filter (fun c => Campaign.user_id c =? uid) (Flat.campaigns db)));
     animalsImpact := Z.of_nat (List.length cs) * 365 |}.

Definition flat_recent (db : Flat.Database) (uid : Z) : Recent.t :=
  {| Recent.donations :=
       rev (firstn 10
         (filter (fun d => Donation.user_id d =? uid) (Flat.donations db)));
     Recent.conversions :=
       rev (firstn 10
         (filter (fun c => Conversion.user_id c =? uid) (Flat.conversions db)));
     Recent.media :=
       rev (firstn 10
         (filter (fun m => Media.user_id m =? uid) (Flat.media db)));
     Recent.campaigns :=
       rev (firstn 10
         (filter (fun c => Campaign.user_id c =? uid) (Flat.campaigns db))) |}.

(** The same for the relational handler.  [rel_reach] is what the
    engine answers to the query for the total reach: a number, or the
    error that makes the handler answer 500. *)
Definition rel_reach {R : Runtime} (db : Rel.Database) (uid : Z)
  : option float :=
  Rel.coalesce_sum_reach
    (map Media.reach_estimate
       (filter (fun m => Media.user_id m =? uid)
          (Rel.rows (Rel.media_shared db)))).

Definition rel_stats {R : Runtime} (db : Rel.Database) (uid : Z) : Stats :=
  let cs := filter (fun c => Conversion.user_id c =? uid)
              (Rel.rows (Rel.vegan_conversions db)) in
  let ms := filter (fun m => Media.user_id m =? uid)
              (Rel.rows (Rel.media_shared db)) in
  {| totalDonations :=
       or_zero (Rel.coalesce_sum
         (map Donation.amount
            (filter (fun d => Donation.user_id d =? uid)
               (Rel.rows (Rel.donations db)))));
     conversionCount := Z.of_nat (List.length cs);
     mediaCount := Z.of_nat (List.length ms);
     totalReach :=
       or_zero (match rel_reach db uid with Some t => t | None => zero end);
     campaignCount :=
       Z.of_nat (List.length
         (filter (fun c => Campaign.user_id c =? uid)
            (Rel.rows (Rel.campaigns db))));
     animalsImpact := Z.of_nat (List.length cs) * 365 |}.

Definition rel_recent {R : Runtime} (db : Rel.Database) (uid : Z)
  : Recent.t :=
  {| Recent.donations :=
       firstn 10 (Rel.order_by Rel.donation_order
         (filter (fun d => Donation.user_id d =? uid)
            (Rel.rows (Rel.donations db))));
     Recent.conversions :=
       firstn 10 (Rel.order_by Rel.conversion_order
         (filter (fun c => Conversion.user_id c =? uid)
            (Rel.rows (Rel.vegan_conversions db))));
     Recent.media :=
       firstn 10 (Rel.order_by Rel.media_order
         (filter (fun m => Media.user_id m =? uid)
            (Rel.rows (Rel.media_shared db))));
     Recent.campaigns :=
       firstn 10 (Rel.order_by Rel.campaign_order
         (filter (fun c => Campaign.user_id c =? uid)
            (Rel.rows (Rel.campaigns db)))) |}.

Definition public (with_created_at : bool) (u : User.t) : PublicUser :=
  {| pu_id := User.id u; pu_email := User.email u; pu_name := User.name u;
     pu_created_at :=
       if with_created_at then Some (User.created_at u) else None |}.

(** The fields of a registration pass validation. *)
Definition valid_registration (b : RegisterBody.t) : bool :=
  JS.opt_truthy (RegisterBody.email b)
  && JS.opt_truthy (RegisterBody.name b)
  && JS.opt_truthy (RegisterBody.password b)
  && negb (String.length (JS.or_empty (RegisterBody.password b)) <? 6)%nat.

(** The message a registration under an already stored email gets: the
    field checks come before the lookup. *)
Definition duplicate_message (b : RegisterBody.t) : string :=
  if negb (JS.opt_truthy (RegisterBody.email b))
     || negb (JS.opt_truthy (RegisterBody.name b))
     || negb (JS.opt_truthy (RegisterBody.password b))
  then "All fields are required"
  else if (String.length (JS.or_empty (RegisterBody.password b)) <? 6)%nat
  then "Password must be at least 6 characters"
  else "User already exists".

(** The required fields of a donation are truthy. *)
Definition valid_donation (b : DonationBody.t) : bool :=
  JS.opt_truthy (DonationBody.organization b)
  && JS.truthy (DonationBody.amount b)
  && JS.opt_truthy (DonationBody.date b).

(** [0 <= x] on numbers; false for NaN. *)
Definition nonneg (x : float) : bool := PrimFloat.leb zero x.

Definition amounts_nonneg (ds : list Donation.t) : Prop :=
  Forall (fun d => nonneg (Donation.amount d) = true) ds.

(** The [stats] object of a dashboard response. *)
Definition dashboard_stats (r : Response) : option Stats :=
  match body r with Dashboard _ st _ => Some st | _ => None end.

(** [after] is the exact (rational) sum of [before] and [a]. *)
Definition exact_increase (before a after : float) : Prop :=
  match exact before, exact a, exact after with
  | Some p, Some x, Some q => (q == p + x)%Q
  | _, _, _ => False
  end.

(** [kept] is the [n] most recent of [all] under the order [le]: at most
    [n] entries, in order, and nothing left out precedes a kept entry. *)
Definition most_recent {A} (le : A -> A -> bool) (n : nat)
    (all kept : list A) : Prop :=
  (List.length kept <= n)%nat /\
  StronglySorted (fun a b => le a b = true) kept /\
  exists left_out,
    Permutation (kept ++ left_out) all /\
    forall a b, In a kept -> In b left_out -> le a b = true.

(** ** Scenarios: Alice, and the seeded demo account *)

(** The environment of a request served at time [t]. *)
Definition at_time (t : Z) : Env := {| now := t; salt := "salt" |}.

Definition alice : RegisterBody.t :=
  {| RegisterBody.email := Some "alice@example.com";
     RegisterBody.name := Some "Alice";
     RegisterBody.password := Some "secret1" |}.

(** The header a client sends after it was issued a token for [payload]
    at time [iat] by the plain runtime. *)
Definition bearer (payload : Identity) (iat : Z) : option string :=
  Some ("Bearer " ++ Plain.sign payload iat)%string.

Definition alice_bearer : option string :=
  bearer {| userId := 1; email := "alice@example.com" |} 0.

Definition donation (amount : JS.value) (date : string) : DonationBody.t :=
  {| DonationBody.organization := Some "Sanctuary";
     DonationBody.amount := amount;
     DonationBody.date := Some date;
     DonationBody.notes := None |}.

Definition eleven_days : list string :=
  [ "2024-01-01"; "2024-01-02"; "2024-01-03"; "2024-01-04"; "2024-01-05";
    "2024-01-06"; "2024-01-07"; "2024-01-08"; "2024-01-09"; "2024-01-10";
    "2024-01-11" ].

(** Registration at time 0, then one donation of 10 on each of the eleven
    days, submitted in date order one second apart. *)
Definition eleven_donations : list (Env * Request) :=
  (at_time 0, PostRegister alice)
  :: map (fun kd =>
            (at_time (1000 * Z.of_nat (fst kd)),
             PostDonations alice_bearer (donation (JS.Num 10) (snd kd))))
       (combine (List.seq 1 11) eleven_days).

(** The dates of the donations a dashboard response lists as recent. *)
Definition recent_donation_dates (r : Response) : list string :=
  match body r with
  | Dashboard _ _ rc => map Donation.date (Recent.donations rc)
  | _ => []
  end.

Definition demo_login : Request :=
  PostLogin {| LoginBody.email := Some "johndoe@gmail.com";
               LoginBody.password := Some "password123" |}.

Definition demo_identity : Identity :=
  {| userId := 1; email := "johndoe@gmail.com" |}.

(** A seeding environment: the clock ticks once per reading. *)
Definition demo_seed : SeedEnv :=
  {| seed_salt := "salt"; clock := fun k => Z.of_nat k;
     today := "2024-03-01"; lastMonth := "2024-01-31";
     twoMonthsAgo := "2024-01-01" |}.

(** The store a new relational server serves: the schema, seeded by
    [initializeDatabase]. *)
Definition rel_seeded {R : Runtime} (se : SeedEnv) : Rel.Database :=
  match Rel.initializeDatabase se Rel.empty with
  | Some db => db
  | None => Rel.empty
  end.

(** ** Client scripts, and the relation kept between the two stores *)

(** What a client does, whatever ids and tokens the server hands out:
    register, log in, and, as the user registered under the email [who]
    and holding a token issued at [iat], record a donation or open the
    dashboard. *)
Inductive Action : Type :=
| Register (b : RegisterBody.t)
| Login (b : LoginBody.t)
| Donate (who : string) (iat : Z) (b : DonationBody.t)
| ViewDashboard (who : string) (iat : Z).

(** The payload either server signs for the user stored under [who]. *)
Definition session_of (who : string) (users : list User.t)
  : option Identity :=
  option_map (fun u => {| userId := User.id u; email := User.email u |})
    (find (fun u => String.eqb (User.email u) who) users).

(** The [Authorization] header of a client holding a token for [payload]
    issued at [iat]; a client that never got a token sends none. *)
Definition header {R : Runtime} (payload : option Identity) (iat : Z)
  : option string :=
  option_map (fun i => ("Bearer " ++ jwt_sign i iat)%string) payload.

Definition request_of {R : Runtime} (users : list User.t) (a : Action)
  : Request :=
  match a with
  | Register b => PostRegister b
  | Login b => PostLogin b
  | Donate who iat b => PostDonations (header (session_of who users) iat) b
  | ViewDashboard who iat => GetDashboard (header (session_of who users) iat)
  end.

(** The responses a script gets from each server, started on [db]. *)
Fixpoint flat_play {R : Runtime} (script : list (Env * Action))
    (db : Flat.Database) : list Response :=
  match script with
  | [] => []
  | (env, a) :: rest =>
      let out := Flat.handle env (request_of (Flat.users db) a) db in
      fst (fst out) :: flat_play rest (snd (fst out))
  end.

Fixpoint rel_play {R : Runtime} (script : list (Env * Action))
    (db : Rel.Database) : list Response :=
  match script with
  | [] => []
  | (env, a) :: rest =>
      let out :=
        Rel.handle env (request_of (Rel.rows (Rel.users db)) a) db in
      fst (fst out) :: rel_play rest (snd (fst out))
  end.

(** A step both servers treat alike: tokens are used within their lifetime
    and a donation's amount parses to a number (the relational schema
    rejects a NaN, the flat document stores it). *)
Definition agreeable (ea : Env * Action) : Prop :=
  match snd ea with
  | Donate _ iat b =>
      iat <= seconds (fst ea) < iat + token_lifetime /\
      PrimFloat.is_nan (JS.parseFloat (DonationBody.amount b)) = false
  | ViewDashboard _ iat => iat <= seconds (fst ea) < iat + token_lifetime
  | Register _ | Login _ => True
  end.

(** Two responses that say the same up to the ids and tokens in them; for a
    dashboard, the same counts, and totals taken over one and the same list
    of amounts (by a running binary64 sum on one side, by the engine's
    [SUM] on the other). *)
Definition same_answer {R : Runtime} (rf rr : Response) : Prop :=
  status rf = status rr /\
  match body rf, body rr with
  | StatusText, StatusText => True
  | Error m, Error m' => m = m'
  | Session m _ u, Session m' _ u' =>
      m = m' /\ pu_email u = pu_email u' /\ pu_name u = pu_name u'
  | Created m _, Created m' _ => m = m'
  | Dashboard u st _, Dashboard u' st' _ =>
      pu_email u = pu_email u' /\ pu_name u = pu_name u' /\
      conversionCount st = conversionCount st' /\
      mediaCount st = mediaCount st' /\
      campaignCount st = campaignCount st' /\
      animalsImpact st = animalsImpact st' /\
      totalReach st = totalReach st' /\
      exists amounts,
        totalDonations st
          = fold_left (fun sum x => (sum + x)%float) amounts zero /\
        totalDonations st' = or_zero (Rel.coalesce_sum amounts)
  | _, _ => False
  end.

Definition user_sim (uf ur : User.t) : Prop :=
  User.email uf = User.email ur /\ User.name uf = User.name ur /\
  User.password uf = User.password ur.

(** Which flat-document user id stands for which relational user id. *)
Definition idmap (fu ru : list User.t) : list (Z * Z) :=
  combine (map User.id fu) (map User.id ru).
Arguments idmap : simpl never.

Definition donation_sim (m : list (Z * Z)) (df dr : Donation.t) : Prop :=
  In (Donation.user_id df, Donation.user_id dr) m /\
  Donation.organization df = Donation.organization dr /\
  Donation.amount df = Donation.amount dr /\
  Donation.date df = Donation.date dr /\
  Donation.notes df = Donation.notes dr.

(** The email of the account that both servers seed. *)
Definition demo_email : string := "johndoe@gmail.com".

(** A step both servers treat alike when the dashboard of one account is
    set aside: [private] is the email of that account, if there is one. *)
Definition agreeable_but (private : option string) (ea : Env * Action)
  : Prop :=
  agreeable ea /\
  match snd ea with
  | ViewDashboard who _ => Some who <> private
  | _ => True
  end.

(** The relation kept between the two stores.  The users correspond, in
    order.  One account may be private to each store: it has the id [df]
    in the flat document and [dr] in the relational store, and the email
    [private] if it is stored at all.  What was stored with the private
    account before the first request (the seeded rows [sf] and [sr], and
    every conversion, media post and campaign) need not correspond; every
    donation recorded since does. *)
Record sim (private : option string) (df dr : Z)
    (f : Flat.Database) (r : Rel.Database) : Prop := {
  sim_users : Forall2 user_sim (Flat.users f) (Rel.rows (Rel.users r));
  sim_fids : NoDup (map User.id (Flat.users f));
  sim_rids : NoDup (map User.id (Rel.rows (Rel.users r)));
  sim_fbound : Forall (fun u => User.id u <= Flat.lastId f) (Flat.users f);
  sim_rbound :
    Forall (fun u => User.id u <= Rel.seq (Rel.users r))
      (Rel.rows (Rel.users r));
  sim_fahead : df <= Flat.lastId f;
  sim_rahead : dr <= Rel.seq (Rel.users r);
  sim_fprivate :
    forall u, In u (Flat.users f) -> User.id u = df ->
              Some (User.email u) = private;
  sim_rprivate :
    forall u, In u (Rel.rows (Rel.users r)) -> User.id u = dr ->
              Some (User.email u) = private;
  sim_donations :
    exists sf lf sr lr,
      Flat.donations f = sf ++ lf /\
      Rel.rows (Rel.donations r) = sr ++ lr /\
      Forall (fun d => Donation.user_id d = df) sf /\
      Forall (fun d => Donation.user_id d = dr) sr /\
      Forall2 (donation_sim (idmap (Flat.users f) (Rel.rows (Rel.users r))))
        lf lr;
  sim_fc : Forall (fun c => Conversion.user_id c = df) (Flat.conversions f);
  sim_fm : Forall (fun m => Media.user_id m = df) (Flat.media f);
  sim_fp : Forall (fun c => Campaign.user_id c = df) (Flat.campaigns f);
  sim_rc :
    Forall (fun c => Conversion.user_id c = dr)
      (Rel.rows (Rel.vegan_conversions r));
  sim_rm :
    Forall (fun m => Media.user_id m = dr) (Rel.rows (Rel.media_shared r));
  sim_rp :
    Forall (fun c => Campaign.user_id c = dr) (Rel.rows (Rel.campaigns r)) }.

(** ** More of Alice *)

Definition alice_token : string :=
  Plain.sign {| userId := 1; email := "alice@example.com" |} 0.

Definition alice_identity : Identity :=
  {| userId := 1; email := "alice@example.com" |}.

(** The dashboard Alice gets at time 20 s from a server that served
    [reqs] from empty. *)
Definition flat_dashboard_after (reqs : list (Env * Request)) : Response :=
  fst (fst (Flat.handle (R := plain_runtime) (at_time 20000)
              (GetDashboard alice_bearer)
              (Flat.serve (R := plain_runtime) reqs Flat.empty))).

Definition rel_dashboard_after (reqs : list (Env * Request)) : Response :=
  fst (fst (Rel.handle (R := plain_runtime) (at_time 20000)
              (GetDashboard alice_bearer)
              (Rel.serve (R := plain_runtime) reqs Rel.empty))).

Definition a_conversion : ConversionBody.t :=
  {| ConversionBody.person_name := Some "Bob";
     ConversionBody.conversion_date := Some "2024-01-05";
     ConversionBody.influence_type := None;
     ConversionBody.notes := None |}.

Definition shared_script : list (Env * Action) :=
  [ (at_time 0, Register alice);
    (at_time 1000,
     Donate "alice@example.com" 0 (donation (JS.Num 50) "2024-01-01"));
    (at_time 2000,
     Donate "nobody@example.com" 0 (donation (JS.Num 5) "2024-01-02"));
    (at_time 3000, ViewDashboard "alice@example.com" 0) ].

(** Against the servers as they start: the demo account logs in and
    records a donation, Alice registers, donates and opens her dashboard. *)
Definition production_script : list (Env * Action) :=
  [ (at_time 0,
     Login {| LoginBody.email := Some "johndoe@gmail.com";
              LoginBody.password := Some "password123" |});
    (at_time 1000,
     Donate "johndoe@gmail.com" 0 (donation (JS.Num 20) "2024-02-01"));
    (at_time 2000, Register alice);
    (at_time 3000,
     Donate "alice@example.com" 2 (donation (JS.Num 50) "2024-01-01"));
    (at_time 4000, ViewDashboard "alice@example.com" 2) ].

#[local] Set Warnings "-inexact-float".

(** Alice registers, donates 0.1, 0.2 and 0.3, and opens her
    dashboard. *)
Definition three_tenths : list (Env * Action) :=
  [ (at_time 0, Register alice);
    (at_time 1000,
     Donate "alice@example.com" 0 (donation (JS.Num 0.1) "2024-01-01"));
    (at_time 2000,
     Donate "alice@example.com" 0 (donation (JS.Num 0.2) "2024-01-02"));
    (at_time 3000,
     Donate "alice@example.com" 0 (donation (JS.Num 0.3) "2024-01-03"));
    (at_time 4000, ViewDashboard "alice@example.com" 0) ].

Definition alice_again_short : RegisterBody.t :=
  {| RegisterBody.email := Some "alice@example.com";
     RegisterBody.name := Some "Bob";
     RegisterBody.password := Some "abc" |}.

Definition alice_again : RegisterBody.t :=
  {| RegisterBody.email := Some "alice@example.com";
     RegisterBody.name := Some "Bob";
     RegisterBody.password := Some "another-password" |}.

Definition demo_bearer : option string := bearer demo_identity 0.

Definition alice_registered : list (Env * Request) :=
  [(at_time 0, PostRegister alice)].

(* ================================================================== *)
(** * The client's session: [AuthProvider] of the single-page app *)
(* ================================================================== *)

Module Client.

(** The three pieces of React state and the [localStorage] item ['token']. *)
Record State : Type := {
  user : option PublicUser;
  token : option string;
  isLoading : bool;
  stored_token : option string }.

(** The state on mount: [useState(localStorage.getItem('token'))]. *)
Definition mount (stored : option string) : State :=
  {| user := None; token := stored; isLoading := false;
     stored_token := stored |}.

(** [response.ok] *)
Definition ok (r : Response) : bool :=
  (200 <=? status r) && (status r <=? 299).

(** [api.post]: the parsed JSON of an ok answer.  It throws ([None]) when
    the fetch fails (no answer), when the answer is not ok, and when the
    body is not JSON. *)
Definition post (answer : option Response) : option Body :=
  match answer with
  | Some r =>
      if ok r then
        match body r with
        | StatusText | NotRouted => None
        | b => Some b
        end
      else None
  | None => None
  end.

(** [response.token] and [response.user]; [undefined] is [None]. *)
Definition token_field (b : Body) : option string :=
  match b with Session _ t _ => Some t | _ => None end.

Definition user_field (b : Body) : option PublicUser :=
  match b with Session _ _ u => Some u | _ => None end.

(** [localStorage.setItem('token', v)] stores the string conversion. *)
Definition setItem (v : option string) : option string :=
  Some (match v with Some t => t | None => "undefined" end).

(** The common body of [login] and [register], given what the server
    answered to the request: the state after the [try]/[catch]/[finally]
    and the boolean returned. *)
Definition signed_in (answer : option Response) (s : State) : bool * State :=
  match post answer with
  | Some response =>
      (true,
       {| user := user_field response; token := token_field response;
          isLoading := false;
          stored_token := setItem (token_field response) |})
  | None =>
      (false,
       {| user := user s; token := token s; isLoading := false;
          stored_token := stored_token s |})
  end.

(** The request [login(email, password)] posts. *)
Definition login_request (email password : string) : Request :=
  PostLogin {| LoginBody.email := Some email;
               LoginBody.password := Some password |}.

(** The request [register(email, name, password)] posts. *)
Definition register_request (email name password : string) : Request :=
  PostRegister {| RegisterBody.email := Some email;
                  RegisterBody.name := Some name;
                  RegisterBody.password := Some password |}.

Definition logout (s : State) : State :=
  {| user := None; token := None; isLoading := isLoading s;
     stored_token := None |}.

(** [api.get(endpoint, token)] sends [Authorization: Bearer <token>]. *)
Definition authorization (token : string) : option string :=
  Some ("Bearer " ++ token)%string.

(** What the user does with the page. *)
Inductive Action : Type :=
| DoLogin (email password : string)
| DoRegister (email name password : string)
| DoLogout.

End Client.

(* ================================================================== *)
(** * Vocabulary of the further properties *)
(* ================================================================== *)

(** ** Shapes of a store *)

(** Every id in the flat document, over all five arrays. *)
Definition flat_ids (db : Flat.Database) : list Z :=
  map User.id (Flat.users db) ++ map Donation.id (Flat.donations db) ++
  map Conversion.id (Flat.conversions db) ++ map Media.id (Flat.media db) ++
  map Campaign.id (Flat.campaigns db).

(** No id is used twice and none is ahead of the counter. *)
Definition flat_ids_fresh (db : Flat.Database) : Prop :=
  NoDup (flat_ids db) /\ Forall (fun i => i <= Flat.lastId db) (flat_ids db).

(** The id a 201 answer reports. *)
Definition reported_id (r : Response) : option Z :=
  match body r with
  | Created _ i => Some i
  | Session _ _ u => Some (pu_id u)
  | _ => None
  end.

(** The flat document after exactly one [push]: the counter moved by one
    and one array got one row, carrying the new counter value, at its
    end. *)
Definition flat_pushed (db db' : Flat.Database) : Prop :=
  Flat.lastId db' = Flat.lastId db + 1 /\
  Flat.conversions db' = Flat.conversions db /\
  Flat.media db' = Flat.media db /\
  Flat.campaigns db' = Flat.campaigns db /\
  ((exists u, Flat.users db' = Flat.users db ++ [u] /\
              User.id u = Flat.lastId db' /\
              Flat.donations db' = Flat.donations db) \/
   (exists d, Flat.donations db' = Flat.donations db ++ [d] /\
              Donation.id d = Flat.lastId db' /\
              Flat.users db' = Flat.users db)).

(** A table after exactly one [INSERT] that reported the rowid [i]. *)
Definition inserted {A} (id : A -> Z) (i : Z) (t t' : Rel.Table A) : Prop :=
  exists x, Rel.rows t' = Rel.rows t ++ [x] /\ id x = i /\
            i = Rel.seq t + 1 /\ Rel.seq t' = i.

(** The relational store after exactly one [INSERT] that reported [i]:
    one table got the row, the other four are as they were. *)
Definition rel_inserted (i : Z) (db db' : Rel.Database) : Prop :=
  (inserted User.id i (Rel.users db) (Rel.users db') /\
   Rel.donations db' = Rel.donations db /\
   Rel.vegan_conversions db' = Rel.vegan_conversions db /\
   Rel.media_shared db' = Rel.media_shared db /\
   Rel.campaigns db' = Rel.campaigns db) \/
  (inserted Donation.id i (Rel.donations db) (Rel.donations db') /\
   Rel.users db' = Rel.users db /\
   Rel.vegan_conversions db' = Rel.vegan_conversions db /\
   Rel.media_shared db' = Rel.media_shared db /\
   Rel.campaigns db' = Rel.campaigns db) \/
  (inserted Conversion.id i (Rel.vegan_conversions db)
     (Rel.vegan_conversions db') /\
   Rel.users db' = Rel.users db /\
   Rel.donations db' = Rel.donations db /\
   Rel.media_shared db' = Rel.media_shared db /\
   Rel.campaigns db' = Rel.campaigns db) \/
  (inserted Media.id i (Rel.media_shared db) (Rel.media_shared db') /\
   Rel.users db' = Rel.users db /\
   Rel.donations db' = Rel.donations db /\
   Rel.vegan_conversions db' = Rel.vegan_conversions db /\
   Rel.campaigns db' = Rel.campaigns db) \/
  (inserted Campaign.id i (Rel.campaigns db) (Rel.campaigns db') /\
   Rel.users db' = Rel.users db /\
   Rel.donations db' = Rel.donations db /\
   Rel.vegan_conversions db' = Rel.vegan_conversions db /\
   Rel.media_shared db' = Rel.media_shared db).

(** The effects that change what is stored. *)
Definition is_write (e : Event) : bool :=
  match e with Write _ => true | _ => false end.

(** The effects that issue a token. *)
Definition is_sign (e : Event) : bool :=
  match e with Sign _ => true | _ => false end.

(** ** The client against a server *)

(** One step of the page against a server whose answer to a request is
    [answer] ([None] when the request does not get through): the client
    state afterwards and the request sent, if any. *)
Definition client_request (a : Client.Action) : option Request :=
  match a with
  | Client.DoLogin e p => Some (Client.login_request e p)
  | Client.DoRegister e n p => Some (Client.register_request e n p)
  | Client.DoLogout => None
  end.

Definition client_step (a : Client.Action) (answer : option Response)
    (s : Client.State) : Client.State :=
  match a with
  | Client.DoLogout => Client.logout s
  | _ => snd (Client.signed_in answer s)
  end.

(** A page session against the flat-document server: each action comes
    with the [Env] of its request and whether the request gets through. *)
Fixpoint flat_session {R : Runtime}
    (acts : list (Env * bool * Client.Action))
    (s : Client.State) (db : Flat.Database) : Client.State * Flat.Database :=
  match acts with
  | [] => (s, db)
  | (env, delivered, a) :: rest =>
      match client_request a with
      | Some req =>
          if delivered then
            let out := Flat.handle env req db in
            flat_session rest (client_step a (Some (fst (fst out))) s)
              (snd (fst out))
          else flat_session rest (client_step a None s) db
      | None => flat_session rest (client_step a None s) db
      end
  end.

Fixpoint rel_session {R : Runtime}
    (acts : list (Env * bool * Client.Action))
    (s : Client.State) (db : Rel.Database) : Client.State * Rel.Database :=
  match acts with
  | [] => (s, db)
  | (env, delivered, a) :: rest =>
      match client_request a with
      | Some req =>
          if delivered then
            let out := Rel.handle env req db in
            rel_session rest (client_step a (Some (fst (fst out))) s)
              (snd (fst out))
          else rel_session rest (client_step a None s) db
      | None => rel_session rest (client_step a None s) db
      end
  end.

(** ** Scenarios *)

Definition bob : RegisterBody.t :=
  {| RegisterBody.email := Some "bob@example.com";
     RegisterBody.name := Some "Bob";
     RegisterBody.password := Some "hunter22" |}.

Definition bob_identity : Identity :=
  {| userId := 2; email := "bob@example.com" |}.


Definition a_media : MediaBody.t :=
  {| MediaBody.platform := Some "Mastodon";
     MediaBody.content_type := Some "Post";
     MediaBody.reach_estimate := JS.Str "many";
     MediaBody.date := Some "2024-01-06";
     MediaBody.url := None; MediaBody.notes := None |}.

Definition a_campaign : CampaignBody.t :=
  {| CampaignBody.campaign_name := Some "Cage-free";
     CampaignBody.organization := None;
     CampaignBody.participation_type := Some "Petition";
     CampaignBody.date := Some "2024-01-07";
     CampaignBody.impact_description := None |}.

(** ** Validation of the other bodies *)

Definition valid_login (b : LoginBody.t) : bool :=
  JS.opt_truthy (LoginBody.email b) && JS.opt_truthy (LoginBody.password b).

Definition valid_conversion (b : ConversionBody.t) : bool :=
  JS.opt_truthy (ConversionBody.person_name b)
  && JS.opt_truthy (ConversionBody.conversion_date b).

Definition valid_media (b : MediaBody.t) : bool :=
  JS.opt_truthy (MediaBody.platform b)
  && JS.opt_truthy (MediaBody.content_type b)
  && JS.opt_truthy (MediaBody.date b).

Definition valid_campaign (b : CampaignBody.t) : bool :=
  JS.opt_truthy (CampaignBody.campaign_name b)
  && JS.opt_truthy (CampaignBody.participation_type b)
  && JS.opt_truthy (CampaignBody.date b).

(** ** What a login may answer *)

(** The answers [POST /api/login] has for a body [b] over the stored
    [users]: a session for a stored user under the submitted email whose
    stored hash [bcrypt.compare] accepted, with a token signed for that
    user; or, with no token signed, the one 401 message when both fields
    are present and the 400 message otherwise. *)
Definition login_answer {R : Runtime} (env : Env) (b : LoginBody.t)
    (users : list User.t) (r : Response) (tr : list Event) : Prop :=
  (exists u,
     In u users /\
     User.email u = JS.or_empty (LoginBody.email b) /\
     bcrypt_compare (JS.or_empty (LoginBody.password b)) (User.password u)
       = true /\
     r = json 200
           (Session "Login successful"
              (jwt_sign {| userId := User.id u; email := User.email u |}
                 (seconds env))
              (public false u)) /\
     filter is_sign tr
       = [Sign {| userId := User.id u; email := User.email u |}]) \/
  (filter is_sign tr = [] /\
   r = if valid_login b
       then json 401 (Error "Invalid credentials")
       else json 400 (Error "Email and password are required")).

(** ** What a dashboard may show *)

(** Every row of the four recent lists [rc] is one of the stored rows
    given, and belongs to the user [uid]. *)
Definition own_rows (uid : Z) (rc : Recent.t)
    (ds : list Donation.t) (cs : list Conversion.t) (ms : list Media.t)
    (ps : list Campaign.t) : Prop :=
  (forall d, In d (Recent.donations rc) ->
             In d ds /\ Donation.user_id d = uid) /\
  (forall c, In c (Recent.conversions rc) ->
             In c cs /\ Conversion.user_id c = uid) /\
  (forall m, In m (Recent.media rc) ->
             In m ms /\ Media.user_id m = uid) /\
  (forall p, In p (Recent.campaigns rc) ->
             In p ps /\ Campaign.user_id p = uid).

(** The statistics after one more conversion, and after one more
    campaign. *)
Definition count_conversion (st : Stats) : Stats :=
  {| totalDonations := totalDonations st;
     conversionCount := conversionCount st + 1;
     mediaCount := mediaCount st;
     totalReach := totalReach st;
     campaignCount := campaignCount st;
     animalsImpact := animalsImpact st + 365 |}.

Definition count_campaign (st : Stats) : Stats :=
  {| totalDonations := totalDonations st;
     conversionCount := conversionCount st;
     mediaCount := mediaCount st;
     totalReach := totalReach st;
     campaignCount := campaignCount st + 1;
     animalsImpact := animalsImpact st |}.

(** The statistics after one more media post, whose total reach is now
    [reach]. *)
Definition count_media (reach : float) (st : Stats) : Stats :=
  {| totalDonations := totalDonations st;
     conversionCount := conversionCount st;
     mediaCount := mediaCount st + 1;
     totalReach := reach;
     campaignCount := campaignCount st;
     animalsImpact := animalsImpact st |}.

(** ** Numbers in the relational store *)

(** No stored amount and no stored reach estimate is NaN. *)
Definition rel_numbers (db : Rel.Database) : Prop :=
  Forall (fun d => PrimFloat.is_nan (Donation.amount d) = false)
    (Rel.rows (Rel.donations db)) /\
  Forall (fun m => PrimFloat.is_nan (Media.reach_estimate m) = false)
    (Rel.rows (Rel.media_shared db)).

(** ** The page's session and the server's users *)

(** A body that signs a stored user in: the user shown is one of [users]
    and the token was signed for that user's id and email. *)
Definition session_body {R : Runtime} (users : list User.t) (b : Body)
  : Prop :=
  exists message u iat,
    In u users /\
    b = Session message
          (jwt_sign {| userId := User.id u; email := User.email u |} iat)
          (public false u).

(** The page's state is in order: the token in memory is the one in
    [localStorage]; a user is shown only together with a token that the
    server signed for that user, who is stored; with no user shown, the
    token is the one found on mount, or none. *)
Definition session_ok {R : Runtime} (users : list User.t)
    (stored : option string) (s : Client.State) : Prop :=
  Client.token s = Client.stored_token s /\
  match Client.user s with
  | Some shown =>
      exists u iat,
        In u users /\ shown = public false u /\
        Client.token s
          = Some (jwt_sign {| userId := User.id u; email := User.email u |}
                    iat)
  | None => Client.token s = stored \/ Client.token s = None
  end.

(** ** What the page lists *)

(** The dashboard page lists [data.recent.donations.slice(0, 3)]. *)
Definition page_donations (rc : Recent.t) : list Donation.t :=
  firstn 3 (Recent.donations rc).

(** ** More scenarios *)

Definition alice_public : PublicUser :=
  {| pu_id := 1; pu_email := "alice@example.com"; pu_name := "Alice";
     pu_created_at := None |}.

(** Alice registers, someone tries her email again, Bob registers. *)
Definition three_registrations : list (Env * Request) :=
  [ (at_time 0, PostRegister alice);
    (at_time 1000, PostRegister alice_again);
    (at_time 2000, PostRegister bob) ].

(** Bob registers, and Alice records a donation. *)
Definition bob_and_a_donation : list (Env * Request) :=
  [ (at_time 500, PostRegister bob);
    (at_time 1000,
     PostDonations alice_bearer (donation (JS.Num 50) "2024-01-01")) ].

(** A donation whose amount is a word. *)
Definition a_word_donation : DonationBody.t :=
  donation (JS.Str "abc") "2024-01-01".

(** Alice registers and records a donation of a word, a media post whose
    reach is a word, and a donation of 50. *)
Definition words_for_numbers : list (Env * Request) :=
  [ (at_time 0, PostRegister alice);
    (at_time 1000, PostDonations alice_bearer a_word_donation);
    (at_time 2000, PostMedia alice_bearer a_media);
    (at_time 3000,
     PostDonations alice_bearer (donation (JS.Num 50) "2024-01-02")) ].

(** Two registrations under Alice's email, both past their checks before
    either resumes. *)
Definition both_resume : list Turn :=
  [ Resumed (at_time 0) alice; Resumed (at_time 1000) alice_again ].

(** Alice's eleven donations, and a twelfth whose date field is the year
    alone: the [date DATE] column stores it as the number 2025, and a
    number sorts below every text. *)
Definition twelve_donations : list (Env * Request) :=
  eleven_donations
    ++ [ (at_time 12000,
          PostDonations alice_bearer (donation (JS.Num 10) "2025")) ].

(** The token inside [demo_bearer]. *)
Definition demo_token : string := Plain.sign demo_identity 0.

(** A media post whose reach estimate is nine quintillion: it fits the
    [INTEGER] column, and two of them do not fit a 64-bit total. *)
Definition a_large_media : MediaBody.t :=
  {| MediaBody.platform := Some "Mastodon";
     MediaBody.content_type := Some "Post";
     MediaBody.reach_estimate := JS.Num 9000000000000000000;
     MediaBody.date := Some "2024-01-06";
     MediaBody.url := None; MediaBody.notes := None |}.

(** Alice records that media post twice. *)
Definition two_large_reaches : list (Env * Request) :=
  [ (at_time 1000, PostMedia alice_bearer a_large_media);
    (at_time 2000, PostMedia alice_bearer a_large_media) ].

(* ================================================================== *)
(** * The plain runtime meets the interface *)
(* ================================================================== *)

Lemma prefix_app (a b : string) : prefix a (a ++ b)%string = true.
Proof.
  induction a as [|c a IH]; simpl.
  - destruct b; reflexivity.
  - destruct (ascii_dec c c) as [_|ne]; [exact IH | now elim ne].
Qed.

Lemma plain_compare_hash (salt password : string) :
  Plain.compare password (Plain.hash salt password) = true.
Proof.
  unfold Plain.compare, Plain.hash.
  replace (password ++ "$" ++ salt)%string
    with ((password ++ "$") ++ salt)%string; [apply prefix_app|].
  induction password as [|c p IH]; simpl; [reflexivity | now rewrite IH].
Qed.

Lemma dec_pos_enc (p : positive) (r : string) :
  Plain.dec_pos (Plain.enc_pos p ++ r)%string = Some (p, r).
Proof.
  induction p as [q IH|q IH|]; simpl; try rewrite IH; reflexivity.
Qed.

Lemma dec_Z_enc (z : Z) (r : string) :
  Plain.dec_Z (Plain.enc_Z z ++ r)%string = Some (z, r).
Proof.
  destruct z; simpl; try rewrite dec_pos_enc; reflexivity.
Qed.

Lemma unbit_bit (b : bool) : Plain.unbit (Plain.bit b) = Some b.
Proof. destruct b; reflexivity. Qed.

Lemma dec_string_enc (s : string) :
  Plain.dec_string (Plain.enc_string s) = Some s.
Proof.
  induction s as [|[b0 b1 b2 b3 b4 b5 b6 b7] r IH]; [reflexivity|].
  cbn [Plain.enc_string Plain.dec_string].
  rewrite !unbit_bit, IH. reflexivity.
Qed.

Lemma plain_verify_sign (payload : Identity) (iat t : Z) :
  iat <= t < iat + token_lifetime ->
  Plain.verify (Plain.sign payload iat) t = Some payload.
Proof.
  intros [lo hi]. unfold Plain.verify, Plain.sign.
  rewrite dec_Z_enc, dec_Z_enc, dec_string_enc.
  apply Z.leb_le in lo. apply Z.ltb_lt in hi. rewrite lo, hi.
  destruct payload; reflexivity.
Qed.

Lemma spaceless_app (a b : string) :
  spaceless (a ++ b)%string = spaceless a && spaceless b.
Proof.
  induction a as [|c a IH]; simpl; [reflexivity|].
  now rewrite IH, andb_assoc.
Qed.

Lemma split_spaceless (s cur : string) :
  spaceless s = true ->
  JS.split_space_aux s cur = [(cur ++ s)%string].
Proof.
  revert cur. induction s as [|c r IH]; simpl; intros cur H.
  - f_equal. induction cur as [|d cur IHc]; simpl; [reflexivity | now f_equal].
  - apply andb_prop in H as [Hc Hr].
    destruct (Ascii.eqb c " "); [discriminate|].
    rewrite (IH _ Hr). f_equal. clear.
    induction cur as [|d cur IHc]; simpl; [reflexivity | now rewrite IHc].
Qed.

Lemma spaceless_enc_pos (p : positive) : spaceless (Plain.enc_pos p) = true.
Proof. induction p; simpl; auto. Qed.

Lemma spaceless_enc_Z (z : Z) : spaceless (Plain.enc_Z z) = true.
Proof. destruct z; simpl; auto using spaceless_enc_pos. Qed.

Lemma spaceless_enc_string (s : string) :
  spaceless (Plain.enc_string s) = true.
Proof.
  induction s as [|[b0 b1 b2 b3 b4 b5 b6 b7] r IH]; [reflexivity|].
  cbn [Plain.enc_string spaceless]. rewrite IH.
  destruct b0, b1, b2, b3, b4, b5, b6, b7; reflexivity.
Qed.

Lemma plain_sign_compact (payload : Identity) (iat : Z) :
  Plain.sign payload iat <> "" /\
  JS.split_space (Plain.sign payload iat) = [Plain.sign payload iat].
Proof.
  split.
  - unfold Plain.sign. destruct (userId payload); discriminate.
  - unfold JS.split_space. rewrite split_spaceless; [reflexivity|].
    unfold Plain.sign.
    now rewrite !spaceless_app, !spaceless_enc_Z, spaceless_enc_string.
Qed.

Lemma plain_lawful : RuntimeLaws plain_runtime.
Proof.
  constructor.
  - exact plain_compare_hash.
  - exact plain_verify_sign.
  - exact plain_sign_compact.
Qed.

(* ================================================================== *)
(** * The authentication middleware *)
(* ================================================================== *)

Section AuthFacts.
Context {R : Runtime} {L : RuntimeLaws R}.

Lemma auth_missing {S} (env : Env) (h : option string) (s : S) :
  JS.opt_truthy (bearer_token h) = false ->
  authenticateToken env h s = (inl (json 401 StatusText), s, []).
Proof.
  unfold authenticateToken. destruct (bearer_token h) as [[|c r]|]; simpl;
    [reflexivity | discriminate | reflexivity].
Qed.

Lemma auth_forbidden {S} (env : Env) (h : option string) (token : string)
    (s : S) :
  bearer_token h = Some token -> JS.str_truthy token = true ->
  jwt_verify token (seconds env) = None ->
  authenticateToken env h s = (inl (json 403 StatusText), s, [Verify token]).
Proof.
  intros Hb Ht Hv. unfold authenticateToken. rewrite Hb.
  destruct token as [|c r]; [discriminate|].
  unfold bind, emit. now rewrite Hv.
Qed.

Lemma auth_ok {S} (env : Env) (h : option string) (token : string)
    (user : Identity) (s : S) :
  authenticated env h token user ->
  authenticateToken env h s = (inr user, s, [Verify token]).
Proof.
  intros (Hb & Ht & Hv). unfold authenticateToken. rewrite Hb.
  destruct token as [|c r]; [discriminate|].
  unfold bind, emit. now rewrite Hv.
Qed.

(** A token issued by [jwt.sign] and sent as [Bearer <token>] within its
    lifetime authenticates as the identity it was signed for. *)
Lemma bearer_of_signed (env : Env) (payload : Identity) (iat : Z) :
  iat <= seconds env < iat + token_lifetime ->
  authenticated env (Some ("Bearer " ++ jwt_sign payload iat)%string)
    (jwt_sign payload iat) payload.
Proof.
  intros Ht. destruct (jwt_sign_compact payload iat) as [Hne Hsp].
  repeat split.
  - unfold bearer_token, JS.split_space in *. cbn. now rewrite Hsp.
  - destruct (jwt_sign payload iat); [now elim Hne | reflexivity].
  - now apply jwt_verify_sign.
Qed.

End AuthFacts.

(* ================================================================== *)
(** * Requests that fail authentication *)
(* ================================================================== *)

Section Rejection.
Context {R : Runtime}.

(** C8.  On every authenticated route of either server: a request whose
    [Authorization] header yields no token (in particular a request without
    the header) is answered 401, and a request whose token does not verify
    (bad signature, or expired) is answered 403.  In both cases the store is
    unchanged and the only effect, if any, is the verification itself: no
    part of the route's handler has run. *)
Theorem rejected_before_handler (env : Env) (req : Request)
    (h : option string) :
  auth_header req = Some h ->
  (JS.opt_truthy (bearer_token h) = false ->
   (forall db, Rel.handle env req db = (json 401 StatusText, db, [])) /\
   (flat_routed req = true ->
    forall db, Flat.handle env req db = (json 401 StatusText, db, [])))
  /\
  (forall token,
     bearer_token h = Some token -> JS.str_truthy token = true ->
     jwt_verify token (seconds env) = None ->
     (forall db,
        Rel.handle env req db = (json 403 StatusText, db, [Verify token])) /\
     (flat_routed req = true ->
      forall db,
        Flat.handle env req db = (json 403 StatusText, db, [Verify token]))).
Proof.
  intros Hreq. split.
  - intros Hno. split; [|intros Hrt]; intros db;
      destruct req; try discriminate; injection Hreq as ->;
      unfold Rel.handle, Flat.handle, run, Rel.app, Flat.app, bind;
      now rewrite (auth_missing env h db Hno).
  - intros token Hb Ht Hv. split; [|intros Hrt]; intros db;
      destruct req; try discriminate; injection Hreq as ->;
      unfold Rel.handle, Flat.handle, run, Rel.app, Flat.app, bind;
      now rewrite (auth_forbidden env h token db Hb Ht Hv).
Qed.

End Rejection.

(* ================================================================== *)
(** * Shape of an authenticated route *)
(* ================================================================== *)

Section Routes.
Context {R : Runtime}.

(** A route guarded by [authenticateToken] answers 401 or 403 from the
    middleware, or runs its handler under the verified identity. *)
Lemma route_cases {S} (env : Env) (h : option string)
    (k : Identity -> M S Response) (s : S) :
  run (user <- authenticateToken env h ;; k user) s
    = (json 401 StatusText, s, [])
  \/ (exists token,
        run (user <- authenticateToken env h ;; k user) s
          = (json 403 StatusText, s, [Verify token]))
  \/ (exists token user,
        authenticated env h token user /\
        run (user <- authenticateToken env h ;; k user) s
          = (fst (fst (run (k user) s)), snd (fst (run (k user) s)),
             Verify token :: snd (run (k user) s))).
Proof.
  destruct (bearer_token h) as [[|c r]|] eqn:Hb.
  - left. unfold run, bind. now rewrite auth_missing by (rewrite Hb; reflexivity).
  - destruct (jwt_verify (String c r) (seconds env)) as [user|] eqn:Hv.
    + right; right. exists (String c r), user. split; [now repeat split|].
      unfold run, bind.
      rewrite (auth_ok env h (String c r) user s) by now repeat split.
      destruct (k user s) as [[[x|x] s'] t]; reflexivity.
    + right; left. exists (String c r). unfold run, bind.
      now rewrite (auth_forbidden env h (String c r) s Hb eq_refl Hv).
  - left. unfold run, bind. now rewrite auth_missing by (rewrite Hb; reflexivity).
Qed.

Lemma route_ok {S} (env : Env) (h : option string) (token : string)
    (user : Identity) (k : Identity -> M S Response) (s : S) :
  authenticated env h token user ->
  run (u <- authenticateToken env h ;; k u) s
    = (fst (fst (run (k user) s)), snd (fst (run (k user) s)),
       Verify token :: snd (run (k user) s)).
Proof.
  intros Ha. unfold run, bind. rewrite (auth_ok env h token user s Ha).
  destruct (k user s) as [[[x|x] s'] t]; reflexivity.
Qed.

End Routes.

(* ================================================================== *)
(** * Validation of the submitted fields *)
(* ================================================================== *)

Section Validation.
Context {R : Runtime}.

(** The values that [!amount] rejects. *)
Lemma falsy_amounts :
  JS.truthy (JS.Num 0) = false /\ JS.truthy (JS.Num (-0)) = false /\
  JS.truthy (JS.Str "") = false /\ JS.truthy JS.Null = false /\
  JS.truthy JS.Undefined = false /\ JS.truthy (JS.Bool false) = false.
Proof. repeat split; reflexivity. Qed.

(** C10.  An authenticated [POST /api/donations] whose [amount] is falsy
    (the number 0, the empty string, [null], [false] or absent) is answered
    400 with the missing-fields message by both servers and stores nothing:
    presence is tested by truthiness. *)
Theorem falsy_amount_rejected (env : Env) (h : option string)
    (token : string) (user : Identity) (b : DonationBody.t) :
  authenticated env h token user ->
  JS.truthy (DonationBody.amount b) = false ->
  (forall db,
     Flat.handle env (PostDonations h b) db
       = (json 400 (Error "Organization, amount, and date are required"),
          db, [Verify token])) /\
  (forall db,
     Rel.handle env (PostDonations h b) db
       = (json 400 (Error "Organization, amount, and date are required"),
          db, [Verify token])).
Proof.
  intros Ha Hf. split; intros db.
  - unfold Flat.handle, Flat.app. rewrite (route_ok env h token user _ db Ha).
    unfold Flat.post_donations. rewrite Hf.
    destruct (JS.opt_truthy (DonationBody.organization b)); reflexivity.
  - unfold Rel.handle, Rel.app. rewrite (route_ok env h token user _ db Ha).
    unfold Rel.post_donations. rewrite Hf.
    destruct (JS.opt_truthy (DonationBody.organization b)); reflexivity.
Qed.

(** C5.  A registration whose password is shorter than 6 characters is
    answered 400 by both servers; the store is unchanged and the handler
    performed no effect at all: nothing was hashed, written or signed. *)
Theorem short_password_rejected (env : Env) (b : RegisterBody.t)
    (p : string) :
  RegisterBody.password b = Some p ->
  (String.length p < 6)%nat ->
  (forall db,
     Flat.handle env (PostRegister b) db
       = (json 400 (Error (short_password_message b)), db, [])) /\
  (forall db,
     Rel.handle env (PostRegister b) db
       = (json 400 (Error (short_password_message b)), db, [])).
Proof.
  intros Hp Hlen. apply Nat.ltb_lt in Hlen.
  split; intros db;
    unfold Flat.handle, Rel.handle, Flat.app, Rel.app,
      Flat.post_register, Rel.post_register, Flat.register_checks,
      Rel.register_checks, short_password_message;
    rewrite Hp; simpl JS.or_empty; rewrite Hlen;
    destruct (JS.opt_truthy (RegisterBody.email b)),
      (JS.opt_truthy (RegisterBody.name b)),
      (JS.opt_truthy (Some p)); reflexivity.
Qed.

End Validation.

(* ================================================================== *)
(** * What the dashboard returns *)
(* ================================================================== *)

Lemma count_or_zero_id (c : Z) : count_or_zero c = c.
Proof. unfold count_or_zero. destruct (Z.eqb_spec c 0); congruence. Qed.

Lemma find_some_id (uid : Z) (us : list User.t) (u : User.t) :
  find (fun u => User.id u =? uid) us = Some u -> User.id u = uid.
Proof. intros H. apply find_some in H as [_ H]. now apply Z.eqb_eq. Qed.

Section DashboardFacts.
Context {R : Runtime}.

Lemma flat_dashboard_run (user : Identity) (db : Flat.Database) :
  run (Flat.get_dashboard user) db =
    match find (fun u => User.id u =? userId user) (Flat.users db) with
    | Some u =>
        (json 200
           (Dashboard (public false u) (flat_stats db (userId user))
              (flat_recent db (userId user))), db, [])
    | None => (json 404 (Error "User not found"), db, [])
    end.
Proof.
  unfold Flat.get_dashboard, run, bind, get, reply, ret.
  destruct (find _ _); reflexivity.
Qed.

Lemma rel_dashboard_run (user : Identity) (db : Rel.Database) :
  run (Rel.get_dashboard user) db =
    match find (fun u => User.id u =? userId user)
            (Rel.rows (Rel.users db)) with
    | Some u =>
        match rel_reach db (userId user) with
        | Some _ =>
            (json 200
               (Dashboard (public true u) (rel_stats db (userId user))
                  (rel_recent db (userId user))), db, [])
        | None => (json 500 (Error "Internal server error"), db, [])
        end
    | None => (json 404 (Error "User not found"), db, [])
    end.
Proof.
  unfold Rel.get_dashboard, run, bind, get, reply, ret.
  destruct (find _ _); [|reflexivity].
  unfold rel_stats, rel_reach.
  destruct (Rel.coalesce_sum_reach _); [|reflexivity].
  now rewrite !count_or_zero_id.
Qed.

(** The flat-document dashboard, read off [get_dashboard]. *)
Lemma flat_dashboard_inv (user : Identity) (db db' : Flat.Database)
    (r : Response) (tr : list Event) (pu : PublicUser) (st : Stats)
    (rc : Recent.t) :
  run (Flat.get_dashboard user) db = (r, db', tr) ->
  body r = Dashboard pu st rc ->
  let uid := userId user in
  let ds := filter (fun d => Donation.user_id d =? uid) (Flat.donations db) in
  let cs := filter (fun c => Conversion.user_id c =? uid) (Flat.conversions db) in
  let ms := filter (fun m => Media.user_id m =? uid) (Flat.media db) in
  let ps := filter (fun c => Campaign.user_id c =? uid) (Flat.campaigns db) in
  status r = 200 /\ db' = db /\ tr = [] /\ pu_id pu = uid /\
  totalDonations st
    = fold_left (fun sum d => (sum + Donation.amount d)%float) ds zero /\
  conversionCount st = Z.of_nat (List.length cs) /\
  mediaCount st = Z.of_nat (List.length ms) /\
  campaignCount st = Z.of_nat (List.length ps) /\
  animalsImpact st = conversionCount st * 365 /\
  Recent.donations rc = rev (firstn 10 ds) /\
  Recent.conversions rc = rev (firstn 10 cs) /\
  Recent.media rc = rev (firstn 10 ms) /\
  Recent.campaigns rc = rev (firstn 10 ps).
Proof.
  unfold Flat.get_dashboard, run, bind, get, reply, ret.
  destruct (find _ (Flat.users db)) as [u|] eqn:Hu; intros H Hb;
    injection H as <- <- <-; simpl in Hb; [|discriminate].
  injection Hb as <- <- <-. simpl.
  repeat split. now apply find_some_id in Hu.
Qed.

(** The relational dashboard, read off [get_dashboard]. *)
Lemma rel_dashboard_inv (user : Identity) (db db' : Rel.Database)
    (r : Response) (tr : list Event) (pu : PublicUser) (st : Stats)
    (rc : Recent.t) :
  run (Rel.get_dashboard user) db = (r, db', tr) ->
  body r = Dashboard pu st rc ->
  let uid := userId user in
  let ds := filter (fun d => Donation.user_id d =? uid)
              (Rel.rows (Rel.donations db)) in
  let cs := filter (fun c => Conversion.user_id c =? uid)
              (Rel.rows (Rel.vegan_conversions db)) in
  let ms := filter (fun m => Media.user_id m =? uid)
              (Rel.rows (Rel.media_shared db)) in
  let ps := filter (fun c => Campaign.user_id c =? uid)
              (Rel.rows (Rel.campaigns db)) in
  status r = 200 /\ db' = db /\ tr = [] /\ pu_id pu = uid /\
  totalDonations st
    = or_zero (Rel.coalesce_sum (map Donation.amount ds)) /\
  conversionCount st = Z.of_nat (List.length cs) /\
  mediaCount st = Z.of_nat (List.length ms) /\
  campaignCount st = Z.of_nat (List.length ps) /\
  animalsImpact st = conversionCount st * 365 /\
  Recent.donations rc = firstn 10 (Rel.order_by Rel.donation_order ds) /\
  Recent.conversions rc = firstn 10 (Rel.order_by Rel.conversion_order cs) /\
  Recent.media rc = firstn 10 (Rel.order_by Rel.media_order ms) /\
  Recent.campaigns rc = firstn 10 (Rel.order_by Rel.campaign_order ps).
Proof.
  rewrite rel_dashboard_run.
  destruct (find _ (Rel.rows (Rel.users db))) as [u|] eqn:Hu;
    [destruct (rel_reach db (userId user))|]; intros H Hb;
    injection H as <- <- <-; simpl in Hb; try discriminate.
  injection Hb as <- <- <-. simpl.
  repeat split. now apply find_some_id in Hu.
Qed.

(** A dashboard body can only come from the handler, under the identity
    that the middleware verified. *)
Lemma flat_dashboard_route (env : Env) (h : option string)
    (db db' : Flat.Database) (r : Response) (tr : list Event)
    (pu : PublicUser) (st : Stats) (rc : Recent.t) :
  Flat.handle env (GetDashboard h) db = (r, db', tr) ->
  body r = Dashboard pu st rc ->
  exists token user,
    authenticated env h token user /\
    run (Flat.get_dashboard user) db = (r, db', []) /\
    tr = [Verify token].
Proof.
  unfold Flat.handle, Flat.app. intros H Hb.
  destruct (route_cases env h Flat.get_dashboard db)
    as [E|[[t E]|(t & u & Ha & E)]]; rewrite E in H.
  - injection H as <- <- <-. discriminate.
  - injection H as <- <- <-. discriminate.
  - exists t, u. split; [exact Ha|].
    destruct (run (Flat.get_dashboard u) db) as [[r0 d0] t0] eqn:Hrun.
    simpl in H. injection H as <- <- <-.
    destruct (flat_dashboard_inv u db d0 r0 t0 pu st rc Hrun Hb)
      as (_ & _ & -> & _). now split.
Qed.

Lemma rel_dashboard_route (env : Env) (h : option string)
    (db db' : Rel.Database) (r : Response) (tr : list Event)
    (pu : PublicUser) (st : Stats) (rc : Recent.t) :
  Rel.handle env (GetDashboard h) db = (r, db', tr) ->
  body r = Dashboard pu st rc ->
  exists token user,
    authenticated env h token user /\
    run (Rel.get_dashboard user) db = (r, db', []) /\
    tr = [Verify token].
Proof.
  unfold Rel.handle, Rel.app. intros H Hb.
  destruct (route_cases env h Rel.get_dashboard db)
    as [E|[[t E]|(t & u & Ha & E)]]; rewrite E in H.
  - injection H as <- <- <-. discriminate.
  - injection H as <- <- <-. discriminate.
  - exists t, u. split; [exact Ha|].
    destruct (run (Rel.get_dashboard u) db) as [[r0 d0] t0] eqn:Hrun.
    simpl in H. injection H as <- <- <-.
    destruct (rel_dashboard_inv u db d0 r0 t0 pu st rc Hrun Hb)
      as (_ & _ & -> & _). now split.
Qed.

(** C3.  A [GET /api/dashboard] request that authenticates as a stored
    user is answered with that user's dashboard, by the flat-document server
    always and by the relational server whenever the engine can total the
    user's reach estimates (when that [SUM] raises, the answer is 500); in
    the dashboard [conversionCount] is the number of stored conversion
    records of that user and [animalsImpact] is exactly that count times
    365, whatever the count.  And whenever either server answers the route
    with a dashboard at all, [conversionCount] is the number of stored
    conversion records of the user the dashboard is for, and
    [animalsImpact] is exactly that count times 365. *)
Theorem animals_impact_is_365_per_conversion (env : Env)
    (h : option string) :
  (forall token user,
     authenticated env h token user ->
     let count conversions :=
       Z.of_nat (List.length
         (filter (fun c => Conversion.user_id c =? userId user)
            conversions)) in
     (forall db u,
        find (fun u => User.id u =? userId user) (Flat.users db) = Some u ->
        exists pu st rc,
          Flat.handle env (GetDashboard h) db
            = (json 200 (Dashboard pu st rc), db, [Verify token]) /\
          pu_id pu = userId user /\
          conversionCount st = count (Flat.conversions db) /\
          animalsImpact st = count (Flat.conversions db) * 365) /\
     (forall db u,
        find (fun u => User.id u =? userId user) (Rel.rows (Rel.users db))
          = Some u ->
        match rel_reach db (userId user) with
        | Some _ =>
            exists pu st rc,
              Rel.handle env (GetDashboard h) db
                = (json 200 (Dashboard pu st rc), db, [Verify token]) /\
              pu_id pu = userId user /\
              conversionCount st
                = count (Rel.rows (Rel.vegan_conversions db)) /\
              animalsImpact st
                = count (Rel.rows (Rel.vegan_conversions db)) * 365
        | None =>
            Rel.handle env (GetDashboard h) db
              = (json 500 (Error "Internal server error"), db,
                 [Verify token])
        end)) /\
  (forall (r : Response) (tr : list Event) (pu : PublicUser) (st : Stats)
          (rc : Recent.t),
     body r = Dashboard pu st rc ->
     (forall db db',
        Flat.handle env (GetDashboard h) db = (r, db', tr) ->
        conversionCount st
          = Z.of_nat (List.length
              (filter (fun c => Conversion.user_id c =? pu_id pu)
                 (Flat.conversions db))) /\
        animalsImpact st = conversionCount st * 365) /\
     (forall db db',
        Rel.handle env (GetDashboard h) db = (r, db', tr) ->
        conversionCount st
          = Z.of_nat (List.length
              (filter (fun c => Conversion.user_id c =? pu_id pu)
                 (Rel.rows (Rel.vegan_conversions db)))) /\
        animalsImpact st = conversionCount st * 365)).
Proof.
  split.
  - intros token user Ha count. split; intros db u Hu.
    + unfold Flat.handle, Flat.app.
      rewrite (route_ok env h token user _ db Ha), flat_dashboard_run, Hu.
      cbn [fst snd]. eexists _, _, _. split; [reflexivity|].
      split; [|split; reflexivity].
      cbn [pu_id public]. apply find_some in Hu as [_ Hu].
      now apply Z.eqb_eq in Hu.
    + unfold Rel.handle, Rel.app.
      rewrite (route_ok env h token user _ db Ha), rel_dashboard_run, Hu.
      destruct (rel_reach db (userId user)); [|reflexivity].
      cbn [fst snd]. eexists _, _, _. split; [reflexivity|].
      split; [|split; reflexivity].
      cbn [pu_id public]. apply find_some in Hu as [_ Hu].
      now apply Z.eqb_eq in Hu.
  - intros r tr pu st rc Hb. split; intros db db' H.
    + destruct (flat_dashboard_route env h db db' r tr pu st rc H Hb)
        as (t & u & _ & Hrun & _).
      destruct (flat_dashboard_inv u db db' r [] pu st rc Hrun Hb)
        as (_ & _ & _ & Hid & _ & Hc & _ & _ & Hi & _).
      rewrite Hid. now split.
    + destruct (rel_dashboard_route env h db db' r tr pu st rc H Hb)
        as (t & u & _ & Hrun & _).
      destruct (rel_dashboard_inv u db db' r [] pu st rc Hrun Hb)
        as (_ & _ & _ & Hid & _ & Hc & _ & _ & Hi & _).
      rewrite Hid. now split.
Qed.

End DashboardFacts.

(* ================================================================== *)
(** * Registering an email twice *)
(* ================================================================== *)

Lemma duplicate_message_valid (b : RegisterBody.t) :
  valid_registration b = true -> duplicate_message b = "User already exists".
Proof.
  unfold valid_registration, duplicate_message. intros H.
  apply andb_prop in H as [H Hl]. apply andb_prop in H as [H Hp].
  apply andb_prop in H as [He Hn]. rewrite He, Hn, Hp. simpl.
  now destruct (String.length _ <? 6)%nat.
Qed.

Lemma find_email_none (e : string) (us : list User.t) :
  find (fun u => String.eqb (User.email u) e) us = None <->
  ~ In e (map User.email us).
Proof.
  induction us as [|u us IH]; simpl; [tauto|].
  destruct (String.eqb_spec (User.email u) e) as [->|ne].
  - split; [discriminate | intros H; elim H; now left].
  - rewrite IH. tauto.
Qed.

Lemma find_email_some (e : string) (us : list User.t) :
  In e (map User.email us) ->
  exists u, find (fun u => String.eqb (User.email u) e) us = Some u.
Proof.
  intros H. destruct (find _ us) as [u|] eqn:Hf; [now exists u|].
  now apply find_email_none in Hf.
Qed.

Lemma existsb_email (e : string) (us : list User.t) :
  existsb (fun u => String.eqb (User.email u) e) us = true <->
  In e (map User.email us).
Proof.
  rewrite existsb_exists, in_map_iff. split; intros (u & H1 & H2); exists u.
  - apply String.eqb_eq in H2. tauto.
  - split; [tauto|]. now apply String.eqb_eq.
Qed.

Section Registration.
Context {R : Runtime}.

(** Registration under a stored email changes nothing. *)
Lemma flat_register_known (env : Env) (b : RegisterBody.t) (e : string)
    (db : Flat.Database) :
  RegisterBody.email b = Some e ->
  In e (map User.email (Flat.users db)) ->
  Flat.handle env (PostRegister b) db
    = (json 400 (Error (duplicate_message b)), db, []).
Proof.
  intros He Hin. unfold Flat.handle, Flat.app, Flat.post_register, Flat.register_checks,
    Flat.register_stores,
    duplicate_message.
  destruct (negb _ || negb _ || negb _) eqn:Hv; [reflexivity|].
  destruct (String.length _ <? 6)%nat; [reflexivity|].
  rewrite He. simpl JS.or_empty.
  destruct (find_email_some e _ Hin) as [u Hu].
  unfold run, bind, get. now rewrite Hu.
Qed.

Lemma rel_register_known (env : Env) (b : RegisterBody.t) (e : string)
    (db : Rel.Database) :
  RegisterBody.email b = Some e ->
  In e (map User.email (Rel.rows (Rel.users db))) ->
  Rel.handle env (PostRegister b) db
    = (json 400 (Error (duplicate_message b)), db, []).
Proof.
  intros He Hin. unfold Rel.handle, Rel.app, Rel.post_register, Rel.register_checks,
    Rel.register_stores,
    duplicate_message.
  destruct (negb _ || negb _ || negb _) eqn:Hv; [reflexivity|].
  destruct (String.length _ <? 6)%nat; [reflexivity|].
  rewrite He. simpl JS.or_empty.
  destruct (find_email_some e _ Hin) as [u Hu].
  unfold run, bind, get. now rewrite Hu.
Qed.

(** What a registration does, by cases. *)
Lemma flat_register_run (env : Env) (b : RegisterBody.t)
    (db : Flat.Database) :
  let e := JS.or_empty (RegisterBody.email b) in
  Flat.handle env (PostRegister b) db =
    if valid_registration b then
      if existsb (fun u => String.eqb (User.email u) e) (Flat.users db)
      then (json 400 (Error "User already exists"), db, [])
      else
        let i := Flat.lastId db + 1 in
        let password := JS.or_empty (RegisterBody.password b) in
        let name := JS.or_empty (RegisterBody.name b) in
        (json 201
           (Session "User created successfully"
              (jwt_sign {| userId := i; email := e |} (seconds env))
              {| pu_id := i; pu_email := e; pu_name := name;
                 pu_created_at := None |}),
         Flat.set_users
           (Flat.users db ++
              [{| User.id := i; User.email := e; User.name := name;
                  User.password := bcrypt_hash (salt env) password;
                  User.created_at := now env |}])
           (Flat.set_lastId i db),
         [Hash password; Write "data.json";
          Sign {| userId := i; email := e |}])
    else (json 400 (Error (duplicate_message b)), db, []).
Proof.
  unfold Flat.handle, Flat.app, Flat.post_register, Flat.register_checks,
    Flat.register_stores, valid_registration,
    duplicate_message.
  destruct (JS.opt_truthy (RegisterBody.email b)); [|reflexivity].
  destruct (JS.opt_truthy (RegisterBody.name b)); [|reflexivity].
  destruct (JS.opt_truthy (RegisterBody.password b)); [|reflexivity].
  simpl. destruct (String.length _ <? 6)%nat; [reflexivity|]. simpl.
  destruct (existsb _ (Flat.users db)) eqn:Hex.
  - apply existsb_email in Hex. destruct (find_email_some _ _ Hex) as [u Hu].
    unfold run, bind, get. now rewrite Hu.
  - assert (Hf : find (fun u => String.eqb (User.email u)
                         (JS.or_empty (RegisterBody.email b)))
                   (Flat.users db) = None).
    { apply find_email_none. intros Hin. apply existsb_email in Hin. congruence. }
    unfold run, bind, get. rewrite Hf. reflexivity.
Qed.

Lemma rel_register_run (env : Env) (b : RegisterBody.t)
    (db : Rel.Database) :
  let e := JS.or_empty (RegisterBody.email b) in
  Rel.handle env (PostRegister b) db =
    if valid_registration b then
      if existsb (fun u => String.eqb (User.email u) e)
           (Rel.rows (Rel.users db))
      then (json 400 (Error "User already exists"), db, [])
      else
        let i := Rel.seq (Rel.users db) + 1 in
        let password := JS.or_empty (RegisterBody.password b) in
        let name := JS.or_empty (RegisterBody.name b) in
        (json 201
           (Session "User created successfully"
              (jwt_sign {| userId := i; email := e |} (seconds env))
              {| pu_id := i; pu_email := e; pu_name := name;
                 pu_created_at := None |}),
         Rel.set_users
           {| Rel.rows :=
                Rel.rows (Rel.users db) ++
                  [{| User.id := i; User.email := e; User.name := name;
                      User.password := bcrypt_hash (salt env) password;
                      User.created_at := Rel.current_timestamp (now env) |}];
              Rel.seq := i |}
           db,
         [Hash password; Write "users";
          Sign {| userId := i; email := e |}])
    else (json 400 (Error (duplicate_message b)), db, []).
Proof.
  unfold Rel.handle, Rel.app, Rel.post_register, Rel.register_checks,
    Rel.register_stores, valid_registration,
    duplicate_message.
  destruct (JS.opt_truthy (RegisterBody.email b)); [|reflexivity].
  destruct (JS.opt_truthy (RegisterBody.name b)); [|reflexivity].
  destruct (JS.opt_truthy (RegisterBody.password b)); [|reflexivity].
  simpl. destruct (String.length _ <? 6)%nat; [reflexivity|]. simpl.
  destruct (existsb _ (Rel.rows (Rel.users db))) eqn:Hex.
  - pose proof Hex as Hin. apply existsb_email in Hin.
    destruct (find_email_some _ _ Hin) as [u Hu].
    unfold run, bind, get. now rewrite Hu.
  - assert (Hf : find (fun u => String.eqb (User.email u)
                         (JS.or_empty (RegisterBody.email b)))
                   (Rel.rows (Rel.users db)) = None).
    { apply find_email_none. intros Hin. apply existsb_email in Hin. congruence. }
    unfold run, bind, get. rewrite Hf.
    unfold emit, Rel.dbRun, Rel.insert_user. rewrite Hex. reflexivity.
Qed.

End Registration.

(* ================================================================== *)
(** * What the other handlers do to the store *)
(* ================================================================== *)

Section Effects.
Context {R : Runtime}.

Lemma flat_login_state (env : Env) (b : LoginBody.t) (db : Flat.Database) :
  snd (fst (Flat.handle env (PostLogin b) db)) = db.
Proof.
  unfold Flat.handle, Flat.app, Flat.post_login, run, bind, get, reply, emit.
  destruct (negb _ || negb _); [reflexivity|].
  destruct (find _ _) as [u|]; [|reflexivity].
  destruct (negb (bcrypt_compare _ _)); reflexivity.
Qed.

Lemma rel_login_state (env : Env) (b : LoginBody.t) (db : Rel.Database) :
  snd (fst (Rel.handle env (PostLogin b) db)) = db.
Proof.
  unfold Rel.handle, Rel.app, Rel.post_login, run, bind, get, reply, emit.
  destruct (negb _ || negb _); [reflexivity|].
  destruct (find _ _) as [u|]; [|reflexivity].
  destruct (negb (bcrypt_compare _ _)); reflexivity.
Qed.

Lemma flat_dashboard_state (user : Identity) (db : Flat.Database) :
  snd (fst (run (Flat.get_dashboard user) db)) = db.
Proof.
  unfold Flat.get_dashboard, run, bind, get, reply, ret.
  destruct (find _ _); reflexivity.
Qed.

Lemma rel_dashboard_state (user : Identity) (db : Rel.Database) :
  snd (fst (run (Rel.get_dashboard user) db)) = db.
Proof.
  rewrite rel_dashboard_run.
  destruct (find _ _); [destruct (rel_reach _ _)|]; reflexivity.
Qed.

(** What [POST /api/donations] does once authenticated, by cases. *)
Lemma flat_donations_run (env : Env) (user : Identity)
    (b : DonationBody.t) (db : Flat.Database) :
  run (Flat.post_donations env user b) db =
    if valid_donation b then
      let i := Flat.lastId db + 1 in
      (json 201 (Created "Donation recorded successfully" i),
       Flat.set_donations
         (Flat.donations db ++
            [{| Donation.id := i; Donation.user_id := userId user;
                Donation.organization :=
                  JS.or_empty (DonationBody.organization b);
                Donation.amount := JS.parseFloat (DonationBody.amount b);
                Donation.date := JS.or_empty (DonationBody.date b);
                Donation.notes := JS.or_empty (DonationBody.notes b);
                Donation.created_at := now env |}])
         (Flat.set_lastId i db),
       [Write "data.json"])
    else
      (json 400 (Error "Organization, amount, and date are required"),
       db, []).
Proof.
  unfold Flat.post_donations, valid_donation.
  destruct (JS.opt_truthy (DonationBody.organization b)); [|reflexivity].
  destruct (JS.truthy (DonationBody.amount b)); [|reflexivity].
  destruct (JS.opt_truthy (DonationBody.date b)); reflexivity.
Qed.

Lemma rel_donations_run (env : Env) (user : Identity)
    (b : DonationBody.t) (db : Rel.Database) :
  run (Rel.post_donations env user b) db =
    if valid_donation b then
      if PrimFloat.is_nan (JS.parseFloat (DonationBody.amount b)) then
        (json 500 (Error "Internal server error"), db, [])
      else
        let i := Rel.seq (Rel.donations db) + 1 in
        (json 201 (Created "Donation recorded successfully" i),
         Rel.set_donations
           {| Rel.rows :=
                Rel.rows (Rel.donations db) ++
                  [{| Donation.id := i; Donation.user_id := userId user;
                      Donation.organization :=
                        JS.or_empty (DonationBody.organization b);
                      Donation.amount :=
                        JS.parseFloat (DonationBody.amount b);
                      Donation.date := JS.or_empty (DonationBody.date b);
                      Donation.notes := JS.or_empty (DonationBody.notes b);
                      Donation.created_at :=
                        Rel.current_timestamp (now env) |}];
              Rel.seq := i |}
           db,
         [Write "donations"])
    else
      (json 400 (Error "Organization, amount, and date are required"),
       db, []).
Proof.
  unfold Rel.post_donations, valid_donation.
  destruct (JS.opt_truthy (DonationBody.organization b)); [|reflexivity].
  destruct (JS.truthy (DonationBody.amount b)); [|reflexivity].
  destruct (JS.opt_truthy (DonationBody.date b)); [|reflexivity].
  simpl. unfold run, bind, Rel.dbRun, Rel.insert_donation.
  destruct (PrimFloat.is_nan _); reflexivity.
Qed.

(** No request removes or rewrites a user: the list only grows. *)
Lemma flat_users_grow (env : Env) (req : Request) (db : Flat.Database) :
  exists extra,
    Flat.users (snd (fst (Flat.handle env req db))) = Flat.users db ++ extra.
Proof.
  destruct req as [b|b|a|a b|a b|a b|a b].
  - rewrite flat_register_run. cbv zeta.
    destruct (valid_registration b); [|exists []; simpl; now rewrite app_nil_r].
    destruct (existsb _ _); [exists []; simpl; now rewrite app_nil_r|].
    eexists. reflexivity.
  - rewrite flat_login_state. exists []. now rewrite app_nil_r.
  - exists []. rewrite app_nil_r. unfold Flat.handle, Flat.app.
    destruct (route_cases env a Flat.get_dashboard db)
      as [E|[[t E]|(t & u & _ & E)]]; rewrite E; try reflexivity.
    simpl. now rewrite flat_dashboard_state.
  - exists []. rewrite app_nil_r. unfold Flat.handle, Flat.app.
    destruct (route_cases env a (fun u => Flat.post_donations env u b) db)
      as [E|[[t E]|(t & u & _ & E)]]; rewrite E; try reflexivity.
    simpl. rewrite flat_donations_run.
    destruct (valid_donation b); reflexivity.
  - exists []. now rewrite app_nil_r.
  - exists []. now rewrite app_nil_r.
  - exists []. now rewrite app_nil_r.
Qed.

Lemma rel_users_grow (env : Env) (req : Request) (db : Rel.Database) :
  exists extra,
    Rel.rows (Rel.users (snd (fst (Rel.handle env req db))))
      = Rel.rows (Rel.users db) ++ extra.
Proof.
  destruct req as [b|b|a|a b|a b|a b|a b].
  - rewrite rel_register_run. cbv zeta.
    destruct (valid_registration b); [|exists []; simpl; now rewrite app_nil_r].
    destruct (existsb _ _); [exists []; simpl; now rewrite app_nil_r|].
    eexists. reflexivity.
  - rewrite rel_login_state. exists []. now rewrite app_nil_r.
  - exists []. rewrite app_nil_r. unfold Rel.handle, Rel.app.
    destruct (route_cases env a Rel.get_dashboard db)
      as [E|[[t E]|(t & u & _ & E)]]; rewrite E; try reflexivity.
    simpl. now rewrite rel_dashboard_state.
  - exists []. rewrite app_nil_r. unfold Rel.handle, Rel.app.
    destruct (route_cases env a (fun u => Rel.post_donations env u b) db)
      as [E|[[t E]|(t & u & _ & E)]]; rewrite E; try reflexivity.
    simpl. rewrite rel_donations_run.
    destruct (valid_donation b); [|reflexivity].
    destruct (PrimFloat.is_nan _); reflexivity.
  - exists []. rewrite app_nil_r. unfold Rel.handle, Rel.app.
    destruct (route_cases env a (fun u => Rel.post_conversions env u b) db)
      as [E|[[t E]|(t & u & _ & E)]]; rewrite E; try reflexivity.
    simpl. unfold Rel.post_conversions.
    destruct (negb _ || negb _); reflexivity.
  - exists []. rewrite app_nil_r. unfold Rel.handle, Rel.app.
    destruct (route_cases env a (fun u => Rel.post_media env u b) db)
      as [E|[[t E]|(t & u & _ & E)]]; rewrite E; try reflexivity.
    simpl. unfold Rel.post_media.
    destruct (negb _ || negb _ || negb _); reflexivity.
  - exists []. rewrite app_nil_r. unfold Rel.handle, Rel.app.
    destruct (route_cases env a (fun u => Rel.post_campaigns env u b) db)
      as [E|[[t E]|(t & u & _ & E)]]; rewrite E; try reflexivity.
    simpl. unfold Rel.post_campaigns.
    destruct (negb _ || negb _ || negb _); reflexivity.
Qed.

Lemma flat_serve_keeps_email (reqs : list (Env * Request)) (e : string)
    (db : Flat.Database) :
  In e (map User.email (Flat.users db)) ->
  In e (map User.email (Flat.users (Flat.serve reqs db))).
Proof.
  revert db. induction reqs as [|[env req] reqs IH]; intros db H; [exact H|].
  apply IH. cbn [fst snd].
  destruct (flat_users_grow env req db) as [extra ->].
  rewrite map_app. apply in_or_app. now left.
Qed.

Lemma rel_serve_keeps_email (reqs : list (Env * Request)) (e : string)
    (db : Rel.Database) :
  In e (map User.email (Rel.rows (Rel.users db))) ->
  In e (map User.email (Rel.rows (Rel.users (Rel.serve reqs db)))).
Proof.
  revert db. induction reqs as [|[env req] reqs IH]; intros db H; [exact H|].
  apply IH. cbn [fst snd].
  destruct (rel_users_grow env req db) as [extra ->].
  rewrite map_app. apply in_or_app. now left.
Qed.

End Effects.

(* ================================================================== *)
(** * A second registration under a stored email *)
(* ================================================================== *)

Section Duplicates.
Context {R : Runtime}.

Lemma flat_register_stores (env : Env) (b : RegisterBody.t) (e : string)
    (db : Flat.Database) :
  RegisterBody.email b = Some e ->
  status (fst (fst (Flat.handle env (PostRegister b) db))) = 201 ->
  In e (map User.email
          (Flat.users (snd (fst (Flat.handle env (PostRegister b) db))))).
Proof.
  intros He. rewrite flat_register_run. cbv zeta. rewrite He.
  destruct (valid_registration b); [|discriminate].
  destruct (existsb _ _); [discriminate|]. intros _. simpl.
  rewrite map_app. apply in_or_app. right. now left.
Qed.

Lemma rel_register_stores (env : Env) (b : RegisterBody.t) (e : string)
    (db : Rel.Database) :
  RegisterBody.email b = Some e ->
  status (fst (fst (Rel.handle env (PostRegister b) db))) = 201 ->
  In e (map User.email
          (Rel.rows
             (Rel.users (snd (fst (Rel.handle env (PostRegister b) db)))))).
Proof.
  intros He. rewrite rel_register_run. cbv zeta. rewrite He.
  destruct (valid_registration b); [|discriminate].
  destruct (existsb _ _); [discriminate|]. intros _. simpl.
  rewrite map_app. apply in_or_app. right. now left.
Qed.

(** The duplicate check is an exact, case-sensitive comparison with the
    stored emails: a registration that passes validation is answered
    "User already exists" exactly when its email is stored. *)
Lemma duplicate_check_is_exact (env : Env) (b : RegisterBody.t) (e : string) :
  RegisterBody.email b = Some e -> valid_registration b = true ->
  (forall db,
     fst (fst (Flat.handle env (PostRegister b) db))
       = json 400 (Error "User already exists")
     <-> In e (map User.email (Flat.users db))) /\
  (forall db,
     fst (fst (Rel.handle env (PostRegister b) db))
       = json 400 (Error "User already exists")
     <-> In e (map User.email (Rel.rows (Rel.users db)))).
Proof.
  intros He Hv. split; intros db.
  - rewrite flat_register_run. cbv zeta. rewrite Hv, He. simpl JS.or_empty.
    rewrite <- existsb_email. unfold json.
    destruct (existsb _ _); simpl; split; intros H;
      solve [reflexivity | discriminate | injection H; discriminate].
  - rewrite rel_register_run. cbv zeta. rewrite Hv, He. simpl JS.or_empty.
    rewrite <- existsb_email. unfold json.
    destruct (existsb _ _); simpl; split; intros H;
      solve [reflexivity | discriminate | injection H; discriminate].
Qed.

(** C4, amended.  Once a registration under the email [e] has succeeded,
    every later registration under [e], whatever its name and password and
    whatever requests were served in between, is answered 400 by the same
    server, stores no user and performs no effect.  The message is
    "User already exists" when the later request passes field validation;
    a request with a missing name or a password shorter than 6 characters
    gets the validation message instead, since validation runs first.
    The duplicate check is exact: a request that passes validation is
    answered "User already exists" precisely when its email, character for
    character, is the email of a stored user. *)
Theorem second_registration_rejected (env1 env2 : Env)
    (b1 b2 : RegisterBody.t) (e : string)
    (between : list (Env * Request)) :
  RegisterBody.email b1 = Some e ->
  RegisterBody.email b2 = Some e ->
  (forall db,
     status (fst (fst (Flat.handle env1 (PostRegister b1) db))) = 201 ->
     let db1 :=
       Flat.serve between
         (snd (fst (Flat.handle env1 (PostRegister b1) db))) in
     Flat.handle env2 (PostRegister b2) db1
       = (json 400 (Error (duplicate_message b2)), db1, [])) /\
  (forall db,
     status (fst (fst (Rel.handle env1 (PostRegister b1) db))) = 201 ->
     let db1 :=
       Rel.serve between
         (snd (fst (Rel.handle env1 (PostRegister b1) db))) in
     Rel.handle env2 (PostRegister b2) db1
       = (json 400 (Error (duplicate_message b2)), db1, [])) /\
  (valid_registration b2 = true ->
   duplicate_message b2 = "User already exists") /\
  (valid_registration b2 = true ->
   (forall db,
      fst (fst (Flat.handle env2 (PostRegister b2) db))
        = json 400 (Error "User already exists")
      <-> In e (map User.email (Flat.users db))) /\
   (forall db,
      fst (fst (Rel.handle env2 (PostRegister b2) db))
        = json 400 (Error "User already exists")
      <-> In e (map User.email (Rel.rows (Rel.users db))))).
Proof.
  intros H1 H2. split; [|split; [|split]].
  - intros db Hok db1. apply (flat_register_known env2 b2 e db1 H2).
    apply flat_serve_keeps_email. now apply flat_register_stores.
  - intros db Hok db1. apply (rel_register_known env2 b2 e db1 H2).
    apply rel_serve_keeps_email. now apply rel_register_stores.
  - apply duplicate_message_valid.
  - now apply duplicate_check_is_exact.
Qed.

End Duplicates.

(* ================================================================== *)
(** * Donations: what is stored and what is summed *)
(* ================================================================== *)

Lemma fold_left_snoc {A B} (f : A -> B -> A) (l : list B) (x : B) (z : A) :
  fold_left f (l ++ [x]) z = f (fold_left f l z) x.
Proof. now rewrite fold_left_app. Qed.

Lemma filter_snoc {A} (p : A -> bool) (l : list A) (x : A) :
  filter p (l ++ [x]) = filter p l ++ (if p x then [x] else []).
Proof. rewrite filter_app. simpl. now destruct (p x). Qed.

Section Donations.
Context {R : Runtime}.

(** A request leaves the stored donations alone or appends one, whose
    amount is [parseFloat] of the submitted [amount]. *)
Lemma flat_donations_step (env : Env) (req : Request) (db : Flat.Database) :
  Flat.donations (snd (fst (Flat.handle env req db))) = Flat.donations db \/
  exists a b d,
    req = PostDonations a b /\
    Donation.amount d = JS.parseFloat (DonationBody.amount b) /\
    Flat.donations (snd (fst (Flat.handle env req db)))
      = Flat.donations db ++ [d].
Proof.
  destruct req as [b|b|a|a b|a b|a b|a b]; try (left; reflexivity).
  - left. rewrite flat_register_run. cbv zeta.
    destruct (valid_registration b); [|reflexivity].
    destruct (existsb _ _); reflexivity.
  - left. now rewrite flat_login_state.
  - left. unfold Flat.handle, Flat.app.
    destruct (route_cases env a Flat.get_dashboard db)
      as [E|[[t E]|(t & u & _ & E)]]; rewrite E; try reflexivity.
    simpl. now rewrite flat_dashboard_state.
  - unfold Flat.handle, Flat.app.
    destruct (route_cases env a (fun u => Flat.post_donations env u b) db)
      as [E|[[t E]|(t & u & _ & E)]]; rewrite E; try (left; reflexivity).
    simpl. rewrite flat_donations_run.
    destruct (valid_donation b); [|left; reflexivity].
    right. eexists a, b, _. split; [reflexivity|]. split; [|reflexivity].
    reflexivity.
Qed.

Lemma rel_donations_step (env : Env) (req : Request) (db : Rel.Database) :
  Rel.rows (Rel.donations (snd (fst (Rel.handle env req db))))
    = Rel.rows (Rel.donations db) \/
  exists a b d,
    req = PostDonations a b /\
    Donation.amount d = JS.parseFloat (DonationBody.amount b) /\
    Rel.rows (Rel.donations (snd (fst (Rel.handle env req db))))
      = Rel.rows (Rel.donations db) ++ [d].
Proof.
  destruct req as [b|b|a|a b|a b|a b|a b].
  - left. rewrite rel_register_run. cbv zeta.
    destruct (valid_registration b); [|reflexivity].
    destruct (existsb _ _); reflexivity.
  - left. now rewrite rel_login_state.
  - left. unfold Rel.handle, Rel.app.
    destruct (route_cases env a Rel.get_dashboard db)
      as [E|[[t E]|(t & u & _ & E)]]; rewrite E; try reflexivity.
    simpl. now rewrite rel_dashboard_state.
  - unfold Rel.handle, Rel.app.
    destruct (route_cases env a (fun u => Rel.post_donations env u b) db)
      as [E|[[t E]|(t & u & _ & E)]]; rewrite E; try (left; reflexivity).
    simpl. rewrite rel_donations_run.
    destruct (valid_donation b); [|left; reflexivity].
    destruct (PrimFloat.is_nan _); [left; reflexivity|].
    right. eexists a, b, _. split; [reflexivity|]. split; [|reflexivity].
    reflexivity.
  - left. unfold Rel.handle, Rel.app.
    destruct (route_cases env a (fun u => Rel.post_conversions env u b) db)
      as [E|[[t E]|(t & u & _ & E)]]; rewrite E; try reflexivity.
    simpl. unfold Rel.post_conversions.
    destruct (negb _ || negb _); reflexivity.
  - left. unfold Rel.handle, Rel.app.
    destruct (route_cases env a (fun u => Rel.post_media env u b) db)
      as [E|[[t E]|(t & u & _ & E)]]; rewrite E; try reflexivity.
    simpl. unfold Rel.post_media.
    destruct (negb _ || negb _ || negb _); reflexivity.
  - left. unfold Rel.handle, Rel.app.
    destruct (route_cases env a (fun u => Rel.post_campaigns env u b) db)
      as [E|[[t E]|(t & u & _ & E)]]; rewrite E; try reflexivity.
    simpl. unfold Rel.post_campaigns.
    destruct (negb _ || negb _ || negb _); reflexivity.
Qed.

(** C7, amended.  Neither server checks the sign of a donation: the stored
    amount is [parseFloat] of the submitted [amount].  Non-negativity of
    the stored amounts is therefore preserved by a request exactly under
    the proviso that, if it is a [POST /api/donations], its amount parses
    to a non-negative number; every other request preserves it. *)
Theorem nonneg_amounts_preserved (env : Env) (req : Request) :
  (forall a b,
     req = PostDonations a b ->
     nonneg (JS.parseFloat (DonationBody.amount b)) = true) ->
  (forall db,
     amounts_nonneg (Flat.donations db) ->
     amounts_nonneg (Flat.donations (snd (fst (Flat.handle env req db))))) /\
  (forall db,
     amounts_nonneg (Rel.rows (Rel.donations db)) ->
     amounts_nonneg
       (Rel.rows (Rel.donations (snd (fst (Rel.handle env req db)))))).
Proof.
  intros Hreq. split; intros db Hinv.
  - destruct (flat_donations_step env req db)
      as [->|(a & b & d & Hr & Ha & ->)]; [exact Hinv|].
    apply Forall_app. split; [exact Hinv|].
    constructor; [|constructor]. rewrite Ha. now apply (Hreq a b).
  - destruct (rel_donations_step env req db)
      as [->|(a & b & d & Hr & Ha & ->)]; [exact Hinv|].
    apply Forall_app. split; [exact Hinv|].
    constructor; [|constructor]. rewrite Ha. now apply (Hreq a b).
Qed.

(** A non-negative JSON number parses to itself or to [0]. *)
Lemma nonneg_number (x : float) :
  nonneg x = true -> nonneg (JS.parseFloat (JS.Num x)) = true.
Proof.
  intros H. simpl. destruct (PrimFloat.is_zero x); [reflexivity | exact H].
Qed.

(** C6, amended.  [totalDonations] is the binary64 running sum, from 0 and
    in insertion order, of the user's stored amounts (flat-document
    backend), and what the engine's [SUM] makes of that same list
    (relational backend).  A successful [POST /api/donations] appends
    [parseFloat(amount)] to the list: in the flat-document backend the next
    dashboard shows the rounded sum of the previous total and that
    number. *)
Theorem total_donations_running_sum (env : Env) (user : Identity)
    (b : DonationBody.t) :
  (forall db,
     status (fst (fst (run (Flat.post_donations env user b) db))) = 201 ->
     forall st0,
       dashboard_stats (fst (fst (run (Flat.get_dashboard user) db)))
         = Some st0 ->
       let db' := snd (fst (run (Flat.post_donations env user b) db)) in
       exists st1,
         dashboard_stats (fst (fst (run (Flat.get_dashboard user) db')))
           = Some st1 /\
         totalDonations st0
           = fold_left (fun sum x => (sum + x)%float)
               (map Donation.amount
                  (filter (fun d => Donation.user_id d =? userId user)
                     (Flat.donations db))) zero /\
         totalDonations st1
           = (totalDonations st0
              + JS.parseFloat (DonationBody.amount b))%float) /\
  (forall db,
     status (fst (fst (run (Rel.post_donations env user b) db))) = 201 ->
     forall st0,
       dashboard_stats (fst (fst (run (Rel.get_dashboard user) db)))
         = Some st0 ->
       let db' := snd (fst (run (Rel.post_donations env user b) db)) in
       let amounts :=
         map Donation.amount
           (filter (fun d => Donation.user_id d =? userId user)
              (Rel.rows (Rel.donations db))) in
       exists st1,
         dashboard_stats (fst (fst (run (Rel.get_dashboard user) db')))
           = Some st1 /\
         totalDonations st0 = or_zero (Rel.coalesce_sum amounts) /\
         totalDonations st1
           = or_zero
               (Rel.coalesce_sum
                  (amounts ++ [JS.parseFloat (DonationBody.amount b)]))).
Proof.
  split; intros db Hok st0 H0.
  - rewrite flat_donations_run in *.
    destruct (valid_donation b); [|discriminate]. cbv zeta.
    rewrite flat_dashboard_run in *. cbn [fst snd].
    change (Flat.users (Flat.set_donations _ (Flat.set_lastId _ db)))
      with (Flat.users db).
    destruct (find _ (Flat.users db)) as [u|]; [|discriminate].
    unfold dashboard_stats in *. cbn [fst body json] in *.
    injection H0 as <-. eexists. split; [reflexivity|].
    unfold flat_stats. cbn [totalDonations Flat.donations Flat.set_donations].
    rewrite filter_snoc. cbn [Donation.user_id]. rewrite Z.eqb_refl.
    rewrite fold_left_snoc. cbn [Donation.amount]. split; [|reflexivity].
    generalize zero.
    induction (filter _ (Flat.donations db)) as [|d l IH]; intros z;
      [reflexivity | apply IH].
  - rewrite rel_donations_run in *.
    destruct (valid_donation b); [|discriminate].
    destruct (PrimFloat.is_nan _); [discriminate|]. cbv zeta.
    rewrite rel_dashboard_run in *. cbn [fst snd].
    change (Rel.users (Rel.set_donations _ db)) with (Rel.users db).
    destruct (find _ (Rel.rows (Rel.users db))) as [u|]; [|discriminate].
    change (rel_reach (Rel.set_donations _ db) (userId user))
      with (rel_reach db (userId user)).
    destruct (rel_reach db (userId user)) as [reach|] eqn:Hreach;
      [|discriminate].
    unfold dashboard_stats in *. cbn [fst body json] in *.
    injection H0 as <-. eexists. split; [reflexivity|].
    unfold rel_stats.
    cbn [totalDonations Rel.donations Rel.set_donations Rel.rows].
    rewrite filter_snoc. cbn [Donation.user_id]. rewrite Z.eqb_refl.
    rewrite map_app. split; reflexivity.
Qed.

End Donations.

(* ================================================================== *)
(** * The "recent" lists *)
(* ================================================================== *)

(** ** Ordering of dates *)

Lemma ascii_compare_trans (a b c : ascii) (o : comparison) :
  Ascii.compare a b = o -> Ascii.compare b c = o -> Ascii.compare a c = o.
Proof.
  unfold Ascii.compare. destruct o; intros H1 H2.
  - apply N.compare_eq in H1, H2. rewrite H1, H2. apply N.compare_refl.
  - rewrite N.compare_lt_iff in *. lia.
  - rewrite N.compare_gt_iff in *. lia.
Qed.

Lemma string_compare_refl (s : string) : String.compare s s = Eq.
Proof.
  induction s as [|c s IH]; simpl; [reflexivity|].
  unfold Ascii.compare. now rewrite N.compare_refl.
Qed.

Lemma string_compare_trans (o : comparison) (s1 s2 s3 : string) :
  String.compare s1 s2 = o -> String.compare s2 s3 = o ->
  String.compare s1 s3 = o.
Proof.
  revert s2 s3.
  induction s1 as [|a s1 IH]; intros [|b s2] [|c s3]; simpl;
    try congruence.
  destruct (Ascii.compare a b) eqn:Hab, (Ascii.compare b c) eqn:Hbc;
    intros H1 H2; try congruence.
  - rewrite (ascii_compare_trans a b c Eq Hab Hbc). now apply (IH s2).
  - apply Ascii.compare_eq_iff in Hab. subst. now rewrite Hbc.
  - apply Ascii.compare_eq_iff in Hab. subst. now rewrite Hbc.
  - apply Ascii.compare_eq_iff in Hbc. subst. now rewrite Hab.
  - now rewrite (ascii_compare_trans a b c Lt Hab Hbc).
  - apply Ascii.compare_eq_iff in Hbc. subst. now rewrite Hab.
  - now rewrite (ascii_compare_trans a b c Gt Hab Hbc).
Qed.

Lemma number_le_total (a b : SqlNumber) :
  Rel.number_le a b = true \/ Rel.number_le b a = true.
Proof.
  destruct a as [|p|], b as [|q|]; simpl; auto.
  destruct (Qlt_le_dec p q) as [H|H].
  - left. apply Qle_bool_iff. now apply Qlt_le_weak.
  - right. now apply Qle_bool_iff.
Qed.

Lemma number_le_trans (a b c : SqlNumber) :
  Rel.number_le a b = true -> Rel.number_le b c = true ->
  Rel.number_le a c = true.
Proof.
  destruct a as [|p|], b as [|q|], c as [|r|]; simpl; try congruence.
  rewrite !Qle_bool_iff. apply Qle_trans.
Qed.

Lemma value_le_total (a b : Rel.DateValue) :
  Rel.value_le a b = true \/ Rel.value_le b a = true.
Proof.
  destruct a as [m|s], b as [n|t]; simpl; auto.
  - apply number_le_total.
  - rewrite (String.compare_antisym s t).
    destruct (String.compare t s); simpl; auto.
Qed.

Lemma value_le_trans (a b c : Rel.DateValue) :
  Rel.value_le a b = true -> Rel.value_le b c = true ->
  Rel.value_le a c = true.
Proof.
  destruct a as [m|s], b as [n|t], c as [k|u]; simpl; try congruence.
  - apply number_le_trans.
  - destruct (String.compare s t) eqn:H1; try discriminate;
      destruct (String.compare t u) eqn:H2; try discriminate; intros _ _.
    + now rewrite (string_compare_trans Eq s t u H1 H2).
    + apply String.compare_eq_iff in H1. subst. now rewrite H2.
    + apply String.compare_eq_iff in H2. subst. now rewrite H1.
    + now rewrite (string_compare_trans Lt s t u H1 H2).
Qed.

Lemma newer_first_total (d1 : Rel.DateValue) (c1 : Z) (d2 : Rel.DateValue)
    (c2 : Z) :
  Rel.newer_first d1 c1 d2 c2 = true \/ Rel.newer_first d2 c2 d1 c1 = true.
Proof.
  unfold Rel.newer_first.
  destruct (Rel.value_le d1 d2) eqn:H12, (Rel.value_le d2 d1) eqn:H21;
    simpl; auto.
  destruct (Z.leb_spec c2 c1); [now left | right; apply Z.leb_le; lia].
Qed.

Ltac flip_false :=
  repeat match goal with
  | H : Rel.value_le ?a ?b = false |- _ =>
      lazymatch goal with
      | _ : Rel.value_le b a = true |- _ => fail
      | _ =>
          let E := fresh "E" in
          destruct (value_le_total a b) as [E|E]; [congruence|]
      end
  end.

Ltac trans_contra :=
  match goal with
  | H1 : Rel.value_le ?a ?b = true, H2 : Rel.value_le ?b ?c = true,
    H3 : Rel.value_le ?a ?c = false |- _ =>
      rewrite (value_le_trans a b c H1 H2) in H3; discriminate H3
  end.

Lemma newer_first_trans (d1 : Rel.DateValue) (c1 : Z) (d2 : Rel.DateValue)
    (c2 : Z) (d3 : Rel.DateValue) (c3 : Z) :
  Rel.newer_first d1 c1 d2 c2 = true -> Rel.newer_first d2 c2 d3 c3 = true ->
  Rel.newer_first d1 c1 d3 c3 = true.
Proof.
  unfold Rel.newer_first.
  destruct (Rel.value_le d1 d2) eqn:H12, (Rel.value_le d2 d1) eqn:H21,
           (Rel.value_le d2 d3) eqn:H23, (Rel.value_le d3 d2) eqn:H32;
    simpl; try discriminate; intros A B;
    destruct (Rel.value_le d1 d3) eqn:H13; simpl; try reflexivity;
    destruct (Rel.value_le d3 d1) eqn:H31; simpl;
    flip_false; try trans_contra;
    apply Z.leb_le in A, B; apply Z.leb_le; lia.
Qed.

(** ** The sort behind [ORDER BY] *)

Lemma in_firstn {A} (n : nat) (l : list A) (x : A) :
  In x (firstn n l) -> In x l.
Proof.
  intros H. rewrite <- (firstn_skipn n l). apply in_or_app. now left.
Qed.

Lemma in_skipn {A} (n : nat) (l : list A) (x : A) :
  In x (skipn n l) -> In x l.
Proof.
  intros H. rewrite <- (firstn_skipn n l). apply in_or_app. now right.
Qed.

Section OrderBy.
Context {A : Type} (le : A -> A -> bool).
Hypothesis le_total : forall a b, le a b = true \/ le b a = true.
Hypothesis le_trans :
  forall a b c, le a b = true -> le b c = true -> le a c = true.

Let before (a b : A) : Prop := le a b = true.

Lemma insert_by_perm (x : A) (l : list A) :
  Permutation (Rel.insert_by le x l) (x :: l).
Proof.
  induction l as [|y l IH]; simpl; [reflexivity|].
  destruct (le x y); [reflexivity|].
  rewrite IH. apply perm_swap.
Qed.

Lemma order_by_perm (l : list A) : Permutation (Rel.order_by le l) l.
Proof.
  induction l as [|x l IH]; simpl; [reflexivity|].
  unfold Rel.order_by in *. simpl. rewrite insert_by_perm. now constructor.
Qed.

Lemma insert_by_sorted (x : A) (l : list A) :
  StronglySorted before l -> StronglySorted before (Rel.insert_by le x l).
Proof.
  induction 1 as [|y l Hs IH Hy]; simpl.
  - repeat constructor.
  - destruct (le x y) eqn:Hxy.
    + constructor; [now constructor|].
      constructor; [exact Hxy|].
      eapply Forall_impl; [|exact Hy]. intros z Hz.
      now apply (le_trans x y z).
    + constructor; [exact IH|].
      assert (Hyx : before y x).
      { destruct (le_total x y) as [H|H]; [congruence | exact H]. }
      eapply Permutation_Forall.
      * symmetry. apply insert_by_perm.
      * now constructor.
Qed.

Lemma order_by_sorted (l : list A) :
  StronglySorted before (Rel.order_by le l).
Proof.
  induction l as [|x l IH]; [constructor|].
  now apply insert_by_sorted.
Qed.

Lemma sorted_firstn (n : nat) (l : list A) :
  StronglySorted before l -> StronglySorted before (firstn n l).
Proof.
  intros H. revert n. induction H as [|x l Hs IH Hx]; intros [|n]; simpl;
    try constructor; auto.
  rewrite Forall_forall in *. intros y Hy. apply Hx.
  now apply (in_firstn n l).
Qed.

Lemma sorted_split (n : nat) (l : list A) :
  StronglySorted before l ->
  forall a b, In a (firstn n l) -> In b (skipn n l) -> before a b.
Proof.
  intros H. revert n. induction H as [|x l Hs IH Hx]; intros [|n] a b;
    simpl; try tauto.
  intros [<-|Ha] Hb.
  - rewrite Forall_forall in Hx. apply Hx. now apply (in_skipn n l).
  - now apply (IH n).
Qed.

(** [ORDER BY .. LIMIT n]: at most [n] rows, in order, and no row left out
    comes before a row that was kept. *)
Lemma limit_order_by (n : nat) (l : list A) :
  let kept := firstn n (Rel.order_by le l) in
  let left_out := skipn n (Rel.order_by le l) in
  (List.length kept <= n)%nat /\
  StronglySorted before kept /\
  Permutation (kept ++ left_out) l /\
  (forall a b, In a kept -> In b left_out -> before a b).
Proof.
  cbv zeta. repeat split.
  - apply firstn_le_length.
  - apply sorted_firstn, order_by_sorted.
  - rewrite firstn_skipn. apply order_by_perm.
  - apply sorted_split, order_by_sorted.
Qed.

End OrderBy.

Lemma limit_most_recent {A} (le : A -> A -> bool) (n : nat) (l : list A) :
  (forall a b, le a b = true \/ le b a = true) ->
  (forall a b c, le a b = true -> le b c = true -> le a c = true) ->
  most_recent le n l (firstn n (Rel.order_by le l)).
Proof.
  intros Htot Htr.
  destruct (limit_order_by le Htot Htr n l) as (H1 & H2 & H3 & H4).
  split; [exact H1|]. split; [exact H2|].
  exists (skipn n (Rel.order_by le l)). now split.
Qed.

Section RecentFacts.
Context {R : Runtime}.

(** In both servers each "recent" list has at most 10 entries. *)
Lemma recent_lists_bounded (env : Env) (h : option string) (r : Response)
    (tr : list Event) (pu : PublicUser) (st : Stats) (rc : Recent.t) :
  body r = Dashboard pu st rc ->
  forall dbf dbf' dbr dbr',
    Flat.handle env (GetDashboard h) dbf = (r, dbf', tr) \/
    Rel.handle env (GetDashboard h) dbr = (r, dbr', tr) ->
    (List.length (Recent.donations rc) <= 10)%nat /\
    (List.length (Recent.conversions rc) <= 10)%nat /\
    (List.length (Recent.media rc) <= 10)%nat /\
    (List.length (Recent.campaigns rc) <= 10)%nat.
Proof.
  intros Hb dbf dbf' dbr dbr' [H|H].
  - destruct (flat_dashboard_route env h dbf dbf' r tr pu st rc H Hb)
      as (t & u & _ & Hrun & _).
    destruct (flat_dashboard_inv u dbf dbf' r [] pu st rc Hrun Hb)
      as (_ & _ & _ & _ & _ & _ & _ & _ & _ & -> & -> & -> & ->).
    rewrite !length_rev. repeat split; apply firstn_le_length.
  - destruct (rel_dashboard_route env h dbr dbr' r tr pu st rc H Hb)
      as (t & u & _ & Hrun & _).
    destruct (rel_dashboard_inv u dbr dbr' r [] pu st rc Hrun Hb)
      as (_ & _ & _ & _ & _ & _ & _ & _ & _ & -> & -> & -> & ->).
    repeat split; apply firstn_le_length.
Qed.

(** In the relational server each "recent" list holds the user's 10 most
    recent records, by date and then by creation time, newest first. *)
Lemma rel_recent_most_recent (env : Env) (h : option string)
    (db db' : Rel.Database) (r : Response) (tr : list Event)
    (pu : PublicUser) (st : Stats) (rc : Recent.t) :
  Rel.handle env (GetDashboard h) db = (r, db', tr) ->
  body r = Dashboard pu st rc ->
  most_recent Rel.donation_order 10
    (filter (fun d => Donation.user_id d =? pu_id pu)
       (Rel.rows (Rel.donations db)))
    (Recent.donations rc) /\
  most_recent Rel.conversion_order 10
    (filter (fun c => Conversion.user_id c =? pu_id pu)
       (Rel.rows (Rel.vegan_conversions db)))
    (Recent.conversions rc) /\
  most_recent Rel.media_order 10
    (filter (fun m => Media.user_id m =? pu_id pu)
       (Rel.rows (Rel.media_shared db)))
    (Recent.media rc) /\
  most_recent Rel.campaign_order 10
    (filter (fun c => Campaign.user_id c =? pu_id pu)
       (Rel.rows (Rel.campaigns db)))
    (Recent.campaigns rc).
Proof.
  intros H Hb.
  destruct (rel_dashboard_route env h db db' r tr pu st rc H Hb)
    as (t & u & _ & Hrun & _).
  destruct (rel_dashboard_inv u db db' r [] pu st rc Hrun Hb)
    as (_ & _ & _ & -> & _ & _ & _ & _ & _ & -> & -> & -> & ->).
  repeat split; apply limit_most_recent; intros;
    try apply newer_first_total;
    eapply newer_first_trans; eassumption.
Qed.

End RecentFacts.

(** C1, on the flat-document backend.  Alice records eleven donations, one
    per day from 2024-01-01 to 2024-01-11, in that order.  The dashboard of
    [simple-server.ts] then lists the ten OLDEST, 2024-01-10 down to
    2024-01-01, and leaves the newest out ([slice(0, 10)] keeps the head of
    the array before [reverse()]); [server.ts] lists 2024-01-11 down to
    2024-01-02. *)
Theorem flat_recent_drops_newest :
  recent_donation_dates
    (fst (fst (Flat.handle (R := plain_runtime) (at_time 20000)
                 (GetDashboard alice_bearer)
                 (Flat.serve (R := plain_runtime) eleven_donations
                    Flat.empty))))
  = [ "2024-01-10"; "2024-01-09"; "2024-01-08"; "2024-01-07"; "2024-01-06";
      "2024-01-05"; "2024-01-04"; "2024-01-03"; "2024-01-02"; "2024-01-01" ]
  /\
  recent_donation_dates
    (fst (fst (Rel.handle (R := plain_runtime) (at_time 20000)
                 (GetDashboard alice_bearer)
                 (Rel.serve (R := plain_runtime) eleven_donations
                    Rel.empty))))
  = [ "2024-01-11"; "2024-01-10"; "2024-01-09"; "2024-01-08"; "2024-01-07";
      "2024-01-06"; "2024-01-05"; "2024-01-04"; "2024-01-03"; "2024-01-02" ].
Proof. split; vm_compute; reflexivity. Qed.

(** Nor does the flat-document backend order by date: with a donation dated
    2024-02-01 recorded before one dated 2024-01-01, its list starts with
    the older date. *)
Lemma flat_recent_not_by_date :
  recent_donation_dates
    (fst (fst (Flat.handle (R := plain_runtime) (at_time 20000)
                 (GetDashboard alice_bearer)
                 (Flat.serve (R := plain_runtime)
                    [ (at_time 0, PostRegister alice);
                      (at_time 1000,
                       PostDonations alice_bearer
                         (donation (JS.Num 10) "2024-02-01"));
                      (at_time 2000,
                       PostDonations alice_bearer
                         (donation (JS.Num 10) "2024-01-01")) ]
                    Flat.empty))))
  = [ "2024-01-01"; "2024-02-01" ].
Proof. vm_compute. reflexivity. Qed.

(* ================================================================== *)
(** * The seeded demo account *)
(* ================================================================== *)

Lemma count_by_owner {A} (owner : A -> Z) (uid : Z) (l : list A) :
  List.length (filter (fun x => owner x =? uid) l)
    = List.length (filter (fun z => z =? uid) (map owner l)).
Proof.
  induction l as [|x l IH]; simpl; [reflexivity|].
  destruct (owner x =? uid); simpl; now rewrite IH.
Qed.

Section Demo.
Context {R : Runtime} {L : RuntimeLaws R}.

(** Login with the email of a stored user and a password that the stored
    hash accepts. *)
Lemma flat_login_ok (env : Env) (e p : string) (u : User.t)
    (db : Flat.Database) :
  JS.str_truthy e = true -> JS.str_truthy p = true ->
  find (fun u => String.eqb (User.email u) e) (Flat.users db) = Some u ->
  bcrypt_compare p (User.password u) = true ->
  Flat.handle env
    (PostLogin {| LoginBody.email := Some e; LoginBody.password := Some p |})
    db
  = (json 200
       (Session "Login successful"
          (jwt_sign {| userId := User.id u; email := User.email u |}
             (seconds env))
          (public false u)),
     db,
     [Compare p; Sign {| userId := User.id u; email := User.email u |}]).
Proof.
  intros He Hp Hf Hc.
  unfold Flat.handle, Flat.app, Flat.post_login, run, bind, get, emit, ret.
  cbn [LoginBody.email LoginBody.password JS.opt_truthy JS.or_empty].
  rewrite He, Hp. cbn [negb orb]. rewrite Hf, Hc. reflexivity.
Qed.

Lemma rel_login_ok (env : Env) (e p : string) (u : User.t)
    (db : Rel.Database) :
  JS.str_truthy e = true -> JS.str_truthy p = true ->
  find (fun u => String.eqb (User.email u) e) (Rel.rows (Rel.users db))
    = Some u ->
  bcrypt_compare p (User.password u) = true ->
  Rel.handle env
    (PostLogin {| LoginBody.email := Some e; LoginBody.password := Some p |})
    db
  = (json 200
       (Session "Login successful"
          (jwt_sign {| userId := User.id u; email := User.email u |}
             (seconds env))
          (public false u)),
     db,
     [Compare p; Sign {| userId := User.id u; email := User.email u |}]).
Proof.
  intros He Hp Hf Hc.
  unfold Rel.handle, Rel.app, Rel.post_login, run, bind, get, emit, ret.
  cbn [LoginBody.email LoginBody.password JS.opt_truthy JS.or_empty].
  rewrite He, Hp. cbn [negb orb]. rewrite Hf, Hc. reflexivity.
Qed.

Lemma rel_seed (se : SeedEnv) :
  exists db,
    Rel.initializeDatabase se Rel.empty = Some db /\
    Rel.rows (Rel.users db)
      = [{| User.id := 1; User.email := "johndoe@gmail.com";
            User.name := "John Doe";
            User.password := bcrypt_hash (seed_salt se) "password123";
            User.created_at := Rel.current_timestamp (clock se 0) |}] /\
    map Conversion.user_id (Rel.rows (Rel.vegan_conversions db))
      = [1; 1; 1; 1; 1; 1; 1; 1].
Proof.
  eexists. split; [lazy -[Rel.current_timestamp]; reflexivity|].
  split; reflexivity.
Qed.

(** The six seeded reach estimates are small integers: their [SUM] is
    3200. *)
Lemma rel_seed_reach (se : SeedEnv) (db : Rel.Database) :
  Rel.initializeDatabase se Rel.empty = Some db ->
  rel_reach db 1 = Some 3200%float.
Proof.
  intros H. lazy -[Rel.current_timestamp] in H. injection H as <-.
  lazy -[Rel.current_timestamp]. reflexivity.
Qed.

Lemma flat_seed (se : SeedEnv) :
  Flat.users (Flat.seeded se)
    = [{| User.id := 1; User.email := "johndoe@gmail.com";
          User.name := "John Doe";
          User.password := bcrypt_hash (seed_salt se) "password123";
          User.created_at := clock se 0 |}] /\
  map Conversion.user_id (Flat.conversions (Flat.seeded se)) = [1; 1].
Proof. split; reflexivity. Qed.

(** C9, amended.  On the data set that [initializeDatabase] of
    [database.ts] seeds, logging in as johndoe@gmail.com / password123 is
    answered 200, and a dashboard request carrying the issued token within
    its lifetime reports 8 conversions and 2920 animals.  On the data set
    that [initializeDemoData] of [simple-server.ts] seeds, the same login is
    answered 200 and the dashboard reports 2 conversions and 730 animals. *)
Theorem demo_login_and_dashboard (se : SeedEnv) (env1 env2 : Env) :
  seconds env1 <= seconds env2 < seconds env1 + token_lifetime ->
  let token := jwt_sign demo_identity (seconds env1) in
  let h := Some ("Bearer " ++ token)%string in
  (exists db,
     Rel.initializeDatabase se Rel.empty = Some db /\
     (exists user,
        fst (fst (Rel.handle env1 demo_login db))
          = json 200 (Session "Login successful" token user)) /\
     (exists st,
        status (fst (fst (Rel.handle env2 (GetDashboard h) db))) = 200 /\
        dashboard_stats (fst (fst (Rel.handle env2 (GetDashboard h) db)))
          = Some st /\
        conversionCount st = 8 /\ animalsImpact st = 2920)) /\
  (let db := Flat.seeded se in
   (exists user,
      fst (fst (Flat.handle env1 demo_login db))
        = json 200 (Session "Login successful" token user)) /\
   (exists st,
      status (fst (fst (Flat.handle env2 (GetDashboard h) db))) = 200 /\
      dashboard_stats (fst (fst (Flat.handle env2 (GetDashboard h) db)))
        = Some st /\
      conversionCount st = 2 /\ animalsImpact st = 730)).
Proof.
  intros Ht token h.
  pose proof (bearer_of_signed env2 demo_identity (seconds env1) Ht) as Ha.
  fold token in Ha. fold h in Ha.
  split.
  - destruct (rel_seed se) as (db & Hseed & Hus & Hcs).
    exists db. split; [exact Hseed|]. split.
    + eexists. unfold demo_login.
      erewrite (rel_login_ok env1 "johndoe@gmail.com" "password123" _ db
                  eq_refl eq_refl).
      2: { rewrite Hus. reflexivity. }
      2: { apply bcrypt_compare_hash. }
      reflexivity.
    + unfold Rel.handle, Rel.app.
      rewrite (route_ok env2 h token demo_identity _ db Ha).
      rewrite rel_dashboard_run, Hus. cbn [find User.id demo_identity userId].
      cbn [Z.eqb Pos.eqb]. rewrite (rel_seed_reach se db Hseed).
      cbn [fst snd]. eexists. split; [reflexivity|].
      split; [reflexivity|]. unfold rel_stats.
      cbn [conversionCount animalsImpact].
      rewrite count_by_owner, Hcs. split; reflexivity.
  - cbv zeta. destruct (flat_seed se) as (Hus & Hcs). split.
    + eexists. unfold demo_login.
      erewrite (flat_login_ok env1 "johndoe@gmail.com" "password123" _
                  (Flat.seeded se) eq_refl eq_refl).
      2: { rewrite Hus. reflexivity. }
      2: { apply bcrypt_compare_hash. }
      reflexivity.
    + unfold Flat.handle, Flat.app.
      rewrite (route_ok env2 h token demo_identity _ _ Ha).
      rewrite flat_dashboard_run, Hus. cbn [find User.id demo_identity userId].
      cbn [Z.eqb Pos.eqb fst snd]. eexists. split; [reflexivity|].
      split; [reflexivity|]. unfold flat_stats.
      cbn [conversionCount animalsImpact].
      rewrite count_by_owner, Hcs. split; reflexivity.
Qed.

End Demo.

(* ================================================================== *)
(** * The two servers side by side *)
(* ================================================================== *)

Lemma sim_empty : sim None 0 0 Flat.empty Rel.empty.
Proof.
  constructor; simpl; try constructor; try lia; try tauto.
  exists [], [], [], []. repeat split; constructor.
Qed.

(** ** Lists in correspondence *)

Lemma Forall2_length_eq {A B} (P : A -> B -> Prop) (l : list A)
    (l' : list B) :
  Forall2 P l l' -> List.length l = List.length l'.
Proof. induction 1; simpl; congruence. Qed.

Lemma combine_snoc {A B} (l : list A) (l' : list B) (x : A) (y : B) :
  List.length l = List.length l' ->
  combine (l ++ [x]) (l' ++ [y]) = combine l l' ++ [(x, y)].
Proof.
  revert l'. induction l as [|a l IH]; intros [|b l'] H; simpl in *;
    try discriminate; [reflexivity|].
  f_equal. apply IH. congruence.
Qed.

Lemma idmap_snoc (fu ru : list User.t) (uf ur : User.t) :
  List.length fu = List.length ru ->
  idmap (fu ++ [uf]) (ru ++ [ur])
    = idmap fu ru ++ [(User.id uf, User.id ur)].
Proof.
  intros H. unfold idmap. rewrite !map_app. simpl.
  apply combine_snoc. now rewrite !length_map.
Qed.

Lemma in_combine_fst {A B} (l : list A) (l' : list B) (a : A) (b : B) :
  In (a, b) (combine l l') -> In a l /\ In b l'.
Proof.
  intros H. split; [eapply in_combine_l | eapply in_combine_r]; exact H.
Qed.

(** With no id repeated on either side, the id map is one-to-one. *)
Lemma combine_injective {A B} (l : list A) (l' : list B) (a a' : A)
    (b b' : B) :
  NoDup l -> NoDup l' ->
  In (a, b) (combine l l') -> In (a', b') (combine l l') ->
  (a = a' <-> b = b').
Proof.
  revert l'. induction l as [|x l IH]; intros [|y l'] Hl Hl'; simpl;
    try tauto.
  inversion Hl as [|? ? Hx Hl0]; inversion Hl' as [|? ? Hy Hl0']; subst.
  intros [E|H] [E'|H'].
  - injection E as <- <-. injection E' as <- <-. tauto.
  - injection E as <- <-. apply in_combine_fst in H' as [H1 H2].
    split; intros <-; contradiction.
  - injection E' as <- <-. apply in_combine_fst in H as [H1 H2].
    split; intros ->; contradiction.
  - now apply (IH l').
Qed.

Lemma find_by_id (us : list User.t) (u : User.t) :
  NoDup (map User.id us) -> In u us ->
  find (fun v => User.id v =? User.id u) us = Some u.
Proof.
  induction us as [|v us IH]; simpl; [tauto|].
  intros Hnd [->|Hin]; [now rewrite Z.eqb_refl|].
  inversion Hnd as [|? ? Hv Hnd0]; subst.
  destruct (Z.eqb_spec (User.id v) (User.id u)) as [E|_]; [|now apply IH].
  elim Hv. rewrite E. now apply in_map.
Qed.

(** Looking a user up by email gives corresponding users on both sides. *)
Lemma find_email_sim (e : string) (fu ru : list User.t) :
  Forall2 user_sim fu ru ->
  match find (fun u => String.eqb (User.email u) e) fu,
        find (fun u => String.eqb (User.email u) e) ru with
  | Some uf, Some ur =>
      user_sim uf ur /\ In uf fu /\ In ur ru /\
      In (User.id uf, User.id ur) (idmap fu ru)
  | None, None => True
  | _, _ => False
  end.
Proof.
  induction 1 as [|uf ur fu ru Hu Hrest IH]; simpl; [exact I|].
  destruct Hu as (He & Hn & Hp). rewrite <- He.
  destruct (String.eqb (User.email uf) e).
  - split; [now repeat split|]. unfold idmap. simpl. auto.
  - destruct (find _ fu), (find _ ru); try exact IH.
    destruct IH as (A & B & C & D). unfold idmap in *. simpl. auto.
Qed.

Lemma existsb_email_sim (e : string) (fu ru : list User.t) :
  Forall2 user_sim fu ru ->
  existsb (fun u => String.eqb (User.email u) e) fu
    = existsb (fun u => String.eqb (User.email u) e) ru.
Proof.
  induction 1 as [|uf ur fu ru (He & _) _ IH]; simpl; [reflexivity|].
  now rewrite He, IH.
Qed.

Lemma donation_sim_mono (m m' : list (Z * Z)) (fd rd : list Donation.t) :
  incl m m' ->
  Forall2 (donation_sim m) fd rd -> Forall2 (donation_sim m') fd rd.
Proof.
  intros Hm. induction 1 as [|df dr fd rd (H1 & H2) _ IH]; constructor; auto.
  split; [now apply Hm | exact H2].
Qed.

(** Corresponding users own corresponding donations, in the same order. *)
Lemma amounts_sim (m : list (Z * Z)) (a b : Z) (fd rd : list Donation.t) :
  (forall a' b', In (a', b') m -> (a' = a <-> b' = b)) ->
  Forall2 (donation_sim m) fd rd ->
  map Donation.amount (filter (fun d => Donation.user_id d =? a) fd)
    = map Donation.amount (filter (fun d => Donation.user_id d =? b) rd).
Proof.
  intros Hinj. induction 1 as [|df dr fd rd (H1 & _ & H3 & _) _ IH]; simpl;
    [reflexivity|].
  specialize (Hinj _ _ H1).
  destruct (Z.eqb_spec (Donation.user_id df) a) as [E|N],
           (Z.eqb_spec (Donation.user_id dr) b) as [E'|N']; simpl.
  - now rewrite H3, IH.
  - tauto.
  - tauto.
  - exact IH.
Qed.

Lemma fold_amounts (ds : list Donation.t) (z : float) :
  fold_left (fun sum d => (sum + Donation.amount d)%float) ds z
    = fold_left (fun sum x => (sum + x)%float) (map Donation.amount ds) z.
Proof.
  revert z. induction ds as [|d ds IH]; intros z; simpl; [reflexivity|].
  apply IH.
Qed.

Lemma NoDup_snoc_fresh (l : list Z) (bound : Z) :
  NoDup l -> Forall (fun x => x <= bound) l -> NoDup (l ++ [bound + 1]).
Proof.
  intros Hnd Hb. apply NoDup_app; [exact Hnd | repeat constructor; auto |].
  intros x Hx [<-|[]]. rewrite Forall_forall in Hb.
  specialize (Hb _ Hx). lia.
Qed.

Lemma filter_foreign {A} (key : A -> Z) (l : list A) (d u : Z) :
  Forall (fun x => key x = d) l -> u <> d ->
  filter (fun x => key x =? u) l = [].
Proof.
  intros Hl Hne. induction Hl as [|x l Hx _ IH]; simpl; [reflexivity|].
  rewrite Hx. destruct (Z.eqb_spec d u); [congruence | exact IH].
Qed.

Lemma find_email_is (e : string) (us : list User.t) (u : User.t) :
  find (fun u => String.eqb (User.email u) e) us = Some u ->
  User.email u = e.
Proof. intros H. apply find_some in H as [_ H]. now apply String.eqb_eq. Qed.

Section Simulation.
Context {R : Runtime} {L : RuntimeLaws R}.
Variables (private : option string) (df dr : Z).

Lemma same_answer_refl_error (code : Z) (m : string) :
  same_answer (json code (Error m)) (json code (Error m)).
Proof. split; reflexivity. Qed.

Lemma register_sim (env : Env) (b : RegisterBody.t)
    (f : Flat.Database) (r : Rel.Database) :
  sim private df dr f r ->
  let outF := Flat.handle env (PostRegister b) f in
  let outR := Rel.handle env (PostRegister b) r in
  same_answer (fst (fst outF)) (fst (fst outR)) /\
  sim private df dr (snd (fst outF)) (snd (fst outR)).
Proof.
  intros S. cbv zeta. rewrite flat_register_run, rel_register_run. cbv zeta.
  destruct (valid_registration b);
    [|split; [apply same_answer_refl_error | exact S]].
  rewrite (existsb_email_sim _ _ _ (sim_users _ _ _ f r S)).
  destruct (existsb _ (Rel.rows (Rel.users r)));
    [split; [apply same_answer_refl_error | exact S]|].
  cbn [fst snd]. split; [split; [reflexivity|]; simpl; auto|].
  pose proof (Forall2_length_eq _ _ _ (sim_users _ _ _ f r S)) as Hlen.
  destruct S as [Hu Hfi Hri Hfb Hrb Hfa Hra Hfp Hrp Hd Hfc Hfm Hfq Hrc Hrm Hrq].
  constructor; cbn; auto.
  - apply Forall2_app; [assumption|]. repeat constructor.
  - rewrite map_app. cbn. apply NoDup_snoc_fresh; [assumption|].
    rewrite Forall_forall in *. intros x Hx.
    apply in_map_iff in Hx as (u & <- & Hu'). auto.
  - rewrite map_app. cbn. apply NoDup_snoc_fresh; [assumption|].
    rewrite Forall_forall in *. intros x Hx.
    apply in_map_iff in Hx as (u & <- & Hu'). auto.
  - apply Forall_app. split.
    + eapply Forall_impl; [|eassumption]. cbn. intros; lia.
    + repeat constructor. cbn. lia.
  - apply Forall_app. split.
    + eapply Forall_impl; [|eassumption]. cbn. intros; lia.
    + repeat constructor. cbn. lia.
  - lia.
  - lia.
  - intros u Hin Hid. apply in_app_or in Hin as [Hin|[<-|[]]]; [auto|].
    cbn in Hid. lia.
  - intros u Hin Hid. apply in_app_or in Hin as [Hin|[<-|[]]]; [auto|].
    cbn in Hid. lia.
  - destruct Hd as (sf & lf & sr & lr & E1 & E2 & F1 & F2 & F12).
    exists sf, lf, sr, lr. repeat split; try assumption.
    eapply donation_sim_mono; [|eassumption].
    rewrite idmap_snoc by assumption. apply incl_appl, incl_refl.
Qed.

Lemma login_sim (env : Env) (b : LoginBody.t)
    (f : Flat.Database) (r : Rel.Database) :
  sim private df dr f r ->
  let outF := Flat.handle env (PostLogin b) f in
  let outR := Rel.handle env (PostLogin b) r in
  same_answer (fst (fst outF)) (fst (fst outR)) /\
  sim private df dr (snd (fst outF)) (snd (fst outR)).
Proof.
  intros S. cbv zeta. rewrite flat_login_state, rel_login_state.
  split; [|exact S].
  unfold Flat.handle, Rel.handle, Flat.app, Rel.app, Flat.post_login,
    Rel.post_login, run, bind, get, reply, emit, ret.
  destruct (negb _ || negb _); [apply same_answer_refl_error|].
  pose proof (find_email_sim (JS.or_empty (LoginBody.email b)) _ _
                (sim_users _ _ _ f r S)) as Hf.
  destruct (find _ (Flat.users f)) as [uf|],
           (find _ (Rel.rows (Rel.users r))) as [ur|];
    try contradiction; [|apply same_answer_refl_error].
  destruct Hf as ((He & Hn & Hp) & _). rewrite Hp.
  destruct (bcrypt_compare _ _); cbn [negb];
    [|apply same_answer_refl_error].
  split; [reflexivity|]. cbn. auto.
Qed.

(** The header built for [who] authenticates as [who]'s identity, on
    either side; without a stored user there is no header at all. *)
Lemma header_authenticates (env : Env) (iat : Z) (u : User.t) :
  iat <= seconds env < iat + token_lifetime ->
  let i := {| userId := User.id u; email := User.email u |} in
  authenticated env (header (Some i) iat) (jwt_sign i iat) i.
Proof. intros Ht. now apply bearer_of_signed. Qed.

Lemma donate_sim (env : Env) (who : string) (iat : Z) (b : DonationBody.t)
    (f : Flat.Database) (r : Rel.Database) :
  sim private df dr f r -> agreeable (env, Donate who iat b) ->
  let outF :=
    Flat.handle env (request_of (Flat.users f) (Donate who iat b)) f in
  let outR :=
    Rel.handle env
      (request_of (Rel.rows (Rel.users r)) (Donate who iat b)) r in
  same_answer (fst (fst outF)) (fst (fst outR)) /\
  sim private df dr (snd (fst outF)) (snd (fst outR)).
Proof.
  intros S [Ht Hnan]. cbn [fst snd] in Ht, Hnan. cbv zeta.
  unfold request_of, session_of.
  pose proof (find_email_sim who _ _ (sim_users _ _ _ f r S)) as Hf.
  destruct (find _ (Flat.users f)) as [uf|],
           (find _ (Rel.rows (Rel.users r))) as [ur|];
    try contradiction; cbn [option_map].
  - destruct Hf as (Hu & Hinf & Hinr & Hid).
    unfold Flat.handle, Rel.handle, Flat.app, Rel.app.
    rewrite (route_ok env _ _ _ _ f (header_authenticates env iat uf Ht)).
    rewrite (route_ok env _ _ _ _ r (header_authenticates env iat ur Ht)).
    rewrite flat_donations_run, rel_donations_run.
    destruct (valid_donation b);
      [|split; [apply same_answer_refl_error | exact S]].
    rewrite Hnan. cbn [fst snd userId].
    split; [split; reflexivity|].
    destruct S as [Hus Hfi Hri Hfb Hrb Hfa Hra Hfp Hrp Hd
                     Hfc Hfm Hfq Hrc Hrm Hrq].
    constructor; cbn; auto.
    + eapply Forall_impl; [|eassumption]. cbn. intros; lia.
    + lia.
    + destruct Hd as (sf & lf & sr & lr & E1 & E2 & F1 & F2 & F12).
      exists sf, (lf ++ [{| Donation.id := Flat.lastId f + 1;
                           Donation.user_id := User.id uf;
                           Donation.organization :=
                             JS.or_empty (DonationBody.organization b);
                           Donation.amount :=
                             JS.parseFloat (DonationBody.amount b);
                           Donation.date :=
                             JS.or_empty (DonationBody.date b);
                           Donation.notes :=
                             JS.or_empty (DonationBody.notes b);
                           Donation.created_at := now env |}]),
        sr, (lr ++ [{| Donation.id := Rel.seq (Rel.donations r) + 1;
                       Donation.user_id := User.id ur;
                       Donation.organization :=
                         JS.or_empty (DonationBody.organization b);
                       Donation.amount :=
                         JS.parseFloat (DonationBody.amount b);
                       Donation.date := JS.or_empty (DonationBody.date b);
                       Donation.notes := JS.or_empty (DonationBody.notes b);
                       Donation.created_at :=
                         Rel.current_timestamp (now env) |}]).
      rewrite E1, E2, <- !app_assoc.
      repeat split; try assumption; try reflexivity.
      apply Forall2_app; [assumption|]. repeat constructor. exact Hid.
  - unfold header. cbn [option_map].
    unfold Flat.handle, Rel.handle, Flat.app, Rel.app, run, bind.
    rewrite !auth_missing by reflexivity.
    split; [split; reflexivity | exact S].
Qed.

Lemma dashboard_sim (env : Env) (who : string) (iat : Z)
    (f : Flat.Database) (r : Rel.Database) :
  sim private df dr f r ->
  agreeable_but private (env, ViewDashboard who iat) ->
  let outF :=
    Flat.handle env (request_of (Flat.users f) (ViewDashboard who iat)) f in
  let outR :=
    Rel.handle env
      (request_of (Rel.rows (Rel.users r)) (ViewDashboard who iat)) r in
  same_answer (fst (fst outF)) (fst (fst outR)) /\
  sim private df dr (snd (fst outF)) (snd (fst outR)).
Proof.
  intros S [Ht Hwho]. cbn [agreeable fst snd] in Ht, Hwho. cbv zeta.
  unfold request_of, session_of.
  pose proof (find_email_sim who _ _ (sim_users _ _ _ f r S)) as Hf.
  destruct (find _ (Flat.users f)) as [uf|] eqn:Ef,
           (find _ (Rel.rows (Rel.users r))) as [ur|] eqn:Er;
    try contradiction; cbn [option_map].
  - destruct Hf as ((He & Hn & Hp) & Hinf & Hinr & Hid).
    assert (Hnf : User.id uf <> df).
    { intros E. apply Hwho. rewrite <- (find_email_is _ _ _ Ef).
      now apply (sim_fprivate _ _ _ f r S). }
    assert (Hnr : User.id ur <> dr).
    { intros E. apply Hwho. rewrite <- (find_email_is _ _ _ Er).
      now apply (sim_rprivate _ _ _ f r S). }
    unfold Flat.handle, Rel.handle, Flat.app, Rel.app.
    rewrite (route_ok env _ _ _ _ f (header_authenticates env iat uf Ht)).
    rewrite (route_ok env _ _ _ _ r (header_authenticates env iat ur Ht)).
    rewrite flat_dashboard_run, rel_dashboard_run. cbn [userId].
    rewrite (find_by_id _ uf (sim_fids _ _ _ f r S) Hinf).
    rewrite (find_by_id _ ur (sim_rids _ _ _ f r S) Hinr).
    assert (Hreach : rel_reach r (User.id ur) = Some zero).
    { unfold rel_reach.
      now rewrite (filter_foreign Media.user_id _ dr _
                     (sim_rm _ _ _ f r S) Hnr). }
    rewrite Hreach. cbn [fst snd]. split; [|exact S].
    split; [reflexivity|]. cbn [body json public pu_email pu_name].
    unfold flat_stats, rel_stats. rewrite Hreach.
    cbn [conversionCount mediaCount campaignCount animalsImpact totalReach
         totalDonations].
    rewrite (filter_foreign Conversion.user_id _ df _
               (sim_fc _ _ _ f r S) Hnf),
      (filter_foreign Media.user_id _ df _ (sim_fm _ _ _ f r S) Hnf),
      (filter_foreign Campaign.user_id _ df _ (sim_fp _ _ _ f r S) Hnf),
      (filter_foreign Conversion.user_id _ dr _
         (sim_rc _ _ _ f r S) Hnr),
      (filter_foreign Media.user_id _ dr _ (sim_rm _ _ _ f r S) Hnr),
      (filter_foreign Campaign.user_id _ dr _ (sim_rp _ _ _ f r S) Hnr).
    repeat (split; [solve [assumption | reflexivity]|]).
    destruct (sim_donations _ _ _ f r S)
      as (sf & lf & sr & lr & E1 & E2 & F1 & F2 & F12).
    exists (map Donation.amount
              (filter (fun d => Donation.user_id d =? User.id uf) lf)).
    rewrite E1, E2, !filter_app.
    rewrite (filter_foreign Donation.user_id _ df _ F1 Hnf),
      (filter_foreign Donation.user_id _ dr _ F2 Hnr).
    cbn [app]. split; [apply fold_amounts|].
    rewrite (amounts_sim _ (User.id uf) (User.id ur) _ _
               (fun a' b' H =>
                  combine_injective _ _ a' (User.id uf) b' (User.id ur)
                    (sim_fids _ _ _ f r S) (sim_rids _ _ _ f r S) H Hid)
               F12).
    reflexivity.
  - unfold header. cbn [option_map].
    unfold Flat.handle, Rel.handle, Flat.app, Rel.app, run, bind.
    rewrite !auth_missing by reflexivity.
    split; [split; reflexivity | exact S].
Qed.

Lemma step_sim (ea : Env * Action) (f : Flat.Database) (r : Rel.Database) :
  sim private df dr f r -> agreeable_but private ea ->
  let outF := Flat.handle (fst ea) (request_of (Flat.users f) (snd ea)) f in
  let outR :=
    Rel.handle (fst ea) (request_of (Rel.rows (Rel.users r)) (snd ea)) r in
  same_answer (fst (fst outF)) (fst (fst outR)) /\
  sim private df dr (snd (fst outF)) (snd (fst outR)).
Proof.
  destruct ea as [env [b|b|who iat b|who iat]]; intros S Hok; cbn [fst snd].
  - now apply register_sim.
  - now apply login_sim.
  - apply donate_sim; [exact S | exact (proj1 Hok)].
  - now apply dashboard_sim.
Qed.

Lemma play_sim (script : list (Env * Action)) (f : Flat.Database)
    (r : Rel.Database) :
  sim private df dr f r -> Forall (agreeable_but private) script ->
  Forall2 same_answer (flat_play script f) (rel_play script r).
Proof.
  revert f r. induction script as [|[env a] rest IH]; intros f r S Hok;
    cbn [flat_play rel_play]; [constructor|].
  inversion Hok as [|? ? H1 H2]; subst.
  destruct (step_sim (env, a) f r S H1) as [Hans Hsim].
  constructor; [exact Hans | now apply IH].
Qed.

End Simulation.

Lemma agreeable_but_none (script : list (Env * Action)) :
  Forall agreeable script -> Forall (agreeable_but None) script.
Proof.
  intros H. eapply Forall_impl; [|exact H].
  intros [env a] Ha. split; [exact Ha|]. destruct a; [exact I ..|discriminate].
Qed.

Section Agreement.
Context {R : Runtime} {L : RuntimeLaws R}.

(** Both servers seeded under one [SeedEnv]: the stores correspond, with
    the demo account private to each. *)
Lemma sim_seeded (se : SeedEnv) :
  exists rdb,
    Rel.initializeDatabase se Rel.empty = Some rdb /\
    sim (Some demo_email) 1 1 (Flat.seeded se) rdb.
Proof.
  eexists. split; [lazy -[Rel.current_timestamp]; reflexivity|].
  constructor;
    try match goal with
        | |- exists sf lf sr lr, ?a = _ /\ ?b = _ /\ _ =>
            exists a, [], b, []; rewrite !app_nil_r
        end;
    lazy -[Rel.current_timestamp Z.le];
    try (repeat constructor; fail).
  - constructor; [intros []|constructor].
  - constructor; [intros []|constructor].
  - repeat constructor. lia.
  - repeat constructor. lia.
  - lia.
  - lia.
  - intros u [<-|[]] _. reflexivity.
  - intros u [<-|[]] _. reflexivity.
Qed.

(** C2, amended.  For every series of registrations, logins, donations and
    dashboard views performed by clients against both servers, with tokens
    used within their lifetime and donation amounts that parse to a number:
    every step gets the same status and the same message from both
    servers, the same user in a session or dashboard answer, the same
    counts, [totalReach] and [animalsImpact], and a [totalDonations]
    computed over one and the same list of amounts.  This holds when both
    servers start empty, and when both start as they do in production, on
    the data each one seeds, as long as the dashboard viewed is not the one
    of the seeded demo account, whose seeded records differ.  Row ids,
    tokens and the "recent" lists are not compared. *)
Theorem backends_agree_on_shared_routes (script : list (Env * Action)) :
  (Forall agreeable script ->
   Forall2 same_answer (flat_play script Flat.empty)
     (rel_play script Rel.empty)) /\
  (forall se : SeedEnv,
     Forall (agreeable_but (Some demo_email)) script ->
     exists rdb,
       Rel.initializeDatabase se Rel.empty = Some rdb /\
       Forall2 same_answer (flat_play script (Flat.seeded se))
         (rel_play script rdb)).
Proof.
  split.
  - intros H. apply (play_sim None 0 0); [apply sim_empty|].
    now apply agreeable_but_none.
  - intros se H. destruct (sim_seeded se) as (rdb & Hseed & S).
    exists rdb. split; [exact Hseed|].
    now apply (play_sim (Some demo_email) 1 1).
Qed.

End Agreement.

(* ================================================================== *)
(** * The theorems at work, and where the two servers part *)
(* ================================================================== *)

#[local] Set Warnings "-inexact-float".

Lemma alice_authenticated (t : Z) :
  0 <= t / 1000 < token_lifetime ->
  authenticated (R := plain_runtime) (at_time t) alice_bearer alice_token
    alice_identity.
Proof.
  intros H.
  exact (bearer_of_signed (L := plain_lawful) (at_time t) alice_identity 0 H).
Qed.

(** The scenario of the specification: register, donate 50, look. *)
Lemma alice_donates_fifty :
  option_map totalDonations
    (dashboard_stats
       (flat_dashboard_after
          [ (at_time 0, PostRegister alice);
            (at_time 1000,
             PostDonations alice_bearer (donation (JS.Num 50) "2024-01-01")) ]))
  = Some 50%float /\
  option_map totalDonations
    (dashboard_stats
       (rel_dashboard_after
          [ (at_time 0, PostRegister alice);
            (at_time 1000,
             PostDonations alice_bearer (donation (JS.Num 50) "2024-01-01")) ]))
  = Some 50%float.
Proof. split; vm_compute; reflexivity. Qed.

(** ** C2: a route only one server has, and a total summed two ways *)

(** Both servers as they start, each on the data it seeds.  The demo
    account sends [POST /api/conversions]: [simple-server.ts] has no such
    route, answers 404 and goes on reporting 2 conversions; [server.ts]
    answers 201 and reports 9 conversions. *)
Lemma backends_differ_on_conversions :
  let req := PostConversions demo_bearer a_conversion in
  let fdb := Flat.seeded (R := plain_runtime) demo_seed in
  let rdb := rel_seeded (R := plain_runtime) demo_seed in
  let fout := Flat.handle (R := plain_runtime) (at_time 1000) req fdb in
  let rout := Rel.handle (R := plain_runtime) (at_time 1000) req rdb in
  status (fst (fst fout)) = 404 /\
  status (fst (fst rout)) = 201 /\
  option_map conversionCount
    (dashboard_stats
       (fst (fst (Flat.handle (R := plain_runtime) (at_time 2000)
                    (GetDashboard demo_bearer) (snd (fst fout))))))
    = Some 2 /\
  option_map conversionCount
    (dashboard_stats
       (fst (fst (Rel.handle (R := plain_runtime) (at_time 2000)
                    (GetDashboard demo_bearer) (snd (fst rout))))))
    = Some 9.
Proof. repeat split; vm_compute; reflexivity. Qed.

(** Why the totals are compared as sums over one list, and not as
    numbers: the engine's [SUM] compensates for rounding, the [reduce] of
    [simple-server.ts] does not.  Alice registers with both servers and
    donates 0.1, 0.2 and 0.3: the flat-document dashboard shows
    0.6000000000000001, the relational one 0.6. *)
Lemma backends_differ_on_totals :
  Forall (agreeable_but (Some demo_email)) three_tenths /\
  map (fun r => option_map totalDonations (dashboard_stats r))
    (flat_play (R := compensated_runtime) three_tenths
       (Flat.seeded (R := compensated_runtime) demo_seed))
    = [None; None; None; None; Some 0.6000000000000001%float] /\
  map (fun r => option_map totalDonations (dashboard_stats r))
    (rel_play (R := compensated_runtime) three_tenths
       (rel_seeded (R := compensated_runtime) demo_seed))
    = [None; None; None; None; Some 0.6%float].
Proof.
  split; [repeat constructor; vm_compute; congruence|].
  split; vm_compute; reflexivity.
Qed.

(** The two servers started empty answer [shared_script] alike.  The two
    servers as they start answer [production_script] alike: 200 for the
    demo login, 201 three times, and Alice's dashboard with one donation of
    50. *)
Lemma backends_agree_witness :
  Forall2 (same_answer (R := plain_runtime))
    (flat_play (R := plain_runtime) shared_script Flat.empty)
    (rel_play (R := plain_runtime) shared_script Rel.empty) /\
  Forall (agreeable_but (Some demo_email)) production_script /\
  map status
    (flat_play (R := plain_runtime) production_script
       (Flat.seeded (R := plain_runtime) demo_seed))
    = [200; 201; 201; 201; 200] /\
  exists rdb,
    Rel.initializeDatabase (R := plain_runtime) demo_seed Rel.empty
      = Some rdb /\
    Forall2 (same_answer (R := plain_runtime))
      (flat_play (R := plain_runtime) production_script
         (Flat.seeded (R := plain_runtime) demo_seed))
      (rel_play (R := plain_runtime) production_script rdb).
Proof.
  split.
  { destruct (backends_agree_on_shared_routes (L := plain_lawful)
                shared_script) as [Hempty _].
    apply Hempty. repeat constructor; vm_compute; congruence. }
  assert (H : Forall (agreeable_but (Some demo_email)) production_script).
  { repeat constructor; vm_compute; congruence. }
  split; [exact H|].
  split; [vm_compute; reflexivity|].
  destruct (backends_agree_on_shared_routes (L := plain_lawful)
              production_script) as [_ Hseeded].
  exact (Hseeded demo_seed H).
Defined.

(** ** C4: validation comes before the duplicate check *)

(** Alice registers; a second registration under her email with the
    password "abc" is answered 400, but with the password message, not
    with "User already exists". *)
Lemma duplicate_with_short_password :
  let first := Flat.handle (R := plain_runtime) (at_time 0)
                 (PostRegister alice) Flat.empty in
  let second := Flat.handle (R := plain_runtime) (at_time 1000)
                  (PostRegister alice_again_short) (snd (fst first)) in
  status (fst (fst first)) = 201 /\
  RegisterBody.email alice = RegisterBody.email alice_again_short /\
  fst (fst second)
    = json 400 (Error "Password must be at least 6 characters") /\
  body (fst (fst second)) <> Error "User already exists".
Proof. repeat split; vm_compute; congruence. Qed.

Lemma second_registration_witness :
  let db1 :=
    Flat.serve (R := plain_runtime)
      [(at_time 500, PostLogin {| LoginBody.email := Some "alice@example.com";
                                  LoginBody.password := Some "secret1" |})]
      (snd (fst (Flat.handle (R := plain_runtime) (at_time 0)
                   (PostRegister alice) Flat.empty))) in
  Flat.handle (R := plain_runtime) (at_time 1000)
    (PostRegister alice_again) db1
  = (json 400 (Error "User already exists"), db1, []).
Proof.
  destruct (second_registration_rejected (R := plain_runtime)
              (at_time 0) (at_time 1000) alice alice_again
              "alice@example.com"
              [(at_time 500,
                PostLogin {| LoginBody.email := Some "alice@example.com";
                             LoginBody.password := Some "secret1" |})]
              eq_refl eq_refl) as (Hflat & _ & Hmsg & _).
  intros db1. rewrite <- (Hmsg eq_refl).
  apply (Hflat Flat.empty). vm_compute. reflexivity.
Defined.

(** ** C8, C10, C5: rejected requests *)

Lemma rejected_before_handler_witness :
  Rel.handle (R := plain_runtime) (at_time 0)
    (PostDonations None (donation (JS.Num 50) "2024-01-01")) Rel.empty
  = (json 401 StatusText, Rel.empty, []) /\
  Flat.handle (R := plain_runtime) (at_time 0)
    (PostDonations None (donation (JS.Num 50) "2024-01-01")) Flat.empty
  = (json 401 StatusText, Flat.empty, []) /\
  Rel.handle (R := plain_runtime) (at_time 0)
    (GetDashboard (Some "Bearer p.z.forged")) Rel.empty
  = (json 403 StatusText, Rel.empty, [Verify "p.z.forged"]) /\
  Flat.handle (R := plain_runtime) (at_time 0)
    (GetDashboard (Some "Bearer p.z.forged")) Flat.empty
  = (json 403 StatusText, Flat.empty, [Verify "p.z.forged"]).
Proof.
  destruct (rejected_before_handler (R := plain_runtime) (at_time 0)
              (PostDonations None (donation (JS.Num 50) "2024-01-01"))
              None eq_refl) as [H401 _].
  destruct (rejected_before_handler (R := plain_runtime) (at_time 0)
              (GetDashboard (Some "Bearer p.z.forged"))
              (Some "Bearer p.z.forged") eq_refl) as [_ H403].
  destruct (H401 eq_refl) as [A B].
  destruct (H403 "p.z.forged" eq_refl eq_refl eq_refl) as [C D].
  split; [apply A|]. split; [apply B; reflexivity|].
  split; [apply C | apply D; reflexivity].
Defined.

Lemma falsy_amount_witness :
  Flat.handle (R := plain_runtime) (at_time 1000)
    (PostDonations alice_bearer (donation (JS.Num 0) "2024-01-01"))
    Flat.empty
  = (json 400 (Error "Organization, amount, and date are required"),
     Flat.empty, [Verify alice_token]) /\
  Rel.handle (R := plain_runtime) (at_time 1000)
    (PostDonations alice_bearer (donation (JS.Str "") "2024-01-01"))
    Rel.empty
  = (json 400 (Error "Organization, amount, and date are required"),
     Rel.empty, [Verify alice_token]).
Proof.
  assert (Ha : authenticated (R := plain_runtime) (at_time 1000)
                 alice_bearer alice_token alice_identity).
  { apply alice_authenticated. vm_compute. split; congruence. }
  split.
  - apply (falsy_amount_rejected (R := plain_runtime) (at_time 1000)
             alice_bearer alice_token alice_identity
             (donation (JS.Num 0) "2024-01-01") Ha eq_refl).
  - apply (falsy_amount_rejected (R := plain_runtime) (at_time 1000)
             alice_bearer alice_token alice_identity
             (donation (JS.Str "") "2024-01-01") Ha eq_refl).
Defined.

Lemma short_password_witness :
  Flat.handle (R := plain_runtime) (at_time 0)
    (PostRegister alice_again_short) Flat.empty
  = (json 400 (Error "Password must be at least 6 characters"),
     Flat.empty, []) /\
  Rel.handle (R := plain_runtime) (at_time 0)
    (PostRegister alice_again_short) Rel.empty
  = (json 400 (Error "Password must be at least 6 characters"),
     Rel.empty, []).
Proof.
  assert (Hlen : (String.length "abc" < 6)%nat) by (cbn; lia).
  destruct (short_password_rejected (R := plain_runtime) (at_time 0)
              alice_again_short "abc" eq_refl Hlen) as [A B].
  split; [apply A | apply B].
Defined.

(** ** C3, C9: the seeded data sets *)

(** On the data set of [simple-server.ts] the demo user has 2 conversions:
    the dashboard reports 2 and 730, not 8 and 2920. *)
Lemma flat_demo_has_two_conversions :
  let db := Flat.seeded (R := plain_runtime) demo_seed in
  status (fst (fst (Flat.handle (R := plain_runtime) (at_time 0)
                      demo_login db))) = 200 /\
  option_map conversionCount
    (dashboard_stats
       (fst (fst (Flat.handle (R := plain_runtime) (at_time 1000)
                    (GetDashboard demo_bearer) db)))) = Some 2 /\
  option_map animalsImpact
    (dashboard_stats
       (fst (fst (Flat.handle (R := plain_runtime) (at_time 1000)
                    (GetDashboard demo_bearer) db)))) = Some 730.
Proof. repeat split; vm_compute; reflexivity. Qed.

Lemma demo_login_witness :
  exists db st,
    Rel.initializeDatabase (R := plain_runtime) demo_seed Rel.empty
      = Some db /\
    status (fst (fst (Rel.handle (R := plain_runtime) (at_time 0)
                        demo_login db))) = 200 /\
    dashboard_stats
      (fst (fst (Rel.handle (R := plain_runtime) (at_time 1000)
                   (GetDashboard demo_bearer) db))) = Some st /\
    conversionCount st = 8 /\ animalsImpact st = 2920.
Proof.
  assert (Ht : seconds (at_time 0) <= seconds (at_time 1000)
               < seconds (at_time 0) + token_lifetime).
  { vm_compute. split; congruence. }
  destruct (demo_login_and_dashboard (L := plain_lawful) demo_seed
              (at_time 0) (at_time 1000) Ht)
    as [(db & Hseed & (user & Hlogin) & (st & _ & Hst & Hc & Hi)) _].
  exists db, st. split; [exact Hseed|]. split; [now rewrite Hlogin|].
  split; [exact Hst|]. split; [exact Hc | exact Hi].
Defined.

(** The demo account's dashboard from each server as it starts: two
    conversions and 730 animals from the flat-document server, eight and
    2920 from the relational one. *)
Lemma animals_impact_witness :
  (exists pu st rc,
     Flat.handle (R := plain_runtime) (at_time 1000)
       (GetDashboard demo_bearer) (Flat.seeded (R := plain_runtime) demo_seed)
       = (json 200 (Dashboard pu st rc),
          Flat.seeded (R := plain_runtime) demo_seed,
          [Verify demo_token]) /\
     pu_id pu = 1 /\ conversionCount st = 2 /\ animalsImpact st = 730) /\
  (exists pu st rc,
     Rel.handle (R := plain_runtime) (at_time 1000)
       (GetDashboard demo_bearer) (rel_seeded (R := plain_runtime) demo_seed)
       = (json 200 (Dashboard pu st rc),
          rel_seeded (R := plain_runtime) demo_seed,
          [Verify demo_token]) /\
     pu_id pu = 1 /\ conversionCount st = 8 /\ animalsImpact st = 2920).
Proof.
  assert (Ha : authenticated (R := plain_runtime) (at_time 1000) demo_bearer
                 demo_token demo_identity)
    by (repeat split; vm_compute; reflexivity).
  destruct (animals_impact_is_365_per_conversion (R := plain_runtime)
              (at_time 1000) demo_bearer) as [Hlive _].
  destruct (Hlive demo_token demo_identity Ha) as [Hflat Hrel].
  split.
  - destruct (Hflat (Flat.seeded (R := plain_runtime) demo_seed) _ eq_refl)
      as (pu & st & rc & Hrun & Hid & Hc & Hi).
    exists pu, st, rc. split; [exact Hrun|]. split; [exact Hid|].
    split; [rewrite Hc | rewrite Hi]; vm_compute; reflexivity.
  - pose proof (Hrel (rel_seeded (R := plain_runtime) demo_seed) _ eq_refl)
      as H.
    assert (Hreach : rel_reach (R := plain_runtime)
                       (rel_seeded (R := plain_runtime) demo_seed)
                       (userId demo_identity) = Some 3200%float)
      by (vm_compute; reflexivity).
    rewrite Hreach in H. destruct H as (pu & st & rc & Hrun & Hid & Hc & Hi).
    exists pu, st, rc. split; [exact Hrun|]. split; [exact Hid|].
    split; [rewrite Hc | rewrite Hi]; vm_compute; reflexivity.
Defined.

(** ** C6, C7: what a donation's amount may be *)

Lemma amounts_nonneg_map (ds : list Donation.t) :
  amounts_nonneg ds <->
  Forall (fun x => nonneg x = true) (map Donation.amount ds).
Proof. unfold amounts_nonneg. now rewrite Forall_map. Qed.

(** Alice donates 0.1 and then 0.2.  The dashboard shows 0.1 and then
    0.30000000000000004: the second total is not the first plus 0.2, and
    it is not the sum of the two stored amounts either. *)
Lemma donation_total_is_rounded :
  let one :=
    alice_registered ++
    [(at_time 1000,
      PostDonations alice_bearer (donation (JS.Num 0.1) "2024-01-01"))] in
  let two :=
    one ++
    [(at_time 2000,
      PostDonations alice_bearer (donation (JS.Num 0.2) "2024-01-02"))] in
  option_map totalDonations (dashboard_stats (flat_dashboard_after one))
    = Some 0.1%float /\
  status
    (fst (fst (Flat.handle (R := plain_runtime) (at_time 2000)
                 (PostDonations alice_bearer
                    (donation (JS.Num 0.2) "2024-01-02"))
                 (Flat.serve (R := plain_runtime) one Flat.empty)))) = 201 /\
  option_map totalDonations (dashboard_stats (flat_dashboard_after two))
    = Some 0.30000000000000004%float /\
  ~ exact_increase 0.1 0.2 0.30000000000000004.
Proof.
  repeat split; try (vm_compute; reflexivity).
  intros H. vm_compute in H. discriminate.
Qed.

Lemma running_sum_witness :
  let db :=
    Flat.serve (R := plain_runtime)
      (alice_registered ++
       [(at_time 1000,
         PostDonations alice_bearer (donation (JS.Num 0.1) "2024-01-01"))])
      Flat.empty in
  let b := donation (JS.Num 0.2) "2024-01-02" in
  let db' :=
    snd (fst (run (Flat.post_donations (at_time 2000) alice_identity b)
                db)) in
  exists st1,
    dashboard_stats
      (fst (fst (run (Flat.get_dashboard alice_identity)
                   db'))) = Some st1 /\
    totalDonations st1 = (0.1 + 0.2)%float.
Proof.
  intros db b db'.
  destruct (total_donations_running_sum (R := plain_runtime) (at_time 2000)
              alice_identity b) as [Hflat _].
  assert (Hok : status
                  (fst (fst (run (Flat.post_donations
                                    (at_time 2000) alice_identity b) db)))
                = 201) by (vm_compute; reflexivity).
  assert (H0 : dashboard_stats
                 (fst (fst (run (Flat.get_dashboard
                                   alice_identity) db)))
               = Some (flat_stats db 1)) by (vm_compute; reflexivity).
  destruct (Hflat db Hok _ H0) as (st1 & Hst & _ & Htot).
  exists st1. split; [exact Hst|]. rewrite Htot. vm_compute. reflexivity.
Defined.

(** Alice donates -5: both servers answer 201 and store the amount as
    submitted, so the stored amounts are no longer all non-negative. *)
Lemma negative_amount_is_stored :
  let req :=
    PostDonations alice_bearer (donation (JS.Num (-5)) "2024-01-01") in
  let flat_before := Flat.serve (R := plain_runtime) alice_registered
                       Flat.empty in
  let rel_before := Rel.serve (R := plain_runtime) alice_registered
                      Rel.empty in
  let flat_out := Flat.handle (R := plain_runtime) (at_time 1000) req
                    flat_before in
  let rel_out := Rel.handle (R := plain_runtime) (at_time 1000) req
                   rel_before in
  amounts_nonneg (Flat.donations flat_before) /\
  amounts_nonneg (Rel.rows (Rel.donations rel_before)) /\
  status (fst (fst flat_out)) = 201 /\ status (fst (fst rel_out)) = 201 /\
  ~ amounts_nonneg (Flat.donations (snd (fst flat_out))) /\
  ~ amounts_nonneg (Rel.rows (Rel.donations (snd (fst rel_out)))).
Proof.
  cbv zeta. split; [constructor|]. split; [constructor|].
  split; [vm_compute; reflexivity|]. split; [vm_compute; reflexivity|].
  split; intros H; apply amounts_nonneg_map in H; vm_compute in H;
    inversion H as [|? ? Hneg _]; discriminate.
Qed.

Lemma nonneg_amounts_witness :
  let req :=
    PostDonations alice_bearer (donation (JS.Num 50) "2024-01-01") in
  amounts_nonneg
    (Flat.donations
       (snd (fst (Flat.handle (R := plain_runtime) (at_time 1000) req
                    (Flat.serve (R := plain_runtime) alice_registered
                       Flat.empty))))) /\
  amounts_nonneg
    (Rel.rows
       (Rel.donations
          (snd (fst (Rel.handle (R := plain_runtime) (at_time 1000) req
                       (Rel.serve (R := plain_runtime) alice_registered
                          Rel.empty)))))).
Proof.
  intros req.
  assert (Hreq : forall a b,
             req = PostDonations a b ->
             nonneg (JS.parseFloat (DonationBody.amount b)) = true).
  { intros a b E. injection E as <- <-. reflexivity. }
  destruct (nonneg_amounts_preserved (R := plain_runtime) (at_time 1000)
              req Hreq) as [Hflat Hrel].
  split; [apply Hflat | apply Hrel]; constructor.
Defined.

(* ================================================================== *)
(** * Further properties of the handlers *)
(* ================================================================== *)

(** ** The handlers, by cases *)

Section MoreRuns.
Context {R : Runtime}.

Lemma flat_login_run (env : Env) (b : LoginBody.t) (db : Flat.Database) :
  let e := JS.or_empty (LoginBody.email b) in
  let p := JS.or_empty (LoginBody.password b) in
  Flat.handle env (PostLogin b) db =
    if valid_login b then
      match find (fun u => String.eqb (User.email u) e) (Flat.users db) with
      | None => (json 401 (Error "Invalid credentials"), db, [])
      | Some u =>
          if bcrypt_compare p (User.password u) then
            (json 200
               (Session "Login successful"
                  (jwt_sign {| userId := User.id u; email := User.email u |}
                     (seconds env))
                  (public false u)),
             db,
             [Compare p;
              Sign {| userId := User.id u; email := User.email u |}])
          else (json 401 (Error "Invalid credentials"), db, [Compare p])
      end
    else (json 400 (Error "Email and password are required"), db, []).
Proof.
  unfold Flat.handle, Flat.app, Flat.post_login, valid_login, run, bind, get,
    reply, emit, ret.
  destruct (JS.opt_truthy (LoginBody.email b)); [|reflexivity].
  destruct (JS.opt_truthy (LoginBody.password b)); [|reflexivity].
  cbn [negb orb andb]. cbv zeta.
  destruct (find _ (Flat.users db)) as [u|]; [|reflexivity].
  destruct (bcrypt_compare _ _); reflexivity.
Qed.

Lemma rel_login_run (env : Env) (b : LoginBody.t) (db : Rel.Database) :
  let e := JS.or_empty (LoginBody.email b) in
  let p := JS.or_empty (LoginBody.password b) in
  Rel.handle env (PostLogin b) db =
    if valid_login b then
      match find (fun u => String.eqb (User.email u) e)
              (Rel.rows (Rel.users db)) with
      | None => (json 401 (Error "Invalid credentials"), db, [])
      | Some u =>
          if bcrypt_compare p (User.password u) then
            (json 200
               (Session "Login successful"
                  (jwt_sign {| userId := User.id u; email := User.email u |}
                     (seconds env))
                  (public false u)),
             db,
             [Compare p;
              Sign {| userId := User.id u; email := User.email u |}])
          else (json 401 (Error "Invalid credentials"), db, [Compare p])
      end
    else (json 400 (Error "Email and password are required"), db, []).
Proof.
  unfold Rel.handle, Rel.app, Rel.post_login, valid_login, run, bind, get,
    reply, emit, ret.
  destruct (JS.opt_truthy (LoginBody.email b)); [|reflexivity].
  destruct (JS.opt_truthy (LoginBody.password b)); [|reflexivity].
  cbn [negb orb andb]. cbv zeta.
  destruct (find _ (Rel.rows (Rel.users db))) as [u|]; [|reflexivity].
  destruct (bcrypt_compare _ _); reflexivity.
Qed.

Lemma rel_conversions_run (env : Env) (user : Identity)
    (b : ConversionBody.t) (db : Rel.Database) :
  run (Rel.post_conversions env user b) db =
    if valid_conversion b then
      let i := Rel.seq (Rel.vegan_conversions db) + 1 in
      (json 201 (Created "Conversion recorded successfully" i),
       Rel.set_vegan_conversions
         {| Rel.rows :=
              Rel.rows (Rel.vegan_conversions db) ++
                [{| Conversion.id := i; Conversion.user_id := userId user;
                    Conversion.person_name :=
                      JS.or_empty (ConversionBody.person_name b);
                    Conversion.conversion_date :=
                      JS.or_empty (ConversionBody.conversion_date b);
                    Conversion.influence_type :=
                      JS.or_empty (ConversionBody.influence_type b);
                    Conversion.notes := JS.or_empty (ConversionBody.notes b);
                    Conversion.created_at :=
                      Rel.current_timestamp (now env) |}];
            Rel.seq := i |}
         db,
       [Write "vegan_conversions"])
    else
      (json 400 (Error "Person name and conversion date are required"),
       db, []).
Proof.
  unfold Rel.post_conversions, valid_conversion.
  destruct (JS.opt_truthy (ConversionBody.person_name b)); [|reflexivity].
  destruct (JS.opt_truthy (ConversionBody.conversion_date b)); reflexivity.
Qed.

Lemma rel_media_run (env : Env) (user : Identity)
    (b : MediaBody.t) (db : Rel.Database) :
  run (Rel.post_media env user b) db =
    if valid_media b then
      let i := Rel.seq (Rel.media_shared db) + 1 in
      (json 201 (Created "Media shared recorded successfully" i),
       Rel.set_media_shared
         {| Rel.rows :=
              Rel.rows (Rel.media_shared db) ++
                [{| Media.id := i; Media.user_id := userId user;
                    Media.platform := JS.or_empty (MediaBody.platform b);
                    Media.content_type :=
                      JS.or_empty (MediaBody.content_type b);
                    Media.reach_estimate :=
                      or_zero (parseInt (MediaBody.reach_estimate b));
                    Media.date := JS.or_empty (MediaBody.date b);
                    Media.url := JS.or_empty (MediaBody.url b);
                    Media.notes := JS.or_empty (MediaBody.notes b);
                    Media.created_at :=
                      Rel.current_timestamp (now env) |}];
            Rel.seq := i |}
         db,
       [Write "media_shared"])
    else
      (json 400 (Error "Platform, content type, and date are required"),
       db, []).
Proof.
  unfold Rel.post_media, valid_media.
  destruct (JS.opt_truthy (MediaBody.platform b)); [|reflexivity].
  destruct (JS.opt_truthy (MediaBody.content_type b)); [|reflexivity].
  destruct (JS.opt_truthy (MediaBody.date b)); reflexivity.
Qed.

Lemma rel_campaigns_run (env : Env) (user : Identity)
    (b : CampaignBody.t) (db : Rel.Database) :
  run (Rel.post_campaigns env user b) db =
    if valid_campaign b then
      let i := Rel.seq (Rel.campaigns db) + 1 in
      (json 201 (Created "Campaign participation recorded successfully" i),
       Rel.set_campaigns
         {| Rel.rows :=
              Rel.rows (Rel.campaigns db) ++
                [{| Campaign.id := i; Campaign.user_id := userId user;
                    Campaign.campaign_name :=
                      JS.or_empty (CampaignBody.campaign_name b);
                    Campaign.organization :=
                      JS.or_empty (CampaignBody.organization b);
                    Campaign.participation_type :=
                      JS.or_empty (CampaignBody.participation_type b);
                    Campaign.date := JS.or_empty (CampaignBody.date b);
                    Campaign.impact_description :=
                      JS.or_empty (CampaignBody.impact_description b);
                    Campaign.created_at :=
                      Rel.current_timestamp (now env) |}];
            Rel.seq := i |}
         db,
       [Write "campaigns"])
    else
      (json 400
         (Error "Campaign name, participation type, and date are required"),
       db, []).
Proof.
  unfold Rel.post_campaigns, valid_campaign.
  destruct (JS.opt_truthy (CampaignBody.campaign_name b)); [|reflexivity].
  destruct (JS.opt_truthy (CampaignBody.participation_type b)); [|reflexivity].
  destruct (JS.opt_truthy (CampaignBody.date b)); reflexivity.
Qed.

End MoreRuns.

(** ** A request changes the store by one row, or not at all *)

Section Atomic.
Context {R : Runtime}.

(** X1.  Whatever the request, the flat-document server either answers 201
    after exactly one [push] (the id counter moved by one, one array got one
    row at its end, carrying the new counter value, which is also the id the
    answer reports, and the document was saved once), or it answers
    something else and leaves the document exactly as it was, unsaved. *)
Theorem flat_request_atomic (env : Env) (req : Request)
    (db : Flat.Database) :
  let out := Flat.handle env req db in
  let r := fst (fst out) in
  let db' := snd (fst out) in
  (status r = 201 /\ flat_pushed db db' /\
   reported_id r = Some (Flat.lastId db') /\
   filter is_write (snd out) = [Write "data.json"]) \/
  (status r <> 201 /\ db' = db /\ filter is_write (snd out) = []).
Proof.
  cbv zeta. destruct req as [b|b|a|a b|a b|a b|a b];
    try (right; repeat split; discriminate).
  - rewrite flat_register_run. cbv zeta.
    destruct (valid_registration b);
      [|right; repeat split; discriminate].
    destruct (existsb _ _); [right; repeat split; discriminate|].
    left. split; [reflexivity|]. split; [|split; reflexivity].
    unfold flat_pushed. cbn. repeat split. left. eexists. repeat split.
  - rewrite flat_login_run. cbv zeta. right.
    destruct (valid_login b); [|repeat split; discriminate].
    destruct (find _ _) as [u|]; [|repeat split; discriminate].
    destruct (bcrypt_compare _ _); repeat split; discriminate.
  - right. unfold Flat.handle, Flat.app.
    destruct (route_cases env a Flat.get_dashboard db)
      as [E|[[t E]|(t & u & _ & E)]]; rewrite E;
      try (repeat split; discriminate).
    rewrite flat_dashboard_run. cbn [fst snd].
    destruct (find _ _); repeat split; discriminate.
  - unfold Flat.handle, Flat.app.
    destruct (route_cases env a (fun u => Flat.post_donations env u b) db)
      as [E|[[t E]|(t & u & _ & E)]]; rewrite E;
      try (right; repeat split; discriminate).
    rewrite flat_donations_run. cbn [fst snd].
    destruct (valid_donation b); [|right; repeat split; discriminate].
    left. split; [reflexivity|]. split; [|split; reflexivity].
    unfold flat_pushed. cbn. repeat split. right. eexists. repeat split.
Qed.

(** X2.  Whatever the request, the relational server either answers 201
    after exactly one [INSERT] (one table got one row at its end under the
    next rowid, which is the id the answer reports; the other four tables
    are untouched), or it answers something else and leaves every table
    exactly as it was. *)
Theorem rel_request_atomic (env : Env) (req : Request)
    (db : Rel.Database) :
  let out := Rel.handle env req db in
  let r := fst (fst out) in
  let db' := snd (fst out) in
  (status r = 201 /\
   (exists i, reported_id r = Some i /\ rel_inserted i db db') /\
   List.length (filter is_write (snd out)) = 1%nat) \/
  (status r <> 201 /\ db' = db /\ filter is_write (snd out) = []).
Proof.
  cbv zeta. destruct req as [b|b|a|a b|a b|a b|a b].
  - rewrite rel_register_run. cbv zeta.
    destruct (valid_registration b);
      [|right; repeat split; discriminate].
    destruct (existsb _ _); [right; repeat split; discriminate|].
    left. split; [reflexivity|]. split; [|reflexivity].
    eexists. split; [reflexivity|]. left. cbn. repeat split.
    eexists. repeat split.
  - rewrite rel_login_run. cbv zeta. right.
    destruct (valid_login b); [|repeat split; discriminate].
    destruct (find _ _) as [u|]; [|repeat split; discriminate].
    destruct (bcrypt_compare _ _); repeat split; discriminate.
  - right. unfold Rel.handle, Rel.app.
    destruct (route_cases env a Rel.get_dashboard db)
      as [E|[[t E]|(t & u & _ & E)]]; rewrite E;
      try (repeat split; discriminate).
    rewrite rel_dashboard_run. cbn [fst snd].
    destruct (find _ _); [destruct (rel_reach _ _)|];
      repeat split; discriminate.
  - unfold Rel.handle, Rel.app.
    destruct (route_cases env a (fun u => Rel.post_donations env u b) db)
      as [E|[[t E]|(t & u & _ & E)]]; rewrite E;
      try (right; repeat split; discriminate).
    rewrite rel_donations_run. cbn [fst snd].
    destruct (valid_donation b); [|right; repeat split; discriminate].
    destruct (PrimFloat.is_nan _); [right; repeat split; discriminate|].
    left. split; [reflexivity|]. split; [|reflexivity].
    eexists. split; [reflexivity|]. right; left. cbn. repeat split.
    eexists. repeat split.
  - unfold Rel.handle, Rel.app.
    destruct (route_cases env a (fun u => Rel.post_conversions env u b) db)
      as [E|[[t E]|(t & u & _ & E)]]; rewrite E;
      try (right; repeat split; discriminate).
    rewrite rel_conversions_run. cbn [fst snd].
    destruct (valid_conversion b); [|right; repeat split; discriminate].
    left. split; [reflexivity|]. split; [|reflexivity].
    eexists. split; [reflexivity|]. right; right; left. cbn. repeat split.
    eexists. repeat split.
  - unfold Rel.handle, Rel.app.
    destruct (route_cases env a (fun u => Rel.post_media env u b) db)
      as [E|[[t E]|(t & u & _ & E)]]; rewrite E;
      try (right; repeat split; discriminate).
    rewrite rel_media_run. cbn [fst snd].
    destruct (valid_media b); [|right; repeat split; discriminate].
    left. split; [reflexivity|]. split; [|reflexivity].
    eexists. split; [reflexivity|]. right; right; right; left. cbn.
    repeat split. eexists. repeat split.
  - unfold Rel.handle, Rel.app.
    destruct (route_cases env a (fun u => Rel.post_campaigns env u b) db)
      as [E|[[t E]|(t & u & _ & E)]]; rewrite E;
      try (right; repeat split; discriminate).
    rewrite rel_campaigns_run. cbn [fst snd].
    destruct (valid_campaign b); [|right; repeat split; discriminate].
    left. split; [reflexivity|]. split; [|reflexivity].
    eexists. split; [reflexivity|]. right; right; right; right. cbn.
    repeat split. eexists. repeat split.
Qed.

End Atomic.

(** ** Invariants of the stored users and ids *)

Lemma NoDup_snoc {A} (l : list A) (x : A) :
  NoDup l -> ~ In x l -> NoDup (l ++ [x]).
Proof.
  intros Hl Hx. apply NoDup_app; [exact Hl | repeat constructor; auto |].
  intros y Hy [<-|[]]. contradiction.
Qed.

Lemma existsb_email_false (e : string) (us : list User.t) :
  existsb (fun u => String.eqb (User.email u) e) us = false ->
  ~ In e (map User.email us).
Proof. intros H Hin. apply existsb_email in Hin. congruence. Qed.

Section Invariants.
Context {R : Runtime}.

(** A request leaves the users alone or appends one, under an email that
    was not stored. *)
Lemma flat_users_step (env : Env) (req : Request) (db : Flat.Database) :
  Flat.users (snd (fst (Flat.handle env req db))) = Flat.users db \/
  exists u,
    Flat.users (snd (fst (Flat.handle env req db))) = Flat.users db ++ [u] /\
    ~ In (User.email u) (map User.email (Flat.users db)).
Proof.
  destruct req as [b|b|a|a b|a b|a b|a b]; try (left; reflexivity).
  - rewrite flat_register_run. cbv zeta.
    destruct (valid_registration b); [|left; reflexivity].
    destruct (existsb _ _) eqn:Hex; [left; reflexivity|].
    right. eexists. split; [reflexivity|].
    now apply existsb_email_false.
  - left. now rewrite flat_login_state.
  - left. unfold Flat.handle, Flat.app.
    destruct (route_cases env a Flat.get_dashboard db)
      as [E|[[t E]|(t & u & _ & E)]]; rewrite E; try reflexivity.
    cbn [fst snd]. now rewrite flat_dashboard_state.
  - left. unfold Flat.handle, Flat.app.
    destruct (route_cases env a (fun u => Flat.post_donations env u b) db)
      as [E|[[t E]|(t & u & _ & E)]]; rewrite E; try reflexivity.
    cbn [fst snd]. rewrite flat_donations_run.
    destruct (valid_donation b); reflexivity.
Qed.

Lemma rel_users_step (env : Env) (req : Request) (db : Rel.Database) :
  Rel.rows (Rel.users (snd (fst (Rel.handle env req db))))
    = Rel.rows (Rel.users db) \/
  exists u,
    Rel.rows (Rel.users (snd (fst (Rel.handle env req db))))
      = Rel.rows (Rel.users db) ++ [u] /\
    ~ In (User.email u) (map User.email (Rel.rows (Rel.users db))).
Proof.
  destruct req as [b|b|a|a b|a b|a b|a b].
  - rewrite rel_register_run. cbv zeta.
    destruct (valid_registration b); [|left; reflexivity].
    destruct (existsb _ _) eqn:Hex; [left; reflexivity|].
    right. eexists. split; [reflexivity|].
    now apply existsb_email_false.
  - left. now rewrite rel_login_state.
  - left. unfold Rel.handle, Rel.app.
    destruct (route_cases env a Rel.get_dashboard db)
      as [E|[[t E]|(t & u & _ & E)]]; rewrite E; try reflexivity.
    cbn [fst snd]. now rewrite rel_dashboard_state.
  - left. unfold Rel.handle, Rel.app.
    destruct (route_cases env a (fun u => Rel.post_donations env u b) db)
      as [E|[[t E]|(t & u & _ & E)]]; rewrite E; try reflexivity.
    cbn [fst snd]. rewrite rel_donations_run.
    destruct (valid_donation b); [|reflexivity].
    destruct (PrimFloat.is_nan _); reflexivity.
  - left. unfold Rel.handle, Rel.app.
    destruct (route_cases env a (fun u => Rel.post_conversions env u b) db)
      as [E|[[t E]|(t & u & _ & E)]]; rewrite E; try reflexivity.
    cbn [fst snd]. rewrite rel_conversions_run.
    destruct (valid_conversion b); reflexivity.
  - left. unfold Rel.handle, Rel.app.
    destruct (route_cases env a (fun u => Rel.post_media env u b) db)
      as [E|[[t E]|(t & u & _ & E)]]; rewrite E; try reflexivity.
    cbn [fst snd]. rewrite rel_media_run.
    destruct (valid_media b); reflexivity.
  - left. unfold Rel.handle, Rel.app.
    destruct (route_cases env a (fun u => Rel.post_campaigns env u b) db)
      as [E|[[t E]|(t & u & _ & E)]]; rewrite E; try reflexivity.
    cbn [fst snd]. rewrite rel_campaigns_run.
    destruct (valid_campaign b); reflexivity.
Qed.

(** A registration under an email that is not stored passes its checks
    and leaves the store as it was. *)
Lemma flat_checks_pass (b : RegisterBody.t) (e : string)
    (db : Flat.Database) :
  valid_registration b = true ->
  RegisterBody.email b = Some e ->
  ~ In e (map User.email (Flat.users db)) ->
  Flat.register_checks b db
    = (inr tt, db, [Hash (JS.or_empty (RegisterBody.password b))]).
Proof.
  intros Hv He Hnew. unfold Flat.register_checks.
  unfold valid_registration in Hv.
  apply andb_true_iff in Hv as [Hv Hp].
  apply andb_true_iff in Hv as [Hv Hpw].
  apply andb_true_iff in Hv as [Hem Hnm].
  rewrite Hem, Hnm, Hpw. cbn [negb orb]. cbv zeta.
  apply negb_true_iff in Hp. rewrite Hp.
  unfold bind, get. rewrite He. cbn [JS.or_empty].
  apply find_email_none in Hnew. now rewrite Hnew.
Qed.

(** What the second part of a registration does to the flat document:
    it appends, whatever is stored. *)
Lemma flat_stores_run (env : Env) (b : RegisterBody.t)
    (db : Flat.Database) :
  let e := JS.or_empty (RegisterBody.email b) in
  let i := Flat.lastId db + 1 in
  let name := JS.or_empty (RegisterBody.name b) in
  run (Flat.register_stores env b) db =
    (json 201
       (Session "User created successfully"
          (jwt_sign {| userId := i; email := e |} (seconds env))
          {| pu_id := i; pu_email := e; pu_name := name;
             pu_created_at := None |}),
     Flat.set_users
       (Flat.users db ++
          [{| User.id := i; User.email := e; User.name := name;
              User.password :=
                bcrypt_hash (salt env) (JS.or_empty (RegisterBody.password b));
              User.created_at := now env |}])
       (Flat.set_lastId i db),
     [Write "data.json"; Sign {| userId := i; email := e |}]).
Proof. reflexivity. Qed.

(** What the second part of a registration does to the users table: the
    [INSERT] is refused when the email is stored by then. *)
Lemma rel_stores_users (env : Env) (b : RegisterBody.t)
    (db : Rel.Database) :
  Rel.rows (Rel.users (snd (fst (run (Rel.register_stores env b) db))))
    = Rel.rows (Rel.users db) \/
  exists u,
    Rel.rows (Rel.users (snd (fst (run (Rel.register_stores env b) db))))
      = Rel.rows (Rel.users db) ++ [u] /\
    ~ In (User.email u) (map User.email (Rel.rows (Rel.users db))).
Proof.
  unfold Rel.register_stores, run, bind, Rel.dbRun, Rel.insert_user.
  destruct (existsb _ _) eqn:Hex; [left; reflexivity|].
  right. eexists. split; [reflexivity|].
  now apply existsb_email_false.
Qed.

Lemma rel_turn_users (t : Turn) (db : Rel.Database) :
  Rel.rows (Rel.users (Rel.take_turn t db)) = Rel.rows (Rel.users db) \/
  exists u,
    Rel.rows (Rel.users (Rel.take_turn t db))
      = Rel.rows (Rel.users db) ++ [u] /\
    ~ In (User.email u) (map User.email (Rel.rows (Rel.users db))).
Proof.
  destruct t as [env req|env b]; [apply rel_users_step|apply rel_stores_users].
Qed.

(** X3.  Served one after the other, no series of requests ever stores two
    users under one email, in either server: if the stored emails are
    pairwise distinct before, they are pairwise distinct after.  The
    registration handler, though, gives up control at [await bcrypt.hash]
    between its lookup and its write, and other requests are served
    there.  In the
    relational server the emails stay pairwise distinct under every
    schedule of whole requests and resumed registrations, because the
    [INSERT] itself is refused on a stored email.  In the flat-document
    server nothing but the lookup enforces it: two valid registrations
    under one new email that both pass their checks before either resumes
    are both answered 201 and both stored, under different ids, and the
    stored emails are no longer pairwise distinct. *)
Theorem emails_stay_unique :
  (forall (reqs : list (Env * Request)) db,
     NoDup (map User.email (Flat.users db)) ->
     NoDup (map User.email (Flat.users (Flat.serve reqs db)))) /\
  (forall (reqs : list (Env * Request)) db,
     NoDup (map User.email (Rel.rows (Rel.users db))) ->
     NoDup (map User.email (Rel.rows (Rel.users (Rel.serve reqs db))))) /\
  (forall (turns : list Turn) db,
     NoDup (map User.email (Rel.rows (Rel.users db))) ->
     NoDup (map User.email (Rel.rows (Rel.users (Rel.take_turns turns db))))) /\
  (forall env1 env2 b1 b2 e db,
     valid_registration b1 = true ->
     valid_registration b2 = true ->
     RegisterBody.email b1 = Some e ->
     RegisterBody.email b2 = Some e ->
     ~ In e (map User.email (Flat.users db)) ->
     let db1 := Flat.take_turn (Resumed env1 b1) db in
     let db2 := Flat.take_turn (Resumed env2 b2) db1 in
     fst (Flat.register_checks b1 db) = (inr tt, db) /\
     fst (Flat.register_checks b2 db) = (inr tt, db) /\
     status (fst (fst (run (Flat.register_stores env1 b1) db))) = 201 /\
     status (fst (fst (run (Flat.register_stores env2 b2) db1))) = 201 /\
     (exists u1 u2,
        Flat.users db2 = Flat.users db ++ [u1; u2] /\
        User.email u1 = e /\ User.email u2 = e /\
        User.id u1 <> User.id u2) /\
     ~ NoDup (map User.email (Flat.users db2))).
Proof.
  split; [|split; [|split]].
  - induction reqs as [|[env req] reqs IH]; intros db H; [exact H|].
    apply IH; cbn [fst snd].
    destruct (flat_users_step env req db) as [->|(u & -> & Hu)];
      [exact H|]. rewrite map_app. now apply NoDup_snoc.
  - induction reqs as [|[env req] reqs IH]; intros db H; [exact H|].
    apply IH; cbn [fst snd].
    destruct (rel_users_step env req db) as [->|(u & -> & Hu)];
      [exact H|]. rewrite map_app. now apply NoDup_snoc.
  - induction turns as [|t turns IH]; intros db H; [exact H|].
    apply IH.
    destruct (rel_turn_users t db) as [->|(u & -> & Hu)];
      [exact H|]. rewrite map_app. now apply NoDup_snoc.
  - intros env1 env2 b1 b2 e db Hv1 Hv2 He1 He2 Hnew db1 db2.
    rewrite (flat_checks_pass b1 e db Hv1 He1 Hnew).
    rewrite (flat_checks_pass b2 e db Hv2 He2 Hnew).
    subst db2 db1. unfold Flat.take_turn. rewrite !flat_stores_run.
    cbv zeta. cbn [fst snd status json Flat.users Flat.set_users
                   Flat.set_lastId Flat.lastId].
    rewrite He1, He2. cbn [JS.or_empty].
    repeat split.
    + eexists _, _. split; [now rewrite <- app_assoc|].
      cbn [User.email User.id]. repeat split. lia.
    + rewrite <- app_assoc, map_app. cbn [map app User.email].
      intros Hnd. apply NoDup_remove_2 in Hnd.
      apply Hnd. rewrite in_app_iff. right. now left.
Qed.

(** One request keeps the ids of the flat document fresh. *)
Lemma flat_ids_step (env : Env) (req : Request) (db : Flat.Database) :
  flat_ids_fresh db ->
  flat_ids_fresh (snd (fst (Flat.handle env req db))).
Proof.
  intros [Hnd Hb].
  assert (Hnew : forall db',
             Flat.lastId db' = Flat.lastId db + 1 ->
             Permutation (flat_ids db') (Flat.lastId db' :: flat_ids db) ->
             flat_ids_fresh db').
  { intros db' Hl Hp. split.
    - eapply Permutation_NoDup; [symmetry; exact Hp|].
      constructor; [|exact Hnd]. intros Hin.
      rewrite Forall_forall in Hb. specialize (Hb _ Hin). lia.
    - eapply Permutation_Forall; [symmetry; exact Hp|].
      constructor; [lia|]. eapply Forall_impl; [|exact Hb].
      cbn. intros; lia. }
  destruct req as [b|b|a|a b|a b|a b|a b]; try (now split).
  - rewrite flat_register_run. cbv zeta.
    destruct (valid_registration b); [|now split].
    destruct (existsb _ _); [now split|]. cbn [fst snd].
    apply Hnew; [reflexivity|]. unfold flat_ids. cbn.
    rewrite map_app, <- app_assoc. cbn.
    symmetry. apply Permutation_middle.
  - rewrite flat_login_state. now split.
  - unfold Flat.handle, Flat.app.
    destruct (route_cases env a Flat.get_dashboard db)
      as [E|[[t E]|(t & u & _ & E)]]; rewrite E; try (now split).
    cbn [fst snd]. rewrite flat_dashboard_state. now split.
  - unfold Flat.handle, Flat.app.
    destruct (route_cases env a (fun u => Flat.post_donations env u b) db)
      as [E|[[t E]|(t & u & _ & E)]]; rewrite E; try (now split).
    cbn [fst snd]. rewrite flat_donations_run.
    destruct (valid_donation b); [|now split]. cbn [fst snd].
    apply Hnew; [reflexivity|]. unfold flat_ids. cbn.
    rewrite map_app, <- !app_assoc. cbn.
    etransitivity; [|symmetry; apply Permutation_middle].
    apply Permutation_app_head. symmetry. apply Permutation_middle.
Qed.

(** X4.  In the flat-document server one counter numbers the records of
    all five arrays: if no id is used twice and none exceeds [lastId]
    before a series of requests, the same holds after it.  No two records,
    of whatever kind, ever share an id. *)
Theorem flat_ids_stay_fresh (reqs : list (Env * Request))
    (db : Flat.Database) :
  flat_ids_fresh db -> flat_ids_fresh (Flat.serve reqs db).
Proof.
  revert db. induction reqs as [|[env req] reqs IH]; intros db H;
    [exact H|].
  apply IH. cbn [fst snd]. now apply flat_ids_step.
Qed.

End Invariants.

(** ** Registration, then login or dashboard *)

Lemma find_app_none {A} (f : A -> bool) (l l' : list A) :
  find f l = None -> find f (l ++ l') = find f l'.
Proof.
  induction l as [|x l IH]; simpl; [reflexivity|].
  destruct (f x); [discriminate | exact IH].
Qed.

Lemma find_app_some {A} (f : A -> bool) (l l' : list A) (x : A) :
  find f l = Some x -> find f (l ++ l') = Some x.
Proof.
  induction l as [|y l IH]; simpl; [discriminate|].
  destruct (f y); [trivial | exact IH].
Qed.


Lemma find_id_ahead (us : list User.t) (k : Z) :
  Forall (fun u => User.id u <= k) us ->
  find (fun u => User.id u =? k + 1) us = None.
Proof.
  induction 1 as [|u us Hu _ IH]; simpl; [reflexivity|].
  destruct (Z.eqb_spec (User.id u) (k + 1)); [lia | exact IH].
Qed.



Section AfterRegistration.
Context {R : Runtime} {L : RuntimeLaws R}.

Lemma flat_serve_users_grow (reqs : list (Env * Request))
    (db : Flat.Database) :
  exists extra, Flat.users (Flat.serve reqs db) = Flat.users db ++ extra.
Proof.
  revert db. induction reqs as [|[env req] reqs IH]; intros db.
  - exists []. now rewrite app_nil_r.
  - cbn [Flat.serve fold_left fst snd].
    destruct (flat_users_grow env req db) as [x Hx].
    destruct (IH (snd (fst (Flat.handle env req db)))) as [y Hy].
    exists (x ++ y). unfold Flat.serve in Hy. rewrite Hy, Hx.
    now rewrite app_assoc.
Qed.

Lemma rel_serve_users_grow (reqs : list (Env * Request))
    (db : Rel.Database) :
  exists extra,
    Rel.rows (Rel.users (Rel.serve reqs db))
      = Rel.rows (Rel.users db) ++ extra.
Proof.
  revert db. induction reqs as [|[env req] reqs IH]; intros db.
  - exists []. now rewrite app_nil_r.
  - cbn [Rel.serve fold_left fst snd].
    destruct (rel_users_grow env req db) as [x Hx].
    destruct (IH (snd (fst (Rel.handle env req db)))) as [y Hy].
    exists (x ++ y). unfold Rel.serve in Hy. rewrite Hy, Hx.
    now rewrite app_assoc.
Qed.


End AfterRegistration.

(** ** What a login answers *)

Lemma find_email_found (e : string) (us : list User.t) (u : User.t) :
  find (fun u => String.eqb (User.email u) e) us = Some u ->
  In u us /\ User.email u = e.
Proof.
  intros H. apply find_some in H as [Hin He].
  split; [exact Hin | now apply String.eqb_eq].
Qed.

Section Login.
Context {R : Runtime}.

(** X6.  [POST /api/login] never changes the store, in either server.  It
    signs a token only for a stored user with the submitted email whose
    stored hash [bcrypt.compare] accepted, and answers 200 with that user.
    Every other login with both fields present gets the same 401 answer,
    whether the email is unknown or the password wrong; a login with a
    field missing gets 400. *)
Theorem login_answers (env : Env) (b : LoginBody.t) :
  (forall db,
     let out := Flat.handle env (PostLogin b) db in
     snd (fst out) = db /\
     login_answer env b (Flat.users db) (fst (fst out)) (snd out)) /\
  (forall db,
     let out := Rel.handle env (PostLogin b) db in
     snd (fst out) = db /\
     login_answer env b (Rel.rows (Rel.users db)) (fst (fst out)) (snd out)).
Proof.
  split; intros db; cbv zeta.
  - split; [apply flat_login_state|].
    rewrite flat_login_run. cbv zeta. unfold login_answer.
    destruct (valid_login b); [|right; split; reflexivity].
    destruct (find _ _) as [u|] eqn:Hu; [|right; split; reflexivity].
    destruct (bcrypt_compare _ _) eqn:Hc; [|right; split; reflexivity].
    left. exists u. destruct (find_email_found _ _ _ Hu) as [Hin He].
    repeat split; assumption.
  - split; [apply rel_login_state|].
    rewrite rel_login_run. cbv zeta. unfold login_answer.
    destruct (valid_login b); [|right; split; reflexivity].
    destruct (find _ _) as [u|] eqn:Hu; [|right; split; reflexivity].
    destruct (bcrypt_compare _ _) eqn:Hc; [|right; split; reflexivity].
    left. exists u. destruct (find_email_found _ _ _ Hu) as [Hin He].
    repeat split; assumption.
Qed.

End Login.

Section RegisteredDashboard.
Context {R : Runtime} {L : RuntimeLaws R}.

(** X7.  The token a registration returns opens the dashboard of the
    account just created.  If no stored user id is ahead of the id counter,
    then after a registration answered 201, and any requests in between, a
    [GET /api/dashboard] carrying [Bearer <token>] within the token's
    lifetime is answered 200 and shows the id, email and name that the
    registration answered with.  On the relational server there is one
    exception: when the engine's [SUM] over the reach estimates recorded
    for the account in between raises [integer overflow], the answer is
    500. *)
Theorem dashboard_after_registration (env1 env2 : Env)
    (b : RegisterBody.t) (between : list (Env * Request))
    (message token : string) (user : PublicUser) :
  seconds env1 <= seconds env2 < seconds env1 + token_lifetime ->
  (forall db,
     Forall (fun u => User.id u <= Flat.lastId db) (Flat.users db) ->
     fst (fst (Flat.handle env1 (PostRegister b) db))
       = json 201 (Session message token user) ->
     let db1 :=
       Flat.serve between
         (snd (fst (Flat.handle env1 (PostRegister b) db))) in
     exists st rc,
       Flat.handle env2 (GetDashboard (Client.authorization token)) db1
         = (json 200 (Dashboard user st rc), db1, [Verify token])) /\
  (forall db,
     Forall (fun u => User.id u <= Rel.seq (Rel.users db))
       (Rel.rows (Rel.users db)) ->
     fst (fst (Rel.handle env1 (PostRegister b) db))
       = json 201 (Session message token user) ->
     let db1 :=
       Rel.serve between
         (snd (fst (Rel.handle env1 (PostRegister b) db))) in
     let answer :=
       Rel.handle env2 (GetDashboard (Client.authorization token)) db1 in
     match rel_reach db1 (pu_id user) with
     | Some _ =>
         exists shown st rc,
           answer = (json 200 (Dashboard shown st rc), db1, [Verify token]) /\
           pu_id shown = pu_id user /\ pu_email shown = pu_email user /\
           pu_name shown = pu_name user
     | None =>
         answer
           = (json 500 (Error "Internal server error"), db1, [Verify token])
     end).
Proof.
  intros Ht. split; intros db Hids.
  - rewrite flat_register_run. cbv zeta.
    destruct (valid_registration b); [|discriminate].
    destruct (existsb _ _); [discriminate|]. cbn [fst snd].
    intros E. injection E as _ <- <-.
    destruct (flat_serve_users_grow between
                (Flat.set_users
                   (Flat.users db ++
                    [{| User.id := Flat.lastId db + 1;
                        User.email := JS.or_empty (RegisterBody.email b);
                        User.name := JS.or_empty (RegisterBody.name b);
                        User.password :=
                          bcrypt_hash (salt env1)
                            (JS.or_empty (RegisterBody.password b));
                        User.created_at := now env1 |}])
                   (Flat.set_lastId (Flat.lastId db + 1) db)))
      as [extra Hextra].
    cbn [Flat.users Flat.set_users] in Hextra.
    unfold Flat.handle at 1, Flat.app, Client.authorization.
    rewrite (route_ok env2 _ _ _ _ _ (bearer_of_signed env2 _ _ Ht)).
    rewrite flat_dashboard_run, Hextra, <- app_assoc. cbn [userId].
    rewrite (find_app_none _ _ _ (find_id_ahead _ _ Hids)).
    cbn [find app User.id]. rewrite Z.eqb_refl. cbn [fst snd].
    eexists _, _. reflexivity.
  - rewrite rel_register_run. cbv zeta.
    destruct (valid_registration b); [|discriminate].
    destruct (existsb _ _); [discriminate|]. cbn [fst snd].
    intros E. injection E as _ <- <-.
    destruct (rel_serve_users_grow between
                (Rel.set_users
                   {| Rel.rows :=
                        Rel.rows (Rel.users db) ++
                        [{| User.id := Rel.seq (Rel.users db) + 1;
                            User.email := JS.or_empty (RegisterBody.email b);
                            User.name := JS.or_empty (RegisterBody.name b);
                            User.password :=
                              bcrypt_hash (salt env1)
                                (JS.or_empty (RegisterBody.password b));
                            User.created_at :=
                              Rel.current_timestamp (now env1) |}];
                      Rel.seq := Rel.seq (Rel.users db) + 1 |}
                   db))
      as [extra Hextra].
    cbn [Rel.users Rel.set_users Rel.rows] in Hextra.
    cbv zeta. unfold Rel.handle at 1 2, Rel.app, Client.authorization.
    rewrite (route_ok env2 _ _ _ _ _ (bearer_of_signed env2 _ _ Ht)).
    rewrite rel_dashboard_run, Hextra, <- app_assoc. cbn [userId pu_id].
    rewrite (find_app_none _ _ _ (find_id_ahead _ _ Hids)).
    cbn [find app User.id]. rewrite Z.eqb_refl.
    destruct (rel_reach _ _); cbn [fst snd]; [|reflexivity].
    eexists _, _, _. split; [reflexivity|]. repeat split.
Qed.

End RegisteredDashboard.

(** ** Whose records a dashboard shows *)

Lemma in_recent_flat {A} (p : A -> bool) (l : list A) (x : A) :
  In x (rev (firstn 10 (filter p l))) -> In x l /\ p x = true.
Proof.
  intros H. apply in_rev, in_firstn in H. now apply filter_In in H.
Qed.

Lemma in_recent_rel {A} (le : A -> A -> bool) (p : A -> bool)
    (l : list A) (x : A) :
  In x (firstn 10 (Rel.order_by le (filter p l))) -> In x l /\ p x = true.
Proof.
  intros H. apply in_firstn in H.
  apply (Permutation_in _ (order_by_perm le _)) in H.
  now apply filter_In in H.
Qed.

Section Privacy.
Context {R : Runtime}.

(** X8.  A dashboard shows only the caller's records.  Whenever either
    server answers [GET /api/dashboard] with a dashboard, the request's
    token verified to an identity whose id is the id of the user shown;
    that user is stored; and every row in the four recent lists is a stored
    row whose [user_id] is that id. *)
Theorem dashboard_shows_own_rows (env : Env) (h : option string)
    (r : Response) (tr : list Event) (pu : PublicUser) (st : Stats)
    (rc : Recent.t) :
  body r = Dashboard pu st rc ->
  (forall db db',
     Flat.handle env (GetDashboard h) db = (r, db', tr) ->
     (exists token user,
        authenticated env h token user /\ userId user = pu_id pu) /\
     (exists u, In u (Flat.users db) /\ public false u = pu) /\
     own_rows (pu_id pu) rc (Flat.donations db) (Flat.conversions db)
       (Flat.media db) (Flat.campaigns db)) /\
  (forall db db',
     Rel.handle env (GetDashboard h) db = (r, db', tr) ->
     (exists token user,
        authenticated env h token user /\ userId user = pu_id pu) /\
     (exists u, In u (Rel.rows (Rel.users db)) /\ public true u = pu) /\
     own_rows (pu_id pu) rc (Rel.rows (Rel.donations db))
       (Rel.rows (Rel.vegan_conversions db))
       (Rel.rows (Rel.media_shared db)) (Rel.rows (Rel.campaigns db))).
Proof.
  intros Hb. split; intros db db' H.
  - destruct (flat_dashboard_route env h db db' r tr pu st rc H Hb)
      as (t & user & Ha & Hrun & _).
    rewrite flat_dashboard_run in Hrun.
    destruct (find _ _) as [u|] eqn:Hu; injection Hrun as <- _;
      cbn in Hb; [|discriminate]. injection Hb as <- <- <-.
    pose proof (find_some_id _ _ _ Hu) as Hid.
    apply find_some in Hu as [Hin _]. cbn [pu_id public].
    split; [exists t, user; now split|].
    split; [exists u; now split|].
    unfold own_rows, flat_recent. cbn. rewrite Hid.
    repeat split; try (now apply in_recent_flat in H0);
      apply in_recent_flat in H0 as [_ H0]; now apply Z.eqb_eq in H0.
  - destruct (rel_dashboard_route env h db db' r tr pu st rc H Hb)
      as (t & user & Ha & Hrun & _).
    rewrite rel_dashboard_run in Hrun.
    destruct (find _ _) as [u|] eqn:Hu;
      [destruct (rel_reach db (userId user))|]; injection Hrun as <- _;
      cbn in Hb; try discriminate. injection Hb as <- <- <-.
    pose proof (find_some_id _ _ _ Hu) as Hid.
    apply find_some in Hu as [Hin _]. cbn [pu_id public].
    split; [exists t, user; now split|].
    split; [exists u; now split|].
    unfold own_rows, rel_recent. cbn. rewrite Hid.
    repeat split; try (now apply in_recent_rel in H0);
      apply in_recent_rel in H0 as [_ H0]; now apply Z.eqb_eq in H0.
Qed.

End Privacy.

(** ** A record changes its owner's dashboard only *)

Lemma filter_snoc_other {A} (p : A -> bool) (l : list A) (x : A) :
  p x = false -> filter p (l ++ [x]) = filter p l.
Proof. intros H. rewrite filter_snoc, H. apply app_nil_r. Qed.

Lemma filter_snoc_own {A} (p : A -> bool) (l : list A) (x : A) :
  p x = true -> filter p (l ++ [x]) = filter p l ++ [x].
Proof. intros H. now rewrite filter_snoc, H. Qed.

Lemma eqb_other (a b : Z) : a <> b -> (a =? b) = false.
Proof. apply Z.eqb_neq. Qed.

Section Isolation.
Context {R : Runtime}.

(** X9.  What one user records never shows on another user's dashboard.
    Whatever [user] posts, to whichever route (donations on either server;
    conversions, media and campaigns on the relational one) and whether it
    is accepted or not, the answer to the dashboard of a user with a
    different id is exactly what it was before. *)
Theorem records_stay_private (env : Env) (user other : Identity) :
  userId user <> userId other ->
  (forall b db,
     fst (fst (run (Flat.get_dashboard other)
                 (snd (fst (run (Flat.post_donations env user b) db)))))
       = fst (fst (run (Flat.get_dashboard other) db))) /\
  (forall b db,
     fst (fst (run (Rel.get_dashboard other)
                 (snd (fst (run (Rel.post_donations env user b) db)))))
       = fst (fst (run (Rel.get_dashboard other) db))) /\
  (forall b db,
     fst (fst (run (Rel.get_dashboard other)
                 (snd (fst (run (Rel.post_conversions env user b) db)))))
       = fst (fst (run (Rel.get_dashboard other) db))) /\
  (forall b db,
     fst (fst (run (Rel.get_dashboard other)
                 (snd (fst (run (Rel.post_media env user b) db)))))
       = fst (fst (run (Rel.get_dashboard other) db))) /\
  (forall b db,
     fst (fst (run (Rel.get_dashboard other)
                 (snd (fst (run (Rel.post_campaigns env user b) db)))))
       = fst (fst (run (Rel.get_dashboard other) db))).
Proof.
  intros Hne. apply eqb_other in Hne.
  split; [|split; [|split; [|split]]]; intros b db.
  - rewrite flat_donations_run.
    destruct (valid_donation b); [|reflexivity]. cbn [fst snd].
    rewrite !flat_dashboard_run.
    unfold flat_stats, flat_recent.
    cbn [Flat.users Flat.donations Flat.conversions Flat.media
         Flat.campaigns Flat.set_donations Flat.set_lastId].
    rewrite !filter_snoc_other by exact Hne.
    destruct (find _ _); reflexivity.
  - rewrite rel_donations_run.
    destruct (valid_donation b); [|reflexivity].
    destruct (PrimFloat.is_nan _); [reflexivity|]. cbn [fst snd].
    rewrite !rel_dashboard_run.
    unfold rel_stats, rel_recent, rel_reach.
    cbn [Rel.users Rel.donations Rel.vegan_conversions Rel.media_shared
         Rel.campaigns Rel.set_donations Rel.set_vegan_conversions
         Rel.set_media_shared Rel.set_campaigns Rel.rows].
    rewrite !filter_snoc_other by exact Hne.
    destruct (find _ _); [destruct (Rel.coalesce_sum_reach _)|];
      reflexivity.
  - rewrite rel_conversions_run.
    destruct (valid_conversion b); [|reflexivity]. cbn [fst snd].
    rewrite !rel_dashboard_run.
    unfold rel_stats, rel_recent, rel_reach.
    cbn [Rel.users Rel.donations Rel.vegan_conversions Rel.media_shared
         Rel.campaigns Rel.set_donations Rel.set_vegan_conversions
         Rel.set_media_shared Rel.set_campaigns Rel.rows].
    rewrite !filter_snoc_other by exact Hne.
    destruct (find _ _); [destruct (Rel.coalesce_sum_reach _)|];
      reflexivity.
  - rewrite rel_media_run.
    destruct (valid_media b); [|reflexivity]. cbn [fst snd].
    rewrite !rel_dashboard_run.
    unfold rel_stats, rel_recent, rel_reach.
    cbn [Rel.users Rel.donations Rel.vegan_conversions Rel.media_shared
         Rel.campaigns Rel.set_donations Rel.set_vegan_conversions
         Rel.set_media_shared Rel.set_campaigns Rel.rows].
    rewrite !filter_snoc_other by exact Hne.
    destruct (find _ _); [destruct (Rel.coalesce_sum_reach _)|];
      reflexivity.
  - rewrite rel_campaigns_run.
    destruct (valid_campaign b); [|reflexivity]. cbn [fst snd].
    rewrite !rel_dashboard_run.
    unfold rel_stats, rel_recent, rel_reach.
    cbn [Rel.users Rel.donations Rel.vegan_conversions Rel.media_shared
         Rel.campaigns Rel.set_donations Rel.set_vegan_conversions
         Rel.set_media_shared Rel.set_campaigns Rel.rows].
    rewrite !filter_snoc_other by exact Hne.
    destruct (find _ _); [destruct (Rel.coalesce_sum_reach _)|];
      reflexivity.
Qed.

(** X10.  On the relational server a recorded conversion raises the
    owner's [conversionCount] by one and [animalsImpact] by 365, and a
    recorded campaign raises [campaignCount] by one; every other statistic
    of the owner's next dashboard is what it was.  A recorded media post
    adds [parseInt(reach_estimate) || 0] to the reaches the engine sums:
    when that [SUM] succeeds the next dashboard shows one media post more
    and the new total, with every other statistic as it was; when it
    raises [integer overflow] the next dashboard is answered 500. *)
Theorem rel_counters_step (env : Env) (user : Identity) (st0 : Stats) :
  (forall b db,
     status (fst (fst (run (Rel.post_conversions env user b) db))) = 201 ->
     dashboard_stats (fst (fst (run (Rel.get_dashboard user) db)))
       = Some st0 ->
     dashboard_stats
       (fst (fst (run (Rel.get_dashboard user)
                    (snd (fst (run (Rel.post_conversions env user b) db))))))
       = Some (count_conversion st0)) /\
  (forall b db,
     status (fst (fst (run (Rel.post_campaigns env user b) db))) = 201 ->
     dashboard_stats (fst (fst (run (Rel.get_dashboard user) db)))
       = Some st0 ->
     dashboard_stats
       (fst (fst (run (Rel.get_dashboard user)
                    (snd (fst (run (Rel.post_campaigns env user b) db))))))
       = Some (count_campaign st0)) /\
  (forall b db,
     status (fst (fst (run (Rel.post_media env user b) db))) = 201 ->
     dashboard_stats (fst (fst (run (Rel.get_dashboard user) db)))
       = Some st0 ->
     let reaches :=
       map Media.reach_estimate
         (filter (fun m => Media.user_id m =? userId user)
            (Rel.rows (Rel.media_shared db))) in
     let next :=
       fst (fst (run (Rel.get_dashboard user)
                   (snd (fst (run (Rel.post_media env user b) db))))) in
     match
       Rel.sum_reach
         (reaches ++ [or_zero (parseInt (MediaBody.reach_estimate b))])
     with
     | Some total =>
         dashboard_stats next = Some (count_media (or_zero total) st0)
     | None => next = json 500 (Error "Internal server error")
     end).
Proof.
  split; [|split]; intros b db.
  - rewrite rel_conversions_run.
    destruct (valid_conversion b); [|discriminate]. intros _.
    cbn [fst snd]. rewrite !rel_dashboard_run.
    change (Rel.users (Rel.set_vegan_conversions _ db)) with (Rel.users db).
    change (rel_reach (Rel.set_vegan_conversions _ db) (userId user))
      with (rel_reach db (userId user)).
    destruct (find _ _) as [u|]; [|discriminate].
    destruct (rel_reach db (userId user)) as [reach|] eqn:Hreach;
      [|discriminate].
    unfold dashboard_stats. cbn [fst body json]. intros E.
    injection E as <-. f_equal.
    unfold rel_stats, count_conversion.
    change (rel_reach (Rel.set_vegan_conversions _ db) (userId user))
      with (rel_reach db (userId user)).
    cbn. rewrite filter_snoc_own by (cbn; apply Z.eqb_refl).
    rewrite length_app. cbn [List.length].
    f_equal; lia.
  - rewrite rel_campaigns_run.
    destruct (valid_campaign b); [|discriminate]. intros _.
    cbn [fst snd]. rewrite !rel_dashboard_run.
    change (Rel.users (Rel.set_campaigns _ db)) with (Rel.users db).
    change (rel_reach (Rel.set_campaigns _ db) (userId user))
      with (rel_reach db (userId user)).
    destruct (find _ _) as [u|]; [|discriminate].
    destruct (rel_reach db (userId user)) as [reach|] eqn:Hreach;
      [|discriminate].
    unfold dashboard_stats. cbn [fst body json]. intros E.
    injection E as <-. f_equal.
    unfold rel_stats, count_campaign.
    change (rel_reach (Rel.set_campaigns _ db) (userId user))
      with (rel_reach db (userId user)).
    cbn. rewrite filter_snoc_own by (cbn; apply Z.eqb_refl).
    rewrite length_app. cbn [List.length].
    f_equal; lia.
  - rewrite rel_media_run.
    destruct (valid_media b); [|discriminate]. intros _.
    cbn [fst snd]. rewrite !rel_dashboard_run.
    change (Rel.users (Rel.set_media_shared _ db)) with (Rel.users db).
    destruct (find _ _) as [u|]; [|discriminate].
    destruct (rel_reach db (userId user)) as [reach|] eqn:Hreach;
      [|discriminate].
    unfold dashboard_stats at 1. cbn [fst body json]. intros E.
    injection E as <-. cbv zeta.
    assert (Hnew :
              rel_reach
                (Rel.set_media_shared
                   {| Rel.rows :=
                        Rel.rows (Rel.media_shared db) ++
                        [{| Media.id := Rel.seq (Rel.media_shared db) + 1;
                            Media.user_id := userId user;
                            Media.platform :=
                              JS.or_empty (MediaBody.platform b);
                            Media.content_type :=
                              JS.or_empty (MediaBody.content_type b);
                            Media.reach_estimate :=
                              or_zero (parseInt (MediaBody.reach_estimate b));
                            Media.date := JS.or_empty (MediaBody.date b);
                            Media.url := JS.or_empty (MediaBody.url b);
                            Media.notes := JS.or_empty (MediaBody.notes b);
                            Media.created_at :=
                              Rel.current_timestamp (now env) |}];
                      Rel.seq := Rel.seq (Rel.media_shared db) + 1 |} db)
                (userId user)
              = Rel.sum_reach
                  (map Media.reach_estimate
                     (filter (fun m => Media.user_id m =? userId user)
                        (Rel.rows (Rel.media_shared db)))
                   ++ [or_zero (parseInt (MediaBody.reach_estimate b))])).
    { unfold rel_reach. cbn [Rel.media_shared Rel.set_media_shared Rel.rows].
      rewrite filter_snoc_own by (cbn; apply Z.eqb_refl).
      rewrite map_app. cbn [map Media.reach_estimate].
      destruct (map _ _); reflexivity. }
    rewrite Hnew.
    destruct (Rel.sum_reach _) as [total|] eqn:Hsum; [|reflexivity].
    unfold dashboard_stats. cbn [fst body json]. f_equal.
    unfold rel_stats, count_media. rewrite Hnew, Hreach.
    cbn. rewrite filter_snoc_own by (cbn; apply Z.eqb_refl).
    rewrite length_app. cbn [List.length].
    f_equal; lia.
Qed.

End Isolation.

(** ** The relational store holds numbers *)

Lemma or_zero_number (x : float) : PrimFloat.is_nan (or_zero x) = false.
Proof.
  unfold or_zero, JS.truthy.
  destruct (PrimFloat.is_zero x); [reflexivity|].
  destruct (PrimFloat.is_nan x) eqn:E; [reflexivity | exact E].
Qed.

Lemma Forall_snoc {A} (P : A -> Prop) (l : list A) (x : A) :
  Forall P l -> P x -> Forall P (l ++ [x]).
Proof. intros Hl Hx. apply Forall_app. split; [exact Hl | now constructor]. Qed.

Section Numbers.
Context {R : Runtime}.

Lemma rel_numbers_step (env : Env) (req : Request) (db : Rel.Database) :
  rel_numbers db -> rel_numbers (snd (fst (Rel.handle env req db))).
Proof.
  intros [Hd Hm].
  destruct req as [b|b|a|a b|a b|a b|a b].
  - rewrite rel_register_run. cbv zeta.
    destruct (valid_registration b); [|now split].
    destruct (existsb _ _); now split.
  - rewrite rel_login_state. now split.
  - unfold Rel.handle, Rel.app.
    destruct (route_cases env a Rel.get_dashboard db)
      as [E|[[t E]|(t & u & _ & E)]]; rewrite E; try (now split).
    cbn [fst snd]. rewrite rel_dashboard_state. now split.
  - unfold Rel.handle, Rel.app.
    destruct (route_cases env a (fun u => Rel.post_donations env u b) db)
      as [E|[[t E]|(t & u & _ & E)]]; rewrite E; try (now split).
    cbn [fst snd]. rewrite rel_donations_run.
    destruct (valid_donation b); [|now split].
    destruct (PrimFloat.is_nan _) eqn:Hn; [now split|].
    split; [|exact Hm]. cbn. now apply Forall_snoc.
  - unfold Rel.handle, Rel.app.
    destruct (route_cases env a (fun u => Rel.post_conversions env u b) db)
      as [E|[[t E]|(t & u & _ & E)]]; rewrite E; try (now split).
    cbn [fst snd]. rewrite rel_conversions_run.
    destruct (valid_conversion b); now split.
  - unfold Rel.handle, Rel.app.
    destruct (route_cases env a (fun u => Rel.post_media env u b) db)
      as [E|[[t E]|(t & u & _ & E)]]; rewrite E; try (now split).
    cbn [fst snd]. rewrite rel_media_run.
    destruct (valid_media b); [|now split].
    split; [exact Hd|]. cbn. apply Forall_snoc; [exact Hm|].
    apply or_zero_number.
  - unfold Rel.handle, Rel.app.
    destruct (route_cases env a (fun u => Rel.post_campaigns env u b) db)
      as [E|[[t E]|(t & u & _ & E)]]; rewrite E; try (now split).
    cbn [fst snd]. rewrite rel_campaigns_run.
    destruct (valid_campaign b); now split.
Qed.

(** X11.  The relational server never stores a NaN.  If no stored donation
    amount and no stored reach estimate is NaN before a series of requests,
    none is after it: a donation whose amount does not parse is refused by
    the [NOT NULL] column, and the media route stores
    [parseInt(reach_estimate) || 0], which turns NaN into 0. *)
Theorem rel_stores_no_nan (reqs : list (Env * Request))
    (db : Rel.Database) :
  rel_numbers db -> rel_numbers (Rel.serve reqs db).
Proof.
  revert db. induction reqs as [|[env req] reqs IH]; intros db H;
    [exact H|].
  apply IH. cbn [fst snd]. now apply rel_numbers_step.
Qed.

End Numbers.

(** ** What [authenticateToken] reads of the header *)

Lemma string_app_empty (s : string) : (s ++ "")%string = s.
Proof. induction s as [|c s IH]; simpl; [reflexivity | now rewrite IH]. Qed.

Lemma string_app_snoc (s r : string) (c : ascii) :
  ((s ++ String c "") ++ r)%string = (s ++ String c r)%string.
Proof. induction s as [|d s IH]; simpl; [reflexivity | now rewrite IH]. Qed.

Lemma split_space_word (w rest cur : string) :
  spaceless w = true ->
  JS.split_space_aux (w ++ String " " rest) cur
    = (cur ++ w)%string :: JS.split_space_aux rest "".
Proof.
  revert cur. induction w as [|c w IH]; simpl; intros cur H.
  - now rewrite string_app_empty.
  - apply andb_prop in H as [Hc Hw].
    destruct (Ascii.eqb c " "); [discriminate|].
    rewrite (IH _ Hw). now rewrite string_app_snoc.
Qed.

Lemma truthy_with_space (w rest : string) :
  JS.str_truthy (w ++ String " " rest) = true.
Proof. destruct w; reflexivity. Qed.

Section Scheme.
Context {R : Runtime}.

Lemma second_word (w t : string) :
  spaceless w = true -> spaceless t = true ->
  bearer_token (Some (w ++ " " ++ t)%string) = Some t.
Proof.
  intros Hw Ht. unfold bearer_token, JS.split_space.
  change (w ++ " " ++ t)%string with (w ++ String " " t)%string.
  rewrite truthy_with_space, (split_space_word _ _ _ Hw).
  now rewrite (split_spaceless _ _ Ht).
Qed.

Lemma second_word_of_more (w t junk : string) :
  spaceless w = true -> spaceless t = true ->
  bearer_token (Some (w ++ " " ++ t ++ " " ++ junk)%string) = Some t.
Proof.
  intros Hw Ht. unfold bearer_token, JS.split_space.
  change (w ++ " " ++ t ++ " " ++ junk)%string
    with (w ++ String " " (t ++ String " " junk))%string.
  rewrite truthy_with_space, (split_space_word _ _ _ Hw).
  now rewrite (split_space_word _ _ _ Ht).
Qed.

(** X12.  [authenticateToken] reads the second space-separated word of
    the [Authorization] header and nothing else: the scheme word is not
    compared with [Bearer], and whatever follows the token is ignored.  A
    header [<word> <token>], or [<word> <token> <anything>], is treated
    exactly as [Bearer <token>]. *)
Theorem scheme_is_not_checked {S : Type} (env : Env)
    (w t junk : string) (s : S) :
  spaceless w = true -> spaceless t = true ->
  authenticateToken env (Some (w ++ " " ++ t)%string) s
    = authenticateToken env (Some ("Bearer " ++ t)%string) s /\
  authenticateToken env (Some (w ++ " " ++ t ++ " " ++ junk)%string) s
    = authenticateToken env (Some ("Bearer " ++ t)%string) s.
Proof.
  intros Hw Ht. unfold authenticateToken.
  rewrite (second_word w t Hw Ht), (second_word_of_more w t junk Hw Ht).
  change ("Bearer " ++ t)%string with ("Bearer" ++ " " ++ t)%string.
  rewrite (second_word "Bearer" t eq_refl Ht). now split.
Qed.

End Scheme.

(** ** Seeding the demo account *)

Section Seeding.
Context {R : Runtime}.

(** A run of statements none of which fails or touches the users runs to
    the end and leaves the users as they were. *)
Lemma run_all_keeps_users (se : SeedEnv)
    (stmts : list (Z -> Rel.Database -> option (Z * Rel.Database))) :
  Forall (fun stmt =>
            forall t d, exists i d',
              stmt t d = Some (i, d') /\ Rel.users d' = Rel.users d) stmts ->
  forall first db,
    exists db',
      Rel.run_all se stmts first db = Some db' /\
      Rel.users db' = Rel.users db.
Proof.
  induction 1 as [|stmt stmts Hs _ IH]; intros first db.
  - exists db. now split.
  - destruct (Hs (clock se first) db) as (i & d & Hrun & Hu).
    destruct (IH (S first) d) as (db' & Hrest & Hu').
    exists db'. split; [|congruence].
    unfold Rel.run_all in *. cbn [List.length List.seq combine fold_left].
    cbn [fst snd]. rewrite Hrun. exact Hrest.
Qed.

(** X13.  Seeding the demo account is idempotent.  On the relational
    server [initializeDatabase] always succeeds, leaves the demo email
    stored, and run again (at another time) returns the store it is given;
    on the flat-document server a second [initializeDemoData] changes
    nothing and saves nothing.  A restart never duplicates the demo
    account or its records. *)
Theorem seeding_is_idempotent (se se' : SeedEnv) :
  (forall db,
     let db' := snd (fst (Flat.initializeDemoData se db)) in
     Flat.initializeDemoData se' db' = (inr tt, db', [])) /\
  (forall db,
     exists db',
       Rel.initializeDatabase se db = Some db' /\
       In "johndoe@gmail.com" (map User.email (Rel.rows (Rel.users db'))) /\
       Rel.initializeDatabase se' db' = Some db').
Proof.
  split; intros db.
  - cbv zeta.
    assert (Hne : Flat.users (snd (fst (Flat.initializeDemoData se db)))
                  <> []).
    { unfold Flat.initializeDemoData, bind, get.
      destruct (Flat.users db) as [|u us] eqn:Hu.
      - cbn. destruct (Flat.users db); discriminate.
      - cbn. rewrite Hu. discriminate. }
    unfold Flat.initializeDemoData at 1. unfold bind, get.
    destruct (Flat.users (snd (fst (Flat.initializeDemoData se db))));
      [now elim Hne | reflexivity].
  - assert (Hback : forall d,
              In "johndoe@gmail.com" (map User.email (Rel.rows (Rel.users d)))
              -> Rel.initializeDatabase se' d = Some d).
    { intros d Hin. unfold Rel.initializeDatabase.
      destruct (find_email_some _ _ Hin) as [u ->]. reflexivity. }
    unfold Rel.initializeDatabase at 1.
    destruct (find _ _) as [u|] eqn:Hf.
    + exists db.
      assert (Hin : In "johndoe@gmail.com"
                      (map User.email (Rel.rows (Rel.users db)))).
      { apply find_email_found in Hf as [Hin He].
        apply in_map_iff. now exists u. }
      split; [reflexivity|]. split; [exact Hin | now apply Hback].
    + unfold Rel.insert_user.
      destruct (existsb _ _) eqn:Hex.
      { apply existsb_email, find_email_some in Hex as [u Hu]. congruence. }
      cbn [Rel.append_row].
      match goal with
      | |- context [Rel.run_all se ?stmts 1 ?d1] =>
          destruct (run_all_keeps_users se stmts) with (first := 1%nat)
            (db := d1) as (db' & Hrun & Hu)
      end.
      { repeat constructor; intros t d; eexists _, _; split; reflexivity. }
      exists db'. split; [exact Hrun|].
      assert (Hin : In "johndoe@gmail.com"
                      (map User.email (Rel.rows (Rel.users db')))).
      { rewrite Hu. cbn. rewrite map_app. apply in_or_app. right. now left. }
      split; [exact Hin | now apply Hback].
Qed.

End Seeding.

(** ** The page against a server *)

Section Page.
Context {R : Runtime}.

Lemma session_ok_mono (users users' : list User.t) (stored : option string)
    (s : Client.State) :
  (forall u, In u users -> In u users') ->
  session_ok users stored s -> session_ok users' stored s.
Proof.
  intros Hincl [Hsync Hshown]. split; [exact Hsync|].
  destruct (Client.user s) as [shown|]; [|exact Hshown].
  destruct Hshown as (u & iat & Hin & Hs & Ht). exists u, iat. auto.
Qed.

Lemma signed_in_ok (users : list User.t) (stored : option string)
    (answer : option Response) (s : Client.State) :
  session_ok users stored s ->
  (forall r, answer = Some r -> Client.ok r = true ->
             session_body users (body r)) ->
  session_ok users stored (snd (Client.signed_in answer s)).
Proof.
  intros Hs Hbody. unfold Client.signed_in, Client.post.
  destruct answer as [r|]; [|exact Hs].
  destruct (Client.ok r) eqn:Hok; [|exact Hs].
  destruct (Hbody r eq_refl Hok) as (message & u & iat & Hin & ->).
  split; [reflexivity|]. exists u, iat. now repeat split.
Qed.

Lemma client_step_ok (users : list User.t) (stored : option string)
    (a : Client.Action) (answer : option Response) (s : Client.State) :
  session_ok users stored s ->
  (forall r, answer = Some r -> Client.ok r = true ->
             session_body users (body r)) ->
  session_ok users stored (client_step a answer s).
Proof.
  intros Hs Hbody. destruct a; try (now apply signed_in_ok).
  split; [reflexivity | now right].
Qed.

Lemma flat_answer (env : Env) (a : Client.Action) (req : Request)
    (db : Flat.Database) :
  client_request a = Some req ->
  Client.ok (fst (fst (Flat.handle env req db))) = true ->
  session_body (Flat.users (snd (fst (Flat.handle env req db))))
    (body (fst (fst (Flat.handle env req db)))).
Proof.
  destruct a as [e p|e n p|]; intros E; [| |discriminate];
    injection E as <-; unfold Client.login_request, Client.register_request.
  - rewrite flat_login_run. cbv zeta.
    destruct (valid_login _); [|discriminate].
    destruct (find _ _) as [u|] eqn:Hu; [|discriminate].
    destruct (bcrypt_compare _ _); [|discriminate]. intros _.
    apply find_email_found in Hu as [Hin _].
    eexists _, u, _. split; [exact Hin | reflexivity].
  - rewrite flat_register_run. cbv zeta.
    destruct (valid_registration _); [|discriminate].
    destruct (existsb _ _); [discriminate|]. intros _.
    cbn [fst snd].
    match goal with
    | |- context [Flat.set_users (_ ++ [?u0]) _] => eexists _, u0, _
    end.
    split; [|reflexivity]. cbn. apply in_or_app. right. now left.
Qed.

Lemma rel_answer (env : Env) (a : Client.Action) (req : Request)
    (db : Rel.Database) :
  client_request a = Some req ->
  Client.ok (fst (fst (Rel.handle env req db))) = true ->
  session_body (Rel.rows (Rel.users (snd (fst (Rel.handle env req db)))))
    (body (fst (fst (Rel.handle env req db)))).
Proof.
  destruct a as [e p|e n p|]; intros E; [| |discriminate];
    injection E as <-; unfold Client.login_request, Client.register_request.
  - rewrite rel_login_run. cbv zeta.
    destruct (valid_login _); [|discriminate].
    destruct (find _ _) as [u|] eqn:Hu; [|discriminate].
    destruct (bcrypt_compare _ _); [|discriminate]. intros _.
    apply find_email_found in Hu as [Hin _].
    eexists _, u, _. split; [exact Hin | reflexivity].
  - rewrite rel_register_run. cbv zeta.
    destruct (valid_registration _); [|discriminate].
    destruct (existsb _ _); [discriminate|]. intros _.
    cbn [fst snd].
    match goal with
    | |- context [Rel.set_users {| Rel.rows := _ ++ [?u0]; Rel.seq := _ |} _]
      => eexists _, u0, _
    end.
    split; [|reflexivity]. cbn. apply in_or_app. right. now left.
Qed.

Lemma flat_session_ok (acts : list (Env * bool * Client.Action))
    (stored : option string) (s : Client.State) (db : Flat.Database) :
  session_ok (Flat.users db) stored s ->
  session_ok (Flat.users (snd (flat_session acts s db))) stored
    (fst (flat_session acts s db)).
Proof.
  revert s db. induction acts as [|[[env delivered] a] acts IH];
    intros s db Hs; [exact Hs|].
  cbn [flat_session].
  destruct (client_request a) as [req|] eqn:Hreq;
    [destruct delivered|]; apply IH.
  - apply client_step_ok.
    + destruct (flat_users_grow env req db) as [extra ->].
      apply (session_ok_mono (Flat.users db)); [|exact Hs].
      intros u Hu. apply in_or_app. now left.
    + intros r E Hok. injection E as <-. now apply (flat_answer env a).
  - apply client_step_ok; [exact Hs | discriminate].
  - apply client_step_ok; [exact Hs | discriminate].
Qed.

Lemma rel_session_ok (acts : list (Env * bool * Client.Action))
    (stored : option string) (s : Client.State) (db : Rel.Database) :
  session_ok (Rel.rows (Rel.users db)) stored s ->
  session_ok (Rel.rows (Rel.users (snd (rel_session acts s db)))) stored
    (fst (rel_session acts s db)).
Proof.
  revert s db. induction acts as [|[[env delivered] a] acts IH];
    intros s db Hs; [exact Hs|].
  cbn [rel_session].
  destruct (client_request a) as [req|] eqn:Hreq;
    [destruct delivered|]; apply IH.
  - apply client_step_ok.
    + destruct (rel_users_grow env req db) as [extra ->].
      apply (session_ok_mono (Rel.rows (Rel.users db))); [|exact Hs].
      intros u Hu. apply in_or_app. now left.
    + intros r E Hok. injection E as <-. now apply (rel_answer env a).
  - apply client_step_ok; [exact Hs | discriminate].
  - apply client_step_ok; [exact Hs | discriminate].
Qed.

(** X14.  The page's session stays in order against either server.  From
    mount with whatever [localStorage] holds, after any series of logins,
    registrations and logouts, delivered or not, accepted or not: the token
    in memory is the one in [localStorage]; if a user is shown, that user
    is stored by the server and the token is one the server signed for that
    user's id and email; otherwise the token is the one found on mount, or
    none.  In particular an answer the server refuses never replaces the
    session, and the string [undefined] is never stored as a token. *)
Theorem page_session_in_order (acts : list (Env * bool * Client.Action))
    (stored : option string) :
  (forall db,
     let out := flat_session acts (Client.mount stored) db in
     session_ok (Flat.users (snd out)) stored (fst out)) /\
  (forall db,
     let out := rel_session acts (Client.mount stored) db in
     session_ok (Rel.rows (Rel.users (snd out))) stored (fst out)).
Proof.
  split; intros db; cbv zeta;
    [apply flat_session_ok | apply rel_session_ok];
    (split; [reflexivity | now left]).
Qed.

End Page.

(** ** An amount that is not a number *)

Lemma is_nan_spec (x : float) :
  PrimFloat.is_nan x = true <-> Prim2SF x = S754_nan.
Proof.
  unfold PrimFloat.is_nan. rewrite FloatAxioms.eqb_spec.
  destruct (Prim2SF x) as [s|s| |s m e]; unfold SFeqb, SFcompare.
  - split; discriminate.
  - destruct s; split; discriminate.
  - split; reflexivity.
  - destruct s; rewrite Z.compare_refl, Pos.compare_cont_refl;
      split; discriminate.
Qed.

Lemma add_nan (x y : float) :
  PrimFloat.is_nan x = true \/ PrimFloat.is_nan y = true ->
  PrimFloat.is_nan (x + y) = true.
Proof.
  rewrite !is_nan_spec, FloatAxioms.add_spec. unfold SF64add, SFadd.
  intros [-> | ->]; [reflexivity|].
  destruct (Prim2SF x); reflexivity.
Qed.

Lemma sum_nan_sticky (ds : list Donation.t) (z : float) :
  PrimFloat.is_nan z = true ->
  PrimFloat.is_nan
    (fold_left (fun sum d => (sum + Donation.amount d)%float) ds z) = true.
Proof.
  revert z. induction ds as [|d ds IH]; intros z Hz; [exact Hz|].
  cbn [fold_left]. apply IH, add_nan. now left.
Qed.

Lemma sum_nan_in (ds : list Donation.t) (d : Donation.t) (z : float) :
  In d ds -> PrimFloat.is_nan (Donation.amount d) = true ->
  PrimFloat.is_nan
    (fold_left (fun sum d => (sum + Donation.amount d)%float) ds z) = true.
Proof.
  revert z. induction ds as [|x ds IH]; intros z Hin Hd; [now elim Hin|].
  cbn [fold_left]. destruct Hin as [->|Hin].
  - apply sum_nan_sticky, add_nan. now right.
  - now apply IH.
Qed.

Section NotANumber.
Context {R : Runtime}.

Lemma flat_serve_keeps_donation (reqs : list (Env * Request))
    (d : Donation.t) (db : Flat.Database) :
  In d (Flat.donations db) -> In d (Flat.donations (Flat.serve reqs db)).
Proof.
  revert db. induction reqs as [|[env req] reqs IH]; intros db H; [exact H|].
  apply IH. cbn [fst snd].
  destruct (flat_donations_step env req db)
    as [->|(a & b & x & _ & _ & ->)]; [exact H|].
  apply in_or_app. now left.
Qed.

(** X15.  A donation whose amount is present but does not parse as a
    number (["abc"], [true], an object) is treated differently by the two
    servers.  The flat-document server accepts it and stores NaN: from then
    on, for as long as the process serves from that document, the
    [totalDonations] that the owner's dashboard computes is NaN, whatever
    is recorded later ([res.json] writes it as [null]).  The relational
    server refuses the same request and stores nothing. *)
Theorem unparsable_amount (env : Env) (user : Identity)
    (b : DonationBody.t) (between : list (Env * Request)) :
  PrimFloat.is_nan (JS.parseFloat (DonationBody.amount b)) = true ->
  (forall db,
     status (fst (fst (run (Flat.post_donations env user b) db))) = 201 ->
     let db1 :=
       Flat.serve between
         (snd (fst (run (Flat.post_donations env user b) db))) in
     forall st,
       dashboard_stats (fst (fst (run (Flat.get_dashboard user) db1)))
         = Some st ->
       PrimFloat.is_nan (totalDonations st) = true) /\
  (forall db,
     status (fst (fst (run (Rel.post_donations env user b) db))) <> 201 /\
     snd (fst (run (Rel.post_donations env user b) db)) = db).
Proof.
  intros Hnan. split; intros db.
  - rewrite flat_donations_run.
    destruct (valid_donation b); [|discriminate]. intros _. cbv zeta.
    cbn [fst snd]. intros st. rewrite flat_dashboard_run.
    destruct (find _ _) as [u|]; [|discriminate].
    unfold dashboard_stats. cbn [fst body json]. intros E.
    injection E as <-. unfold flat_stats. cbn [totalDonations].
    match goal with
    | |- context [Flat.set_donations (_ ++ [?d0]) _] =>
        apply (sum_nan_in _ d0); [|exact Hnan]
    end.
    apply filter_In. split; [|cbn; apply Z.eqb_refl].
    apply flat_serve_keeps_donation. cbn. apply in_or_app. right. now left.
  - rewrite rel_donations_run.
    destruct (valid_donation b); [|split; [discriminate | reflexivity]].
    rewrite Hnan. split; [discriminate | reflexivity].
Qed.

End NotANumber.

(** ** The donations the page lists *)

Section PageDonations.
Context {R : Runtime}.

(** X16.  Against the relational server the dashboard page lists the
    caller's three most recent donations (all of them when there are fewer
    than three), newest first in the engine's order of the [date] column
    (a date that looks like a number is stored as that number and sorts
    below every text) and then by creation time: the page's [slice(0, 3)]
    of the server's ten has as many rows as that, keeps the order and
    leaves out nothing more recent than what it lists. *)
Theorem page_lists_three_latest (env : Env) (h : option string)
    (db db' : Rel.Database) (r : Response) (tr : list Event)
    (pu : PublicUser) (st : Stats) (rc : Recent.t) :
  Rel.handle env (GetDashboard h) db = (r, db', tr) ->
  body r = Dashboard pu st rc ->
  let all := filter (fun d => Donation.user_id d =? pu_id pu)
               (Rel.rows (Rel.donations db)) in
  List.length (page_donations rc) = Nat.min 3 (List.length all) /\
  most_recent Rel.donation_order 3 all (page_donations rc).
Proof.
  intros H Hb all. subst all.
  destruct (rel_dashboard_route env h db db' r tr pu st rc H Hb)
    as (t & u & _ & Hrun & _).
  destruct (rel_dashboard_inv u db db' r [] pu st rc Hrun Hb)
    as (_ & _ & _ & -> & _ & _ & _ & _ & _ & Hd & _).
  unfold page_donations. rewrite Hd, firstn_firstn.
  change (Nat.min 3 10) with 3%nat. split.
  - rewrite length_firstn.
    now rewrite (Permutation_length (order_by_perm Rel.donation_order _)).
  - apply limit_most_recent; intros;
      try apply newer_first_total;
      eapply newer_first_trans; eassumption.
Qed.

End PageDonations.

(* ================================================================== *)
(** * The further properties at work *)
(* ================================================================== *)

(** After Alice, a second attempt on her email and Bob, one after the
    other, each server holds pairwise distinct emails.  When both
    registrations under Alice's email pass their checks on the empty store
    before either resumes, the relational server still holds pairwise
    distinct emails, and the flat-document server holds her email twice. *)
Lemma emails_stay_unique_witness :
  NoDup (map User.email
           (Flat.users
              (Flat.serve (R := plain_runtime) three_registrations
                 Flat.empty))) /\
  NoDup (map User.email
           (Rel.rows
              (Rel.users
                 (Rel.serve (R := plain_runtime) three_registrations
                    Rel.empty)))) /\
  NoDup (map User.email
           (Rel.rows
              (Rel.users
                 (Rel.take_turns (R := plain_runtime) both_resume
                    Rel.empty)))) /\
  fst (Flat.register_checks alice Flat.empty) = (inr tt, Flat.empty) /\
  fst (Flat.register_checks alice_again Flat.empty) = (inr tt, Flat.empty) /\
  ~ NoDup (map User.email
             (Flat.users
                (Flat.take_turns (R := plain_runtime) both_resume
                   Flat.empty))).
Proof.
  destruct (emails_stay_unique (R := plain_runtime))
    as (Hflat & Hrel & Hturns & Hrace).
  split; [apply (Hflat three_registrations Flat.empty); constructor|].
  split; [apply (Hrel three_registrations Rel.empty); constructor|].
  split; [apply (Hturns both_resume Rel.empty); constructor|].
  destruct (Hrace (at_time 0) (at_time 1000) alice alice_again
              "alice@example.com" Flat.empty
              eq_refl eq_refl eq_refl eq_refl (fun H : False => H))
    as (H1 & H2 & _ & _ & _ & Hdup).
  exact (conj H1 (conj H2 Hdup)).
Defined.

Lemma flat_ids_stay_fresh_witness :
  flat_ids_fresh
    (Flat.serve (R := plain_runtime)
       ((at_time 0, PostRegister alice) :: bob_and_a_donation) Flat.empty).
Proof.
  apply (flat_ids_stay_fresh (R := plain_runtime)).
  split; constructor.
Defined.


(** Alice registers and, twenty seconds and two requests later, opens her
    dashboard with the token she was given, on either server.  When the
    two requests record a reach of nine quintillion each, the relational
    server answers her dashboard with 500. *)
Lemma dashboard_after_registration_witness :
  (let db1 :=
     Flat.serve (R := plain_runtime) bob_and_a_donation
       (snd (fst (Flat.handle (R := plain_runtime) (at_time 0)
                    (PostRegister alice) Flat.empty))) in
   exists st rc,
     Flat.handle (R := plain_runtime) (at_time 20000)
       (GetDashboard (Client.authorization alice_token)) db1
     = (json 200 (Dashboard alice_public st rc), db1, [Verify alice_token])) /\
  (let db1 :=
     Rel.serve (R := plain_runtime) bob_and_a_donation
       (snd (fst (Rel.handle (R := plain_runtime) (at_time 0)
                    (PostRegister alice) Rel.empty))) in
   exists shown st rc,
     Rel.handle (R := plain_runtime) (at_time 20000)
       (GetDashboard (Client.authorization alice_token)) db1
     = (json 200 (Dashboard shown st rc), db1, [Verify alice_token]) /\
     pu_id shown = 1 /\ pu_email shown = "alice@example.com" /\
     pu_name shown = "Alice") /\
  (let db1 :=
     Rel.serve (R := plain_runtime) two_large_reaches
       (snd (fst (Rel.handle (R := plain_runtime) (at_time 0)
                    (PostRegister alice) Rel.empty))) in
   Rel.handle (R := plain_runtime) (at_time 20000)
     (GetDashboard (Client.authorization alice_token)) db1
   = (json 500 (Error "Internal server error"), db1, [Verify alice_token])).
Proof.
  split; [|split].
  - destruct (dashboard_after_registration (R := plain_runtime)
                (L := plain_lawful) (at_time 0) (at_time 20000) alice
                bob_and_a_donation "User created successfully" alice_token
                alice_public) as [Hflat _].
    { vm_compute. split; [discriminate | reflexivity]. }
    apply (Hflat Flat.empty); [constructor|].
    vm_compute. reflexivity.
  - destruct (dashboard_after_registration (R := plain_runtime)
                (L := plain_lawful) (at_time 0) (at_time 20000) alice
                bob_and_a_donation "User created successfully" alice_token
                alice_public) as [_ Hrel].
    { vm_compute. split; [discriminate | reflexivity]. }
    pose proof (Hrel Rel.empty (Forall_nil _) eq_refl) as H.
    cbv zeta in H.
    match type of H with
    | match ?x with _ => _ end =>
        assert (E : x = Some zero) by (vm_compute; reflexivity)
    end.
    rewrite E in H. exact H.
  - destruct (dashboard_after_registration (R := plain_runtime)
                (L := plain_lawful) (at_time 0) (at_time 20000) alice
                two_large_reaches "User created successfully" alice_token
                alice_public) as [_ Hrel].
    { vm_compute. split; [discriminate | reflexivity]. }
    pose proof (Hrel Rel.empty (Forall_nil _) eq_refl) as H.
    cbv zeta in H.
    match type of H with
    | match ?x with _ => _ end =>
        assert (E : x = None) by (vm_compute; reflexivity)
    end.
    rewrite E in H. exact H.
Defined.

(** The demo account's dashboard on the seeded flat document. *)
Lemma dashboard_shows_own_rows_witness :
  let db := Flat.seeded (R := plain_runtime) demo_seed in
  let out := Flat.handle (R := plain_runtime) (at_time 1000)
               (GetDashboard demo_bearer) db in
  exists pu st rc,
    body (fst (fst out)) = Dashboard pu st rc /\
    own_rows (pu_id pu) rc (Flat.donations db) (Flat.conversions db)
      (Flat.media db) (Flat.campaigns db).
Proof.
  intros db out.
  assert (Hb : body (fst (fst out))
               = Dashboard
                   {| pu_id := 1; pu_email := "johndoe@gmail.com";
                      pu_name := "John Doe"; pu_created_at := None |}
                   (flat_stats db 1) (flat_recent db 1))
    by (vm_compute; reflexivity).
  destruct (dashboard_shows_own_rows (R := plain_runtime)
              (at_time 1000) demo_bearer (fst (fst out)) (snd out)
              _ _ _ Hb) as [Hflat _].
  destruct (Hflat db (snd (fst out))) as (_ & _ & Hown).
  { unfold out. now destruct (Flat.handle _ _ db) as [[? ?] ?]. }
  eexists _, _, _. split; [exact Hb | exact Hown].
Defined.

(** Alice's donation leaves Bob's dashboard as it was. *)
Lemma records_stay_private_witness :
  let db :=
    Flat.serve (R := plain_runtime)
      [(at_time 0, PostRegister alice); (at_time 500, PostRegister bob)]
      Flat.empty in
  fst (fst (run (Flat.get_dashboard bob_identity)
              (snd (fst (run (Flat.post_donations (at_time 1000)
                                alice_identity
                                (donation (JS.Num 50) "2024-01-01")) db)))))
  = fst (fst (run (Flat.get_dashboard bob_identity) db)).
Proof.
  intros db.
  destruct (records_stay_private (R := plain_runtime) (at_time 1000)
              alice_identity bob_identity) as [Hflat _].
  { vm_compute. discriminate. }
  apply Hflat.
Defined.

(** Alice's first conversion: one person, 365 animals.  Her second media
    post with a reach of nine quintillion: the next dashboard is answered
    500. *)
Lemma rel_counters_step_witness :
  (let db := Rel.serve (R := plain_runtime) alice_registered Rel.empty in
   dashboard_stats
     (fst (fst (run (Rel.get_dashboard (R := plain_runtime) alice_identity)
                  (snd (fst (run (Rel.post_conversions (at_time 1000)
                                    alice_identity a_conversion) db))))))
   = Some (count_conversion (rel_stats (R := plain_runtime) db 1))) /\
  (let db :=
     Rel.serve (R := plain_runtime)
       (alice_registered
          ++ [(at_time 1000, PostMedia alice_bearer a_large_media)])
       Rel.empty in
   dashboard_stats
     (fst (fst (run (Rel.get_dashboard (R := plain_runtime) alice_identity)
                  db)))
   = Some (rel_stats (R := plain_runtime) db 1) /\
   fst (fst (run (Rel.get_dashboard (R := plain_runtime) alice_identity)
               (snd (fst (run (Rel.post_media (R := plain_runtime)
                                 (at_time 2000) alice_identity a_large_media)
                            db)))))
   = json 500 (Error "Internal server error")).
Proof.
  split.
  - intros db.
    destruct (rel_counters_step (R := plain_runtime) (at_time 1000)
                alice_identity (rel_stats (R := plain_runtime) db 1))
      as [Hconv _].
    apply Hconv; vm_compute; reflexivity.
  - intros db.
    assert (Hst : dashboard_stats
                    (fst (fst (run (Rel.get_dashboard (R := plain_runtime)
                                      alice_identity) db)))
                  = Some (rel_stats (R := plain_runtime) db 1))
      by (vm_compute; reflexivity).
    split; [exact Hst|].
    destruct (rel_counters_step (R := plain_runtime) (at_time 2000)
                alice_identity (rel_stats (R := plain_runtime) db 1))
      as (_ & _ & Hmedia).
    pose proof (Hmedia a_large_media db eq_refl Hst) as H.
    cbv zeta in H.
    match type of H with
    | match ?x with _ => _ end =>
        assert (E : x = None) by (vm_compute; reflexivity)
    end.
    rewrite E in H. exact H.
Defined.

(** Words where numbers are expected leave no NaN in the relational
    store. *)
Lemma rel_stores_no_nan_witness :
  rel_numbers (Rel.serve (R := plain_runtime) words_for_numbers Rel.empty).
Proof.
  apply (rel_stores_no_nan (R := plain_runtime)).
  split; constructor.
Defined.

(** [Basic <token>] authenticates as [Bearer <token>] does. *)
Lemma scheme_is_not_checked_witness :
  authenticateToken (R := plain_runtime) (at_time 1000)
    (Some ("Basic" ++ " " ++ alice_token)%string) Flat.empty
  = authenticateToken (R := plain_runtime) (at_time 1000)
      (Some ("Bearer " ++ alice_token)%string) Flat.empty.
Proof.
  apply (scheme_is_not_checked (R := plain_runtime) (at_time 1000)
           "Basic" alice_token "" Flat.empty);
    vm_compute; reflexivity.
Defined.

(** Alice donates a word, then 50: her total on the flat-document server
    is NaN. *)
Lemma unparsable_amount_witness :
  let db := Flat.serve (R := plain_runtime) alice_registered Flat.empty in
  let db1 :=
    Flat.serve (R := plain_runtime)
      [(at_time 2000,
        PostDonations alice_bearer (donation (JS.Num 50) "2024-01-02"))]
      (snd (fst (run (Flat.post_donations (at_time 1000) alice_identity
                        a_word_donation) db))) in
  PrimFloat.is_nan (totalDonations (flat_stats db1 1)) = true.
Proof.
  intros db db1.
  destruct (unparsable_amount (R := plain_runtime) (at_time 1000)
              alice_identity a_word_donation
              [(at_time 2000,
                PostDonations alice_bearer
                  (donation (JS.Num 50) "2024-01-02"))])
    as [Hflat _]; [vm_compute; reflexivity|].
  refine (Hflat db _ (flat_stats db1 1) _); vm_compute; reflexivity.
Defined.

(** After the twelve donations the page lists Alice's three latest; the
    one dated with the year alone is not among them. *)
Lemma page_lists_three_latest_witness :
  let db := Rel.serve (R := plain_runtime) twelve_donations Rel.empty in
  let out := Rel.handle (R := plain_runtime) (at_time 20000)
               (GetDashboard alice_bearer) db in
  exists pu st rc,
    body (fst (fst out)) = Dashboard pu st rc /\
    map Donation.date (page_donations rc)
      = ["2024-01-11"; "2024-01-10"; "2024-01-09"] /\
    List.length (page_donations rc) = 3%nat /\
    most_recent (Rel.donation_order (R := plain_runtime)) 3
      (filter (fun d => Donation.user_id d =? pu_id pu)
         (Rel.rows (Rel.donations db)))
      (page_donations rc).
Proof.
  intros db out.
  assert (Hb : body (fst (fst out))
               = Dashboard
                   (public true
                      {| User.id := 1; User.email := "alice@example.com";
                         User.name := "Alice";
                         User.password := Plain.hash "salt" "secret1";
                         User.created_at := 0 |})
                   (rel_stats (R := plain_runtime) db 1)
                   (rel_recent (R := plain_runtime) db 1))
    by (vm_compute; reflexivity).
  eexists _, _, _. split; [exact Hb|].
  split; [vm_compute; reflexivity|].
  assert (Hout : out = (fst (fst out), snd (fst out), snd out))
    by now destruct out as [[? ?] ?].
  destruct (page_lists_three_latest (R := plain_runtime) (at_time 20000)
              alice_bearer db (snd (fst out)) (fst (fst out)) (snd out)
              _ (rel_stats (R := plain_runtime) db 1) _ Hout Hb)
    as [Hlen Hrecent].
  split; [|exact Hrecent].
  rewrite Hlen. vm_compute. reflexivity.
Defined.
